(** * geojson_merger: a shallow embedding of [src/geojson_merger.py]

    The module is a set of Python functions over dynamically typed values
    (parsed JSON documents, pandas DataFrames read from CSV, shapely
    geometries).  The embedding keeps that shape:

    - [pyval] is the universe of Python values the functions touch;
    - a raised exception is a value of [exn], carried by [result];
    - the builtin operations the source applies to those values
      ([x[k]], [k in x], [for _ in x], [not x], [str(x)], [float(x)]) are
      written out with the exceptions CPython raises;
    - what lives in third-party libraries and cannot be read off the source
      (number parsing, [json.loads], [shape], [unary_union], the text of
      [repr] for floats and strings) is a field of the class [Externals];
      every theorem holds for every instance of it;
    - floats are IEEE binary64 ([PrimFloat]), so comparisons with NaN are
      false exactly as in Python; an int becomes the nearest float;
    - a DataFrame keeps its cells; the dtype of a column, which decides
      what [pd.to_numeric] and [iterrows] do with it, is read off the cells;
    - [st.error] / [st.warning] calls are recorded in a list of [ui] events. *)

From Stdlib Require Import ZArith List String Ascii Bool Lia.
From Stdlib Require Import PrimFloat Floats Uint63 DecimalString.
From Stdlib Require Import Sorting.Sorted Permutation.
Import ListNotations.
Open Scope string_scope.
Open Scope list_scope.
Set Warnings "-register-all".

(* ------------------------------------------------------------------ *)
(** ** Python values, exceptions *)

Inductive pyval : Type :=
| VNone
| VBool (b : bool)
| VInt (z : Z)
| VFloat (f : float)
| VStr (s : string)
| VList (l : list pyval)
| VTuple (l : list pyval)
| VDict (d : list (string * pyval)).

Inductive exn : Type :=
| KeyError (key : string)
| TypeError (msg : string)
| ValueError (msg : string)
| OverflowError (msg : string)
| JSONDecodeError (msg : string).

Inductive result (A : Type) : Type :=
| Return (a : A)
| Raise (e : exn).
Arguments Return {A} a.
Arguments Raise {A} e.

Definition bind {A B : Type} (c : result A) (k : A -> result B) : result B :=
  match c with
  | Return a => k a
  | Raise e => Raise e
  end.

Notation "x <- c ;; k" := (bind c (fun x => k))
  (at level 61, c at next level, right associativity).

Fixpoint mapM {A B : Type} (f : A -> result B) (l : list A) : result (list B) :=
  match l with
  | [] => Return []
  | a :: l' => b <- f a ;; bs <- mapM f l' ;; Return (b :: bs)
  end.

(** Events sent to the user interface ([st.error], [st.warning]). *)
Inductive ui : Type :=
| StError (msg : string)
| StWarning (msg : string).

(* ------------------------------------------------------------------ *)
(** ** shapely geometries *)

Definition coord : Type := (float * float)%type.
Definition ring : Type := list coord.

Inductive geometry : Type :=
| Point (x y : float)
| LineString (cs : list coord)
| Polygon (shell : ring) (holes : list ring)
| MultiPoint (ps : list coord)
| MultiLineString (ls : list (list coord))
| MultiPolygon (polys : list (ring * list ring))
| GeometryCollection (gs : list geometry).

Definition geom_type (g : geometry) : string :=
  match g with
  | Point _ _ => "Point"
  | LineString _ => "LineString"
  | Polygon _ _ => "Polygon"
  | MultiPoint _ => "MultiPoint"
  | MultiLineString _ => "MultiLineString"
  | MultiPolygon _ => "MultiPolygon"
  | GeometryCollection _ => "GeometryCollection"
  end.

Definition is_nil {A : Type} (l : list A) : bool :=
  match l with [] => true | _ :: _ => false end.

(** shapely's [is_empty]: no coordinates at all. *)
Fixpoint is_empty (g : geometry) : bool :=
  match g with
  | Point _ _ => false
  | LineString cs => is_nil cs
  | Polygon shell _ => is_nil shell
  | MultiPoint ps => is_nil ps
  | MultiLineString ls => forallb is_nil ls
  | MultiPolygon polys => forallb (fun p => is_nil (fst p)) polys
  | GeometryCollection gs => forallb is_empty gs
  end.

(** [bool(geometry)] in shapely is [not is_empty]. *)
Definition geom_bool (g : geometry) : bool := negb (is_empty g).

(** The constructor call [MultiPolygon(polygons)]: shapely drops the empty
    members and wraps the remaining polygons; anything that is not a
    polygon is refused. *)
Fixpoint MultiPolygon_of (gs : list geometry) : result (list (ring * list ring)) :=
  match gs with
  | [] => Return []
  | Polygon shell holes :: gs' =>
      ps <- MultiPolygon_of gs' ;;
      Return (if is_nil shell then ps else (shell, holes) :: ps)
  | g :: gs' =>
      if is_empty g then MultiPolygon_of gs'
      else Raise (TypeError ("'" ++ geom_type g ++ "' object is not subscriptable"))
  end.

Definition new_MultiPolygon (gs : list geometry) : result geometry :=
  ps <- MultiPolygon_of gs ;; Return (MultiPolygon ps).

Definition coord_tuple (c : coord) : pyval := VTuple [VFloat (fst c); VFloat (snd c)].
Definition coords_tuple (cs : list coord) : pyval := VTuple (map coord_tuple cs).
Definition polygon_coords (shell : ring) (holes : list ring) : list pyval :=
  if is_nil shell then [] else coords_tuple shell :: map coords_tuple holes.

(** [shapely.geometry.mapping]: the geometry's [__geo_interface__]. *)
Fixpoint mapping (g : geometry) : pyval :=
  match g with
  | Point x y =>
      VDict [("type", VStr "Point"); ("coordinates", VTuple [VFloat x; VFloat y])]
  | LineString cs =>
      VDict [("type", VStr "LineString"); ("coordinates", coords_tuple cs)]
  | Polygon shell holes =>
      VDict [("type", VStr "Polygon");
             ("coordinates", VTuple (polygon_coords shell holes))]
  | MultiPoint ps =>
      VDict [("type", VStr "MultiPoint"); ("coordinates", coords_tuple ps)]
  | MultiLineString ls =>
      VDict [("type", VStr "MultiLineString");
             ("coordinates", VTuple (map coords_tuple ls))]
  | MultiPolygon polys =>
      VDict [("type", VStr "MultiPolygon");
             ("coordinates",
              VList (map (fun p => VTuple (polygon_coords (fst p) (snd p))) polys))]
  | GeometryCollection gs =>
      VDict [("type", VStr "GeometryCollection");
             ("geometries", VList (map mapping gs))]
  end.

(* ------------------------------------------------------------------ *)
(** ** Library behaviour taken as a parameter *)

Class Externals : Type := {
  (** [repr] of a float and of a str (quotes and escapes). *)
  float_repr : float -> string;
  str_repr : string -> string;
  (** pandas' reading of one textual cell under [errors='coerce']: the
      integer it denotes when it is an integer literal; otherwise the float
      it denotes, NaN when it denotes no number. *)
  to_numeric_int : string -> option Z;
  to_numeric_str : string -> float;
  (** Python's [float(s)] on a str: [None] stands for ValueError. *)
  float_of_str : string -> option float;
  (** [json.loads] on a str. *)
  json_loads_str : string -> result pyval;
  (** [shapely.geometry.shape] and [shapely.ops.unary_union]. *)
  shape : pyval -> result geometry;
  unary_union : list geometry -> result geometry
}.

(* ------------------------------------------------------------------ *)
(** ** Builtin operations on values *)

Definition type_name (v : pyval) : string :=
  match v with
  | VNone => "NoneType"
  | VBool _ => "bool"
  | VInt _ => "int"
  | VFloat _ => "float"
  | VStr _ => "str"
  | VList _ => "list"
  | VTuple _ => "tuple"
  | VDict _ => "dict"
  end.

(** [isinstance(v, dict)] *)
Definition is_dict (v : pyval) : bool :=
  match v with VDict _ => true | _ => false end.

Definition is_str (v : pyval) : bool :=
  match v with VStr _ => true | _ => false end.

(** A dict is kept as its items in insertion order; a key is looked up
    from the front. *)
Fixpoint lookup {A : Type} (k : string) (d : list (string * A)) : option A :=
  match d with
  | [] => None
  | (k', v) :: d' => if String.eqb k k' then Some v else lookup k d'
  end.

Definition has_key {A : Type} (k : string) (d : list (string * A)) : bool :=
  match lookup k d with Some _ => true | None => false end.

Definition mem_str (s : string) (l : list string) : bool :=
  existsb (String.eqb s) l.

Definition is_substring (k s : string) : bool :=
  match String.index 0 k s with Some _ => true | None => false end.

(** [v[k]] for a str key [k]. *)
Definition getitem (v : pyval) (k : string) : result pyval :=
  match v with
  | VDict d =>
      match lookup k d with
      | Some x => Return x
      | None => Raise (KeyError k)
      end
  | VList _ => Raise (TypeError "list indices must be integers or slices, not str")
  | VTuple _ => Raise (TypeError "tuple indices must be integers or slices, not str")
  | VStr _ => Raise (TypeError "string indices must be integers, not 'str'")
  | _ => Raise (TypeError ("'" ++ type_name v ++ "' object is not subscriptable"))
  end.

(** [k in v] for a str [k]: key test on a dict, element test on a list or
    tuple (a str is equal to a str only), substring test on a str. *)
Definition contains (k : string) (v : pyval) : result bool :=
  match v with
  | VDict d => Return (has_key k d)
  | VList l | VTuple l =>
      Return (existsb (fun x => match x with VStr s => String.eqb k s | _ => false end) l)
  | VStr s => Return (is_substring k s)
  | _ => Raise (TypeError ("argument of type '" ++ type_name v ++ "' is not iterable"))
  end.

(** The items a [for] loop over [v] visits (a str yields its characters,
    a dict its keys). *)
Definition py_iter (v : pyval) : result (list pyval) :=
  match v with
  | VList l | VTuple l => Return l
  | VDict d => Return (map (fun kv => VStr (fst kv)) d)
  | VStr s => Return (map (fun c => VStr (String c EmptyString)) (list_ascii_of_string s))
  | _ => Raise (TypeError ("'" ++ type_name v ++ "' object is not iterable"))
  end.

(** Truth value: [not v] is [negb (truthy v)]. *)
Definition truthy (v : pyval) : bool :=
  match v with
  | VNone => false
  | VBool b => b
  | VInt z => negb (Z.eqb z 0)
  | VFloat f => negb (PrimFloat.eqb f 0%float)
  | VStr s => negb (String.eqb s "")
  | VList l | VTuple l => negb (is_nil l)
  | VDict d => negb (is_nil d)
  end.

(** [v == s] for a str literal [s]. *)
Definition eq_str (v : pyval) (s : string) : bool :=
  match v with VStr s' => String.eqb s' s | _ => false end.

Definition string_of_Z (z : Z) : string := NilZero.string_of_int (Z.to_int z).

(** int to float: the double nearest to the integer, ties to even,
    infinite from 2^1024 - 2^970 on (numpy's conversion of an int64, and
    Python's [float] where it returns). *)
Definition float_of_Z (z : Z) : float :=
  SF2Prim (binary_normalize prec emax z 0 false).

(** The integers Python's [float] converts; beyond them it raises. *)
Definition float_fits (z : Z) : bool := (Z.abs z <? 2 ^ 1024 - 2 ^ 970)%Z.

Definition join (sep : string) (l : list string) : string := String.concat sep l.

Section Builtins.
Context {E : Externals}.

(** [repr(v)] and [str(v)]. *)
Fixpoint py_repr (v : pyval) : string :=
  match v with
  | VNone => "None"
  | VBool true => "True"
  | VBool false => "False"
  | VInt z => string_of_Z z
  | VFloat f => float_repr f
  | VStr s => str_repr s
  | VList l => ("[" ++ join ", " (map py_repr l) ++ "]")%string
  | VTuple l =>
      ("(" ++ join ", " (map py_repr l)
           ++ (match l with [_] => "," | _ => "" end) ++ ")")%string
  | VDict d =>
      ("{" ++ join ", " (map (fun kv => str_repr (fst kv) ++ ": " ++ py_repr (snd kv)) d)
           ++ "}")%string
  end.

Definition py_str (v : pyval) : string :=
  match v with
  | VStr s => s
  | _ => py_repr v
  end.

(** [str(e)] for a caught exception: a KeyError prints the repr of its key. *)
Definition str_exn (e : exn) : string :=
  match e with
  | KeyError k => str_repr k
  | TypeError m | ValueError m | OverflowError m | JSONDecodeError m => m
  end.

(** [float(v)] *)
Definition py_float (v : pyval) : result float :=
  match v with
  | VFloat f => Return f
  | VInt z =>
      if float_fits z then Return (float_of_Z z)
      else Raise (OverflowError "int too large to convert to float")
  | VBool b => Return (if b then 1%float else 0%float)
  | VStr s =>
      match float_of_str s with
      | Some f => Return f
      | None => Raise (ValueError ("could not convert string to float: " ++ str_repr s))
      end
  | _ => Raise (TypeError ("float() argument must be a string or a real number, not '"
                           ++ type_name v ++ "'"))
  end.

(** [json.loads(v)]: only text is parsed. *)
Definition json_loads (v : pyval) : result pyval :=
  match v with
  | VStr s => json_loads_str s
  | _ => Raise (TypeError ("the JSON object must be str, bytes or bytearray, not "
                           ++ type_name v))
  end.

(* ---------------------------------------------------------------- *)
(** ** get_property_values *)

(** [values.add(s)] on a set kept as the list of its distinct members. *)
Definition set_add (s : string) (values : list string) : list string :=
  if mem_str s values then values else values ++ [s].

(** [sorted(...)] on strings: ascending by code point. *)
Fixpoint insert_sorted (s : string) (l : list string) : list string :=
  match l with
  | [] => [s]
  | x :: l' => if String.leb s x then s :: l else x :: insert_sorted s l'
  end.

Definition sorted (l : list string) : list string :=
  fold_right insert_sorted [] l.

(** One turn of the loop body: the set after visiting [feature]. *)
Definition property_values_step (property_name : string)
    (values : list string) (feature : pyval) : result (list string) :=
  has_props <- contains "properties" feature ;;
  if negb has_props then Return values else
  props <- getitem feature "properties" ;;
  has_name <- contains property_name props ;;
  if negb has_name then Return values else
  props' <- getitem feature "properties" ;;
  v <- getitem props' property_name ;;
  Return (set_add (py_str v) values).

Fixpoint property_values_loop (property_name : string)
    (values : list string) (features : list pyval) : result (list string) :=
  match features with
  | [] => Return values
  | feature :: rest =>
      values' <- property_values_step property_name values feature ;;
      property_values_loop property_name values' rest
  end.

Definition get_property_values (geojson_data : pyval) (property_name : string)
  : result (list string) :=
  fs <- getitem geojson_data "features" ;;
  features <- py_iter fs ;;
  values <- property_values_loop property_name [] features ;;
  Return (sorted values).

(* ---------------------------------------------------------------- *)
(** ** filter_geojson *)

(** A FilterSpec: the items of the [filters] dict, in order. *)
Definition FilterSpec : Type := list (string * list string).

(** The inner [for prop, values in filters.items()] loop; the result is the
    final value of [include_feature]. *)
Fixpoint include_feature (feature : pyval) (items : FilterSpec) : result bool :=
  match items with
  | [] => Return true
  | (prop, values) :: rest =>
      if is_nil values then include_feature feature rest else
      props <- getitem feature "properties" ;;
      has_prop <- contains prop props ;;
      if negb has_prop then Return false else
      props' <- getitem feature "properties" ;;
      v <- getitem props' prop ;;
      if negb (mem_str (py_str v) values) then Return false
      else include_feature feature rest
  end.

Fixpoint filter_loop (filters : FilterSpec) (features : list pyval)
  : result (list pyval) :=
  match features with
  | [] => Return []
  | feature :: rest =>
      keep <- include_feature feature filters ;;
      kept <- filter_loop filters rest ;;
      Return (if keep then feature :: kept else kept)
  end.

Definition filter_geojson (geojson_data : pyval) (filters : FilterSpec)
  : result pyval :=
  if is_nil filters then Return geojson_data else
  fs <- getitem geojson_data "features" ;;
  features <- py_iter fs ;;
  filtered_features <- filter_loop filters features ;;
  Return (VDict [("type", VStr "FeatureCollection");
                 ("features", VList filtered_features)]).

(* ---------------------------------------------------------------- *)
(** ** validate_geojson *)

(** [all(field in geojson_data for field in required_fields)] *)
Fixpoint all_fields_in (fields : list string) (geojson_data : pyval) : result bool :=
  match fields with
  | [] => Return true
  | field :: rest =>
      b <- contains field geojson_data ;;
      if b then all_fields_in rest geojson_data else Return false
  end.

Definition validate_geojson_body (geojson_data : pyval) : result (bool * string) :=
  geojson_data <- (if negb (is_dict geojson_data) then json_loads geojson_data
                   else Return geojson_data) ;;
  ok <- all_fields_in ["type"; "features"] geojson_data ;;
  if negb ok then Return (false, "Invalid GeoJSON structure: missing required fields") else
  t <- getitem geojson_data "type" ;;
  if negb (eq_str t "FeatureCollection")
  then Return (false, "Invalid GeoJSON: root type must be 'FeatureCollection'") else
  fs <- getitem geojson_data "features" ;;
  if negb (truthy fs) then Return (false, "GeoJSON contains no features") else
  Return (true, "Valid GeoJSON").

Definition validate_geojson (geojson_data : pyval) : bool * string :=
  match validate_geojson_body geojson_data with
  | Return r => r
  | Raise e => (false, ("Invalid GeoJSON: " ++ str_exn e)%string)
  end.

(* ---------------------------------------------------------------- *)
(** ** process_geometries and the export built in main *)

(** [[shape(feature['geometry']) for feature in geojson_data['features']]] *)
Definition feature_geometries (geojson_data : pyval) : result (list geometry) :=
  fs <- getitem geojson_data "features" ;;
  features <- py_iter fs ;;
  mapM (fun feature => g <- getitem feature "geometry" ;; shape g) features.

Definition process_geometries_body (geojson_data : pyval)
  : result (list ui * option geometry) :=
  invalid <- (if negb (truthy geojson_data) then Return true
              else (b <- contains "features" geojson_data ;; Return (negb b))) ;;
  if (invalid : bool) then Return ([StError "Invalid GeoJSON data"], None) else
  geometries <- feature_geometries geojson_data ;;
  if is_nil geometries
  then Return ([StWarning "No features found to process."], None) else
  combined <- unary_union geometries ;;
  combined <- (if String.eqb (geom_type combined) "Polygon"
               then new_MultiPolygon [combined] else Return combined) ;;
  Return ([], Some combined).

Definition process_geometries (geojson_data : pyval) : list ui * option geometry :=
  match process_geometries_body geojson_data with
  | Return r => r
  | Raise e => ([StError ("Error processing geometries: " ++ str_exn e)], None)
  end.

(** main, lines 345-353: [if combined_geometry: processed_geojson = {...}].
    [None] and an empty geometry are both false. *)
Definition processed_geojson (combined_geometry : option geometry) : option pyval :=
  match combined_geometry with
  | Some g =>
      if geom_bool g
      then Some (VDict [("type", VStr "FeatureCollection");
                        ("features",
                         VList [VDict [("type", VStr "Feature");
                                       ("geometry", mapping g);
                                       ("properties", VDict [])]])])
      else None
  | None => None
  end.

End Builtins.

(* ------------------------------------------------------------------ *)
(** ** pandas DataFrames *)

(** A row maps each column label to its cell; the frame keeps the column
    labels and the rows in order.  Cells read from CSV are scalars. *)
Definition row : Type := list (string * pyval).

Record DataFrame : Type := {
  columns : list string;
  rows : list row
}.

Fixpoint nodup_str (l : list string) : bool :=
  match l with
  | [] => true
  | x :: l' => negb (mem_str x l') && nodup_str l'
  end.

Definition list_str_eqb (l1 l2 : list string) : bool :=
  if list_eq_dec string_dec l1 l2 then true else false.

(** The TabularDataset invariant: distinct column labels, shared by all rows. *)
Definition wf_df (df : DataFrame) : bool :=
  nodup_str (columns df)
  && forallb (fun r => list_str_eqb (map fst r) (columns df)) (rows df).

(** [pd.isna] / [pd.notnull] on a scalar. *)
Definition isna (v : pyval) : bool :=
  match v with
  | VNone => true
  | VFloat f => PrimFloat.is_nan f
  | _ => false
  end.

Definition notnull (v : pyval) : bool := negb (isna v).

(** The cell of row [r] under column [c] (pandas fills an absent cell with NaN). *)
Definition cell (c : string) (r : row) : pyval :=
  match lookup c r with
  | Some v => v
  | None => VFloat PrimFloat.nan
  end.

Definition row_set (c : string) (v : pyval) (r : row) : row :=
  if has_key c r
  then map (fun kv => if String.eqb (fst kv) c then (fst kv, v) else kv) r
  else r ++ [(c, v)].

(** [df[c]]: the column as a Series. *)
Definition df_getitem (df : DataFrame) (c : string) : result (list pyval) :=
  if mem_str c (columns df) then Return (map (cell c) (rows df))
  else Raise (KeyError c).

Fixpoint set_cells (c : string) (rs : list row) (s : list pyval) : list row :=
  match rs, s with
  | r :: rs', v :: s' => row_set c v r :: set_cells c rs' s'
  | _, _ => rs
  end.

(** [df[c] = s]: the assignment replaces the column of the frame object. *)
Definition df_setitem (df : DataFrame) (c : string) (s : list pyval) : DataFrame :=
  {| columns := if mem_str c (columns df) then columns df else columns df ++ [c];
     rows := set_cells c (rows df) s |}.

Fixpoint enumerate {A : Type} (i : nat) (l : list A) : list (nat * A) :=
  match l with
  | [] => []
  | a :: l' => (i, a) :: enumerate (S i) l'
  end.

(** *** Column dtypes

    pandas stores each column under one dtype; [read_csv] gives a column
    of integers int64, a column of numbers with a fraction or a missing
    field float64 (the missing field NaN), a column of True and False
    bool, and any other column object (text, a missing field NaN).  The
    model keeps the cells and reads the dtype off them: int64 when every
    cell is an integer of that range, float64 when every cell is a float,
    bool when every cell is a bool, object otherwise.  A column whose cells
    are of mixed kinds, or hold an integer outside the int64 range, is
    thus a column of Python objects. *)
Definition in_int64 (z : Z) : bool := ((- 2 ^ 63 <=? z) && (z <? 2 ^ 63))%Z.

Inductive dtype : Type := Int64 | Float64 | Bool | Object.

Definition is_int64 (v : pyval) : bool :=
  match v with VInt z => in_int64 z | _ => false end.

Definition is_float (v : pyval) : bool :=
  match v with VFloat _ => true | _ => false end.

Definition is_bool (v : pyval) : bool :=
  match v with VBool _ => true | _ => false end.

Definition dtype_of (cells : list pyval) : dtype :=
  if forallb is_int64 cells then Int64
  else if forallb is_float cells then Float64
  else if forallb is_bool cells then Bool
  else Object.

(** [df.dtypes], in column order. *)
Definition dtypes (df : DataFrame) : list dtype :=
  map (fun c => dtype_of (map (cell c) (rows df))) (columns df).

Definition is_Int64 (t : dtype) : bool :=
  match t with Int64 => true | _ => false end.

Definition is_Int64_or_Float64 (t : dtype) : bool :=
  match t with Int64 | Float64 => true | _ => false end.

Definition is_Bool (t : dtype) : bool :=
  match t with Bool => true | _ => false end.

(** The dtype pandas gives a row that spans columns of dtypes [dts]:
    int64 and float64 columns meet in float64; a bool column beside a
    numeric one, and any object column, make the row an object row. *)
Definition common_dtype (dts : list dtype) : dtype :=
  match dts with
  | [] => Object
  | _ :: _ =>
      if forallb is_Int64 dts then Int64
      else if forallb is_Int64_or_Float64 dts then Float64
      else if forallb is_Bool dts then Bool
      else Object
  end.

(** A cell as a member of a row of dtype [t]: an int64 cell of a float64
    row is the nearest float; every other cell is the value it was. *)
Definition astype (t : dtype) (v : pyval) : pyval :=
  match t, v with
  | Float64, VInt z => VFloat (float_of_Z z)
  | _, _ => v
  end.

Definition as_series (t : dtype) (r : row) : row :=
  map (fun kv => (fst kv, astype t (snd kv))) r.

(** [df.iterrows()] on a frame with column dtypes [dts] and labelled rows
    [irows]: index label and row, the row as one Series of the common dtype
    of the columns. *)
Definition iterrows (dts : list dtype) (irows : list (nat * row))
  : list (nat * row) :=
  map (fun ir => (fst ir, as_series (common_dtype dts) (snd ir))) irows.

(** [dropna(subset=...)] on the labelled rows: the rows that are left keep
    their labels, the columns keep their dtypes. *)
Definition dropna (subset : list string) (irows : list (nat * row)) : list (nat * row) :=
  filter (fun ir => forallb (fun c => notnull (cell c (snd ir))) subset) irows.

(** [row[c]] and [row.drop(labels)] on a row Series. *)
Definition row_getitem (r : row) (c : string) : result pyval :=
  match lookup c r with
  | Some v => Return v
  | None => Raise (KeyError c)
  end.

Definition row_drop (labels : list string) (r : row) : result row :=
  match find (fun c => negb (has_key c r)) labels with
  | Some c => Raise (KeyError c)
  | None => Return (filter (fun kv => negb (mem_str (fst kv) labels)) r)
  end.

Definition in_range (lo hi x : float) : bool :=
  PrimFloat.leb lo x && PrimFloat.leb x hi.

Record outcome : Type := {
  df_after : DataFrame;            (* the caller's frame object after the call *)
  events : list ui;
  returned : result (option pyval)
}.

(** *** pd.to_numeric(_, errors='coerce') *)

(** What is read in one cell of an object column. *)
Inductive reading : Type :=
| RInt (z : Z)
| RBool (b : bool)
| RFloat (f : float).

Definition is_RFloat (r : reading) : bool :=
  match r with RFloat _ => true | _ => false end.

Definition reading_float (r : reading) : float :=
  match r with
  | RInt z => float_of_Z z
  | RBool b => if b then 1%float else 0%float
  | RFloat f => f
  end.

(** The cell of an int64 result; asked for only where no float was read. *)
Definition reading_int (r : reading) : Z :=
  match r with
  | RInt z => z
  | RBool b => if b then 1%Z else 0%Z
  | RFloat _ => 0%Z
  end.

(** What the coercion does to a whole column. *)
Inductive coercion : Type := Unchanged | AsFloats | AsInts.

(** The value of a numeric cell as a double. *)
Definition as_float64 (v : pyval) : float :=
  match v with
  | VFloat f => f
  | VInt z => float_of_Z z
  | VBool b => if b then 1%float else 0%float
  | _ => PrimFloat.nan
  end.

(** [lo <= x <= hi] on a cell of a numeric Series.  An int64 cell takes
    part as its nearest double: the conversion is monotone and the bounds
    compared with are doubles, so the answer is that of the comparison of
    the integer. *)
Definition between (lo hi : float) (v : pyval) : bool :=
  in_range lo hi (as_float64 v).

Section Pandas.
Context {E : Externals}.

(** An integer outside the int64 range is read as a float (pandas holds
    the integers from 2^63 to 2^64 - 1 as uint64 when it can; that dtype is
    not represented). *)
Definition read_int (z : Z) : reading :=
  if in_int64 z then RInt z else RFloat (float_of_Z z).

Definition read_cell (v : pyval) : reading :=
  match v with
  | VInt z => read_int z
  | VBool b => RBool b
  | VFloat f => RFloat f
  | VStr s =>
      match to_numeric_int s with
      | Some z => read_int z
      | None => RFloat (to_numeric_str s)
      end
  | _ => RFloat PrimFloat.nan
  end.

(** The number one cell is coerced to, as a double, whatever dtype its
    column takes: NaN is the result of a failed coercion. *)
Definition to_numeric1 (v : pyval) : float := reading_float (read_cell v).

(** A column of a numeric dtype (bool included) is returned as it is.  An
    object column becomes float64 as soon as one cell reads as a float (a
    fraction, NaN, None, text that is no number), and int64 otherwise, a
    bool among integers as 0 or 1. *)
Definition coercion_of (s : list pyval) : coercion :=
  match dtype_of s with
  | Object => if existsb is_RFloat (map read_cell s) then AsFloats else AsInts
  | _ => Unchanged
  end.

Definition coerce (k : coercion) (v : pyval) : pyval :=
  match k with
  | Unchanged => v
  | AsFloats => VFloat (reading_float (read_cell v))
  | AsInts => VInt (reading_int (read_cell v))
  end.

Definition to_numeric (s : list pyval) : list pyval :=
  map (coerce (coercion_of s)) s.

(* ---------------------------------------------------------------- *)
(** ** validate_csv_coordinates *)

Definition validate_csv_coordinates_body (df : DataFrame) (lat_col lon_col : string)
  : result (bool * string) :=
  if negb (mem_str lat_col (columns df)) || negb (mem_str lon_col (columns df))
  then Return (false, "Selected columns not found in CSV") else
  s1 <- df_getitem df lat_col ;;
  let lats := to_numeric s1 in
  s2 <- df_getitem df lon_col ;;
  let lons := to_numeric s2 in
  if forallb isna lats || forallb isna lons
  then Return (false, "Selected columns do not contain valid numeric data") else
  if negb (forallb (between (-90)%float 90%float) lats)
  then Return (false, "Latitude values must be between -90 and 90") else
  if negb (forallb (between (-180)%float 180%float) lons)
  then Return (false, "Longitude values must be between -180 and 180") else
  Return (true, "Valid coordinates").

Definition validate_csv_coordinates (df : DataFrame) (lat_col lon_col : string)
  : bool * string :=
  match validate_csv_coordinates_body df lat_col lon_col with
  | Return r => r
  | Raise e => (false, ("Error validating coordinates: " ++ str_exn e)%string)
  end.

(* ---------------------------------------------------------------- *)
(** ** csv_to_geojson *)

(** The body of the [try] in the row loop. *)
Definition make_feature (lat_col lon_col : string) (r : row) : result pyval :=
  vx <- row_getitem r lon_col ;;
  x <- py_float vx ;;
  vy <- row_getitem r lat_col ;;
  y <- py_float vy ;;
  let point := Point x y in
  properties <- row_drop [lat_col; lon_col] r ;;
  let properties :=
    map (fun kv => (fst kv, if notnull (snd kv) then VStr (py_str (snd kv)) else VNone))
        properties in
  Return (VDict [("type", VStr "Feature");
                 ("geometry", mapping point);
                 ("properties", VDict properties)]).

(** [for idx, row in df.iterrows()], over the frame [dropna] returned
    (bound to the local name [df]; the caller's frame keeps its rows):
    ValueError and TypeError skip the row with a warning, any other
    exception leaves the function. *)
Fixpoint feature_loop (lat_col lon_col : string) (irows : list (nat * row))
    (log : list ui) (features : list pyval) : list ui * result (list pyval) :=
  match irows with
  | [] => (log, Return features)
  | (idx, r) :: rest =>
      match make_feature lat_col lon_col r with
      | Return feature => feature_loop lat_col lon_col rest log (features ++ [feature])
      | Raise e =>
          match e with
          | ValueError _ | TypeError _ =>
              feature_loop lat_col lon_col rest
                (log ++ [StWarning ("Skipping row " ++ string_of_Z (Z.of_nat idx)
                                    ++ ": " ++ str_exn e)])
                features
          | _ => (log, Raise e)
          end
      end
  end.

Definition csv_to_geojson (df : DataFrame) (lat_col lon_col : string) : outcome :=
  match df_getitem df lat_col with
  | Raise e => {| df_after := df; events := []; returned := Raise e |}
  | Return s1 =>
  let df := df_setitem df lat_col (to_numeric s1) in
  match df_getitem df lon_col with
  | Raise e => {| df_after := df; events := []; returned := Raise e |}
  | Return s2 =>
  let df := df_setitem df lon_col (to_numeric s2) in
  (* df = df.dropna(...): a new frame under the local name; its rows keep
     the labels 0, 1, ... of the frame, its columns the dtypes *)
  let kept := dropna [lat_col; lon_col] (enumerate 0 (rows df)) in
  match feature_loop lat_col lon_col (iterrows (dtypes df) kept) [] [] with
  | (log, Raise e) => {| df_after := df; events := log; returned := Raise e |}
  | (log, Return features) =>
      if is_nil features
      then {| df_after := df;
              events := log ++ [StError "No valid features could be created from the CSV data"];
              returned := Return None |}
      else {| df_after := df;
              events := log;
              returned := Return (Some (VDict [("type", VStr "FeatureCollection");
                                               ("features", VList features)])) |}
  end
  end
  end.

End Pandas.

(* ------------------------------------------------------------------ *)
(** ** An instance of the library parameters for the examples

    Each field agrees with the library on the inputs the examples below
    feed it, and says so; the theorems do not depend on it. *)

Module Sample.

Definition digit (c : ascii) : option Z :=
  let n := nat_of_ascii c in
  if (48 <=? n)%nat && (n <=? 57)%nat then Some (Z.of_nat (n - 48)) else None.

(** Reads a run of decimal digits: value so far, digits read, rest. *)
Fixpoint digits (s : string) (acc : Z) (n : nat) : Z * nat * string :=
  match s with
  | String c s' =>
      match digit c with
      | Some d => digits s' (10 * acc + d)%Z (S n)
      | None => (acc, n, s)
      end
  | EmptyString => (acc, n, s)
  end.

(** Plain decimal literals: sign, digits, optional fraction.  The quotient
    of the two integers is the correctly rounded value while the digits
    fit in 53 bits. *)
Definition decimal (s : string) : option float :=
  let '(neg, s) :=
    match s with
    | String "-" s' => (true, s')
    | String "+" s' => (false, s')
    | _ => (false, s)
    end in
  let '(ip, n1, s) := digits s 0%Z 0 in
  let '(m, n2, s) :=
    match s with
    | String "." s' => digits s' ip 0
    | _ => (ip, 0, s)
    end in
  if negb (String.eqb s "") || (Nat.eqb (n1 + n2) 0) then None else
  let q := PrimFloat.div (float_of_Z m) (float_of_Z (10 ^ Z.of_nat n2)) in
  Some (if neg then PrimFloat.opp q else q).

(** Integer literals: sign, digits. *)
Definition integer (s : string) : option Z :=
  let '(neg, s) :=
    match s with
    | String "-" s' => (true, s')
    | String "+" s' => (false, s')
    | _ => (false, s)
    end in
  let '(m, n, s) := digits s 0%Z 0 in
  if negb (String.eqb s "") || Nat.eqb n 0 then None
  else Some (if neg then (- m)%Z else m).

(** The integer a float is, when it is one. *)
Definition integral (f : float) : option Z :=
  match Prim2SF f with
  | S754_zero _ => Some 0%Z
  | S754_finite s m e =>
      let n :=
        if (0 <=? e)%Z then Some (Z.pos m * 2 ^ e)%Z
        else if (Z.pos m mod 2 ^ (- e) =? 0)%Z then Some (Z.pos m / 2 ^ (- e))%Z
        else None in
      option_map (fun n => if s then (- n)%Z else n) n
  | _ => None
  end.

(** [repr] of the floats that are not finite and of the floats that are
    integers below 10^16, which Python writes with the digits of the
    integer and ".0"; the examples print no other float (this instance
    answers the empty string there). *)
Definition repr_float (f : float) : string :=
  if PrimFloat.is_nan f then "nan"
  else if PrimFloat.eqb f PrimFloat.infinity then "inf"
  else if PrimFloat.eqb f PrimFloat.neg_infinity then "-inf"
  else
    match integral f with
    | Some z =>
        if (Z.abs z <? 10 ^ 16)%Z
        then ((if PrimFloat.ltb (PrimFloat.div 1 f) 0 then
                 if (z =? 0)%Z then "-" else ""
               else "") ++ string_of_Z z ++ ".0")%string
        else ""
    | None => ""
    end.

(** [repr] of text without quotes, backslashes or control characters. *)
Definition repr_str (s : string) : string := "'" ++ s ++ "'".

Definition q : string := String (ascii_of_nat 34) EmptyString.

(** The serialized collection of the examples and its parse. *)
Definition collection_text : string :=
  "{" ++ q ++ "type" ++ q ++ ": " ++ q ++ "FeatureCollection" ++ q ++ ", "
      ++ q ++ "features" ++ q ++ ": [{" ++ q ++ "type" ++ q ++ ": "
      ++ q ++ "Feature" ++ q ++ "}]}".

Definition collection_doc : pyval :=
  VDict [("type", VStr "FeatureCollection");
         ("features", VList [VDict [("type", VStr "Feature")]])].

(** [json.loads] on the two texts of the examples: [collection_text], and
    "not json", which is no JSON at all. *)
Definition loads (s : string) : result pyval :=
  if String.eqb s collection_text then Return collection_doc
  else if String.eqb s "not json"
  then Raise (JSONDecodeError "Expecting value: line 1 column 1 (char 0)")
  else Raise (JSONDecodeError "text outside the sample instance").

Definition coord_of (v : pyval) : result coord :=
  match v with
  | VList [VFloat x; VFloat y] | VTuple [VFloat x; VFloat y] => Return (x, y)
  | _ => Raise (ValueError "not a coordinate pair of floats")
  end.

Definition ring_of (v : pyval) : result ring :=
  match v with
  | VList cs | VTuple cs => mapM coord_of cs
  | _ => Raise (ValueError "not a ring")
  end.

(** [shape] on Point and Polygon mappings with float coordinates. *)
Definition read_shape (v : pyval) : result geometry :=
  t <- getitem v "type" ;;
  cs <- getitem v "coordinates" ;;
  if eq_str t "Point" then
    c <- coord_of cs ;; Return (Point (fst c) (snd c))
  else if eq_str t "Polygon" then
    rings <- (match cs with
              | VList rs | VTuple rs => mapM ring_of rs
              | _ => Raise (ValueError "not a list of rings")
              end) ;;
    Return (match rings with
            | [] => Polygon [] []
            | shell :: holes => Polygon shell holes
            end)
  else Raise (ValueError "geometry type outside the sample instance").

(** [unary_union] of one geometry is that geometry. *)
Definition union (gs : list geometry) : result geometry :=
  match gs with
  | [g] => Return g
  | _ => Raise (ValueError "union outside the sample instance")
  end.

Definition externals : Externals := {|
  float_repr := repr_float;
  str_repr := repr_str;
  to_numeric_int := integer;
  to_numeric_str := fun s => match decimal s with Some f => f | None => PrimFloat.nan end;
  float_of_str := decimal;
  json_loads_str := loads;
  shape := read_shape;
  unary_union := union
|}.

End Sample.

(* ------------------------------------------------------------------ *)
(** ** Notions used to state the properties *)

(** Strict order on strings (by code point). *)
Definition str_lt (a b : string) : Prop := String.ltb a b = true.

Section Notions.
Context {E : Externals}.

(** The stringified value of property [name] of a feature, when the
    feature has a properties mapping that contains it. *)
Definition property_of (name : string) (feature : pyval) : option string :=
  match feature with
  | VDict fd =>
      match lookup "properties" fd with
      | Some (VDict props) => option_map py_str (lookup name props)
      | _ => None
      end
  | _ => None
  end.

(** A Feature of the data model: a mapping with a properties mapping. *)
Definition has_properties (feature : pyval) : bool :=
  match feature with
  | VDict fd =>
      match lookup "properties" fd with
      | Some (VDict _) => true
      | _ => false
      end
  | _ => false
  end.

(** A feature mapping whose properties entry, when present, is a mapping. *)
Definition properties_ok (feature : pyval) : bool :=
  match feature with
  | VDict fd =>
      match lookup "properties" fd with
      | Some (VDict _) | None => true
      | _ => false
      end
  | _ => false
  end.

(** A feature passes a constraint when the value-set is empty, or it has
    the property and the stringified value is in the value-set. *)
Definition passes_constraint (feature : pyval) (c : string * list string) : bool :=
  is_nil (snd c)
  || match property_of (fst c) feature with
     | Some s => mem_str s (snd c)
     | None => false
     end.

Definition passes (filters : FilterSpec) (feature : pyval) : bool :=
  forallb (passes_constraint feature) filters.

(** The set built by the loop of [get_property_values], as a fold. *)
Definition collect_values (name : string) (values : list string)
    (features : list pyval) : list string :=
  fold_left (fun acc feature =>
               match property_of name feature with
               | Some s => set_add s acc
               | None => acc
               end) features values.

(** Coercion of the coordinate in column [c] of row [r] fails. *)
Definition coordinate_fails (c : string) (r : row) : bool :=
  PrimFloat.is_nan (to_numeric1 (cell c r)).

Definition is_coordinate_column (lat_col lon_col k : string) : bool :=
  String.eqb k lat_col || String.eqb k lon_col.

(** Every non-coordinate column, stringified, a missing value as null. *)
Definition row_properties (lat_col lon_col : string) (r : row)
  : list (string * pyval) :=
  map (fun kv => (fst kv, if notnull (snd kv) then VStr (py_str (snd kv)) else VNone))
      (filter (fun kv => negb (is_coordinate_column lat_col lon_col (fst kv))) r).

(** Column [c] of a frame: what [df[c]] holds. *)
Definition column (c : string) (df : DataFrame) : list pyval :=
  map (cell c) (rows df).

(** The frame after [df[c] = pd.to_numeric(df[c], errors='coerce')]. *)
Definition assign (c : string) (df : DataFrame) : DataFrame :=
  df_setitem df c (to_numeric (column c df)).

(** The frame after the two assignments of [csv_to_geojson]. *)
Definition coerced (lat_col lon_col : string) (df : DataFrame) : DataFrame :=
  assign lon_col (assign lat_col df).

(** A cell that holds a number of one of the numeric dtypes. *)
Definition numeric (v : pyval) : bool := is_int64 v || is_float v || is_bool v.

(** A row is complete when neither coordinate cell is missing. *)
Definition complete (lat_col lon_col : string) (r : row) : bool :=
  notnull (cell lat_col r) && notnull (cell lon_col r).

(** The Feature of a row that [iterrows] yields under the row dtype [t]: a
    Point at (longitude, latitude), and every other cell of the row, as a
    value of dtype [t], stringified. *)
Definition row_feature (t : dtype) (lat_col lon_col : string) (r : row) : pyval :=
  VDict [("type", VStr "Feature");
         ("geometry",
          VDict [("type", VStr "Point");
                 ("coordinates",
                  VTuple [VFloat (to_numeric1 (cell lon_col r));
                          VFloat (to_numeric1 (cell lat_col r))])]);
         ("properties", VDict (row_properties lat_col lon_col (as_series t r)))].

(** The features of the complete rows of the frame the two assignments
    leave, under the row dtype of that frame. *)
Definition converted (lat_col lon_col : string) (df : DataFrame) : list pyval :=
  map (row_feature (common_dtype (dtypes (coerced lat_col lon_col df)))
                   lat_col lon_col)
      (filter (complete lat_col lon_col) (rows (coerced lat_col lon_col df))).

(** How a row of the frame and the row in its place after the two
    assignments are related: same labels, same cells outside the
    coordinate columns, and in each coordinate column a number, the one the
    cell was coerced to. *)
Definition coerced_from (lat_col lon_col : string) (r r2 : row) : Prop :=
  map fst r2 = map fst r
  /\ filter (fun kv => negb (is_coordinate_column lat_col lon_col (fst kv))) r2
     = filter (fun kv => negb (is_coordinate_column lat_col lon_col (fst kv))) r
  /\ forall c, is_coordinate_column lat_col lon_col c = true ->
       numeric (cell c r2) = true
       /\ as_float64 (cell c r2) = to_numeric1 (cell c r).

(** A row the loop turns into a feature: both coordinate cells are there
    and hold numbers. *)
Definition ready (lat_col lon_col : string) (r : row) : Prop :=
  has_key lat_col r = true /\ has_key lon_col r = true
  /\ numeric (cell lat_col r) = true /\ numeric (cell lon_col r) = true.

(** The integer read in a cell, if one is read, is of the int64 range. *)
Definition reads_int64 (v : pyval) : bool :=
  match v with
  | VInt z => in_int64 z
  | VStr s =>
      match to_numeric_int s with
      | Some z => in_int64 z
      | None => true
      end
  | _ => true
  end.

(** What [filter_geojson] decides for one feature when nothing is raised. *)
Definition keeps (filters : FilterSpec) (feature : pyval) : bool :=
  match include_feature feature filters with
  | Return b => b
  | Raise _ => false
  end.

End Notions.

(* ------------------------------------------------------------------ *)
(** ** Inputs of the examples *)

(** A frame as [read_csv] builds it: the latitude column is text because
    one of its fields is no number, the name column has a missing field. *)
Definition cities : DataFrame :=
  {| columns := ["lat"; "lon"; "name"; "pop"];
     rows :=
       [ [("lat", VStr "45.5"); ("lon", VInt 10); ("name", VStr "X"); ("pop", VInt 7)];
         [("lat", VStr "abc"); ("lon", VInt 20); ("name", VStr "Y"); ("pop", VInt 8)];
         [("lat", VStr "-12.25"); ("lon", VInt 130);
          ("name", VFloat PrimFloat.nan); ("pop", VInt 9)] ] |}.

(** A frame of numeric columns only, as [read_csv] builds it from the
    lines "lat,lon,pop" and "45.5,10,7": a float64 column and two int64
    columns. *)
Definition survey : DataFrame :=
  {| columns := ["lat"; "lon"; "pop"];
     rows := [ [("lat", VFloat 45.5); ("lon", VInt 10); ("pop", VInt 7)] ] |}.

(** The same row with a text column beside the numbers. *)
Definition named_survey : DataFrame :=
  {| columns := ["lat"; "lon"; "name"; "pop"];
     rows := [ [("lat", VFloat 45.5); ("lon", VInt 10);
                ("name", VStr "X"); ("pop", VInt 7)] ] |}.

Definition categorized (c : string) : pyval :=
  VDict [("type", VStr "Feature");
         ("geometry", VNone);
         ("properties", VDict [("category", VStr c); ("rank", VInt 3)])].

Definition category_features : list pyval :=
  [categorized "A"; categorized "B"; categorized "C";
   VDict [("type", VStr "Feature"); ("geometry", VNone);
          ("properties", VDict [("rank", VNone)])]].

Definition categories : list (string * pyval) :=
  [("type", VStr "FeatureCollection"); ("features", VList category_features)].

Definition by_category : FilterSpec := [("category", ["A"; "B"]); ("rank", [])].

Definition square : ring :=
  [(0%float, 0%float); (1%float, 0%float); (1%float, 1%float);
   (0%float, 1%float); (0%float, 0%float)].

Definition one_square : pyval :=
  VDict [("type", VStr "FeatureCollection");
         ("features",
          VList [VDict [("type", VStr "Feature");
                        ("geometry",
                         VDict [("type", VStr "Polygon");
                                ("coordinates",
                                 VList [VList (map (fun c => VList [VFloat (fst c);
                                                                    VFloat (snd c)])
                                                   square)])]);
                        ("properties", VDict [])]])].

(* ------------------------------------------------------------------ *)
(** ** Uploaded files and detect_file_type *)

(** An uploaded file: a buffer of bytes with a read position. *)
Record upload : Type := {
  content : string;
  position : nat
}.

(** [file.read()]: the bytes from the position to the end; the position
    moves to the end. *)
Definition file_read (file : upload) : string * upload :=
  (String.substring (position file)
                    (String.length (content file) - position file) (content file),
   {| content := content file;
      position := Nat.max (position file) (String.length (content file)) |}).

(** [file.seek(n)] *)
Definition file_seek (n : nat) (file : upload) : upload :=
  {| content := content file; position := n |}.

Class FileExternals : Type := {
  (** [content.decode('utf-8')]: [None] stands for UnicodeDecodeError. *)
  utf8_decode : string -> option string;
  (** Whether [pd.read_csv(io.BytesIO(content), nrows=1)] returns. *)
  read_csv_parses : string -> bool
}.

(** [st.success] beside the calls recorded by [ui]. *)
Inductive st_call : Type :=
| StUi (u : ui)
| StSuccess (msg : string).

Record csv_stage : Type := {
  frame : DataFrame;               (* the frame object after the stage *)
  shown : list st_call;
  current_geojson : option pyval   (* st.session_state.current_geojson *)
}.

(** The TypeError of [k in None]. *)
Definition not_iterable_none : exn :=
  TypeError "argument of type 'NoneType' is not iterable".

Section Upload.
Context {E : Externals} {F : FileExternals}.

(** The first inner [try] of [detect_file_type]: whether the content is a
    JSON mapping with the keys type and features.  JSONDecodeError and
    UnicodeDecodeError are passed over, any other exception goes on to the
    outer handler. *)
Definition parses_as_geojson (content : string) : result bool :=
  match utf8_decode content with
  | None => Return false
  | Some content_str =>
      match json_loads_str content_str with
      | Return parsed_json =>
          if is_dict parsed_json then
            has_type <- contains "type" parsed_json ;;
            if has_type then contains "features" parsed_json else Return false
          else Return false
      | Raise (JSONDecodeError _) => Return false
      | Raise e => Raise e
      end
  end.

(** The file after the call, what was reported, the answer. *)
Definition detect_file_type (file : upload) : upload * list ui * string :=
  let '(content, file) := file_read file in
  let file := file_seek 0 file in
  match parses_as_geojson content with
  | Return true => (file, [], "geojson")
  | Return false =>
      if read_csv_parses content then (file, [], "csv") else (file, [], "unknown")
  | Raise e =>
      (file, [StError ("File type detection failed: " ++ str_exn e)], "unknown")
  end.

(** main, lines 313-323, inside the [try] of the CSV branch: validate, then
    convert; [current] is the session's current document before the
    stage. *)
Definition main_csv_stage (df : DataFrame) (lat_col lon_col : string)
    (current : option pyval) : csv_stage :=
  let '(is_valid, message) := validate_csv_coordinates df lat_col lon_col in
  if negb is_valid
  then {| frame := df; shown := [StUi (StError message)]; current_geojson := current |}
  else
    let o := csv_to_geojson df lat_col lon_col in
    match returned o with
    | Raise e =>
        {| frame := df_after o;
           shown := map StUi (events o)
                    ++ [StUi (StError ("Unexpected error processing CSV file: "
                                       ++ str_exn e))];
           current_geojson := current |}
    | Return geojson_result =>
        if match geojson_result with Some v => truthy v | None => false end
        then {| frame := df_after o;
                shown := map StUi (events o)
                         ++ [StSuccess "CSV successfully converted to GeoJSON"];
                current_geojson := geojson_result |}
        else {| frame := df_after o;
                shown := map StUi (events o)
                         ++ [StUi (StError "Failed to convert CSV to GeoJSON")];
                current_geojson := current |}
    end.

(** The document the validator checks: the input itself when it is a
    mapping, its parse otherwise. *)
Definition checked_document (geojson_data : pyval) : result pyval :=
  if is_dict geojson_data then Return geojson_data else json_loads geojson_data.

(** The feature has the property. *)
Definition has_property (name : string) (feature : pyval) : bool :=
  match property_of name feature with Some _ => true | None => false end.

End Upload.

(** An instance of the file parameters for the examples: text of 7-bit
    characters decodes to itself (content with other bytes is outside the
    instance and answered as undecodable), and [read_csv] accepts any
    content that is not empty, as it does for a line of plain text. *)
Module SampleFile.

Definition ascii7 (s : string) : bool :=
  forallb (fun c => (nat_of_ascii c <? 128)%nat) (list_ascii_of_string s).

Definition files : FileExternals := {|
  utf8_decode := fun s => if ascii7 s then Some s else None;
  read_csv_parses := fun s => negb (String.eqb s "")
|}.

End SampleFile.

(* ------------------------------------------------------------------ *)
(** ** Inputs of the further examples *)

(** A frame with numeric coordinate columns, all in range. *)
Definition ports : DataFrame :=
  {| columns := ["lat"; "lon"; "name"];
     rows :=
       [ [("lat", VFloat 53.5); ("lon", VFloat 9.75); ("name", VStr "Hamburg")];
         [("lat", VFloat (-33.5)); ("lon", VFloat 18.25); ("name", VStr "Cape Town")] ] |}.

(** A frame without a longitude column. *)
Definition latitudes_only : DataFrame :=
  {| columns := ["lat"; "name"];
     rows := [ [("lat", VStr "53.5"); ("name", VStr "Hamburg")] ] |}.

Definition point_feature : pyval :=
  VDict [("type", VStr "Feature");
         ("geometry", VDict [("type", VStr "Point");
                             ("coordinates", VList [VFloat 9.75; VFloat 53.5])]);
         ("properties", VDict [])].

Definition one_point : list (string * pyval) :=
  [("type", VStr "FeatureCollection"); ("features", VList [point_feature])].

(** Features that are no Features of the data model, and a document with
    a member beside type and features. *)
Definition loose : list (string * pyval) :=
  [("type", VStr "FeatureCollection");
   ("name", VStr "layer");
   ("features", VList [VDict [("type", VStr "Feature")]; VInt 3])].

(** A collection whose second feature has null properties. *)
Definition with_null : list (string * pyval) :=
  [("type", VStr "FeatureCollection");
   ("features",
    VList ([categorized "A"]
           ++ VDict [("type", VStr "Feature"); ("geometry", VNone);
                     ("properties", VNone)]
              :: [categorized "B"]))].

(** A collection whose feature has no geometry member. *)
Definition no_geometry : list (string * pyval) :=
  [("type", VStr "FeatureCollection");
   ("features", VList [VDict [("type", VStr "Feature"); ("properties", VDict [])]])].

(** An upload holding the sample collection, not yet read. *)
Definition collection_upload : upload :=
  {| content := Sample.collection_text; position := 0 |}.

(* ------------------------------------------------------------------ *)
(** ** Documents as objects in a store

    Python hands [filter_geojson] a reference to the document, and the
    function hands references on: what it appends to its result list are
    the feature objects of the input.  To say what a call leaves of its
    input, the lists and dicts of a document are kept here as objects in a
    store, addressed by their position; None, bools, numbers and text are
    immutable and are held by value.  The functions below are
    [filter_geojson] and the builtins it uses, on references; [None] as a
    result stands for a run outside the model (an address that holds
    nothing, a document nested without end). *)

Inductive hval : Type :=
| HNone
| HBool (b : bool)
| HInt (z : Z)
| HFloat (f : float)
| HStr (s : string)
| HRef (a : nat).

Inductive hobj : Type :=
| HList (items : list hval)
| HDict (items : list (string * hval)).

Definition heap : Type := list hobj.

(** The value a reference holds when it is no address. *)
Definition scalar (x : hval) : pyval :=
  match x with
  | HNone => VNone
  | HBool b => VBool b
  | HInt z => VInt z
  | HFloat f => VFloat f
  | HStr s => VStr s
  | HRef _ => VNone
  end.

Fixpoint traverse {A B : Type} (f : A -> option B) (l : list A) : option (list B) :=
  match l with
  | [] => Some []
  | a :: l' =>
      match f a, traverse f l' with
      | Some b, Some bs => Some (b :: bs)
      | _, _ => None
      end
  end.

(** The document read through a reference, to a depth of [fuel] objects. *)
Fixpoint value_of (fuel : nat) (h : heap) (x : hval) : option pyval :=
  match x with
  | HRef a =>
      match fuel with
      | O => None
      | S fuel' =>
          match nth_error h a with
          | Some (HList l) => option_map VList (traverse (value_of fuel' h) l)
          | Some (HDict d) =>
              option_map VDict
                (traverse (fun kx => option_map (pair (fst kx))
                                                (value_of fuel' h (snd kx))) d)
          | None => None
          end
      end
  | _ => Some (scalar x)
  end.

(** Reading to the depth of the whole store reaches every object of a
    document that is not nested in itself. *)
Definition denotes (h : heap) (x : hval) (v : pyval) : Prop :=
  value_of (S (List.length h)) h x = Some v.

Definition obind {A B : Type} (c : option (result A)) (k : A -> option (result B))
  : option (result B) :=
  match c with
  | Some (Return a) => k a
  | Some (Raise e) => Some (Raise e)
  | None => None
  end.

Notation "x <~ c ;; k" := (obind c (fun x => k))
  (at level 61, c at next level, right associativity).

(** [x[k]] for a str key [k]. *)
Definition h_getitem (h : heap) (x : hval) (k : string) : option (result hval) :=
  match x with
  | HRef a =>
      match nth_error h a with
      | Some (HDict d) =>
          Some (match lookup k d with
                | Some y => Return y
                | None => Raise (KeyError k)
                end)
      | Some (HList _) =>
          Some (Raise (TypeError "list indices must be integers or slices, not str"))
      | None => None
      end
  | HStr _ => Some (Raise (TypeError "string indices must be integers, not 'str'"))
  | _ => Some (Raise (TypeError ("'" ++ type_name (scalar x)
                                 ++ "' object is not subscriptable")))
  end.

(** [k in x] for a str [k]. *)
Definition h_contains (k : string) (h : heap) (x : hval) : option (result bool) :=
  match x with
  | HRef a =>
      match nth_error h a with
      | Some (HDict d) => Some (Return (has_key k d))
      | Some (HList l) =>
          Some (Return (existsb (fun y => match y with
                                          | HStr s => String.eqb k s
                                          | _ => false
                                          end) l))
      | None => None
      end
  | HStr s => Some (Return (is_substring k s))
  | _ => Some (Raise (TypeError ("argument of type '" ++ type_name (scalar x)
                                 ++ "' is not iterable")))
  end.

(** The items a [for] loop over [x] visits.  They are the items the object
    holds when the loop starts; the loop of [filter_geojson] writes to no
    object but the list it created itself. *)
Definition h_iter (h : heap) (x : hval) : option (result (list hval)) :=
  match x with
  | HRef a =>
      match nth_error h a with
      | Some (HList l) => Some (Return l)
      | Some (HDict d) => Some (Return (map (fun kv => HStr (fst kv)) d))
      | None => None
      end
  | HStr s =>
      Some (Return (map (fun c => HStr (String c EmptyString)) (list_ascii_of_string s)))
  | _ => Some (Raise (TypeError ("'" ++ type_name (scalar x)
                                 ++ "' object is not iterable")))
  end.

(** A new object: its address is the next free one. *)
Definition alloc (o : hobj) (h : heap) : hval * heap :=
  (HRef (List.length h), h ++ [o]).

(** [l.append(x)]: the list object under [l] is replaced in the store.
    The function applies it to the list it created only. *)
Definition list_append (l x : hval) (h : heap) : option heap :=
  match l with
  | HRef a =>
      match nth_error h a with
      | Some (HList items) =>
          Some (firstn a h ++ HList (items ++ [x]) :: skipn (S a) h)
      | _ => None
      end
  | _ => None
  end.

Section Store.
Context {E : Externals}.

(** [str(x)] *)
Definition h_str (h : heap) (x : hval) : option (result string) :=
  match value_of (S (List.length h)) h x with
  | Some v => Some (Return (py_str v))
  | None => None
  end.

(** The inner loop of [filter_geojson]; it reads the store only. *)
Fixpoint include_feature_h (h : heap) (feature : hval) (items : FilterSpec)
  : option (result bool) :=
  match items with
  | [] => Some (Return true)
  | (prop, values) :: rest =>
      if is_nil values then include_feature_h h feature rest else
      props <~ h_getitem h feature "properties" ;;
      has_prop <~ h_contains prop h props ;;
      if negb has_prop then Some (Return false) else
      props' <~ h_getitem h feature "properties" ;;
      v <~ h_getitem h props' prop ;;
      s <~ h_str h v ;;
      if negb (mem_str s values) then Some (Return false)
      else include_feature_h h feature rest
  end.

(** The outer loop: a feature that is kept is appended, by reference, to
    the list under [filtered_features]. *)
Fixpoint filter_loop_h (filters : FilterSpec) (features : list hval)
    (filtered_features : hval) (h : heap) : option (result unit * heap) :=
  match features with
  | [] => Some (Return tt, h)
  | feature :: rest =>
      match include_feature_h h feature filters with
      | None => None
      | Some (Raise e) => Some (Raise e, h)
      | Some (Return keep) =>
          if (keep : bool) then
            match list_append filtered_features feature h with
            | Some h' => filter_loop_h filters rest filtered_features h'
            | None => None
            end
          else filter_loop_h filters rest filtered_features h
      end
  end.

(** [filter_geojson] on the store: the result and the store after the
    call. *)
Definition filter_geojson_h (geojson_data : hval) (filters : FilterSpec) (h : heap)
  : option (result hval * heap) :=
  if is_nil filters then Some (Return geojson_data, h) else
  let '(filtered_features, h) := alloc (HList []) h in
  match (fs <~ h_getitem h geojson_data "features" ;; h_iter h fs) with
  | None => None
  | Some (Raise e) => Some (Raise e, h)
  | Some (Return features) =>
      match filter_loop_h filters features filtered_features h with
      | None => None
      | Some (Raise e, h) => Some (Raise e, h)
      | Some (Return _, h) =>
          let '(out, h) :=
            alloc (HDict [("type", HStr "FeatureCollection");
                          ("features", filtered_features)]) h in
          Some (Return out, h)
      end
  end.

End Store.

(* ------------------------------------------------------------------ *)
(** ** A document in the store, for the examples *)

(** The collection [categories], its objects in the order a parser builds
    them: the properties and the feature of each entry, the features list,
    the document. *)
Definition category_heap : heap :=
  [ HDict [("category", HStr "A"); ("rank", HInt 3)];
    HDict [("type", HStr "Feature"); ("geometry", HNone); ("properties", HRef 0)];
    HDict [("category", HStr "B"); ("rank", HInt 3)];
    HDict [("type", HStr "Feature"); ("geometry", HNone); ("properties", HRef 2)];
    HDict [("category", HStr "C"); ("rank", HInt 3)];
    HDict [("type", HStr "Feature"); ("geometry", HNone); ("properties", HRef 4)];
    HDict [("rank", HNone)];
    HDict [("type", HStr "Feature"); ("geometry", HNone); ("properties", HRef 6)];
    HList [HRef 1; HRef 3; HRef 5; HRef 7];
    HDict [("type", HStr "FeatureCollection"); ("features", HRef 8)] ].

Definition category_doc : hval := HRef 9.

(* ------------------------------------------------------------------ *)
(** * Properties *)

Section Validation.
Context {E : Externals}.

Lemma has_key_lookup {A : Type} (k : string) (d : list (string * A)) (v : A) :
  lookup k d = Some v -> has_key k d = true.
Proof. unfold has_key. intros ->. reflexivity. Qed.

(** The required-fields test of [validate_geojson] comes first on a
    mapping: a missing key decides the answer whatever the other entries
    hold. *)
Lemma validate_geojson_missing_fields (d : list (string * pyval)) :
  has_key "type" d && has_key "features" d = false ->
  validate_geojson (VDict d) =
    (false, "Invalid GeoJSON structure: missing required fields").
Proof.
  intros H. unfold validate_geojson, validate_geojson_body. simpl.
  destruct (has_key "type" d); simpl in *.
  - rewrite H. reflexivity.
  - reflexivity.
Qed.

(** C8 (as amended).  An input that is neither a mapping nor text (an
    array, a number, a boolean, null) is handed to [json.loads], whose
    type error is caught: the answer is invalid, with the message
    "Invalid GeoJSON: the JSON object must be str, bytes or bytearray,
    not <type>", which is not the missing-required-fields message.  On a
    mapping the required-fields check precedes the type-value check and the
    non-empty-features check. *)
Theorem validate_geojson_non_mapping (v : pyval) :
  (is_dict v = false -> is_str v = false ->
   validate_geojson v =
     (false, "Invalid GeoJSON: the JSON object must be str, bytes or bytearray, not "
             ++ type_name v)%string
   /\ validate_geojson v <>
        (false, "Invalid GeoJSON structure: missing required fields"))
  /\ (forall d, v = VDict d ->
      has_key "type" d && has_key "features" d = false ->
      validate_geojson v =
        (false, "Invalid GeoJSON structure: missing required fields")).
Proof.
  split.
  - intros Hd Hs.
    destruct v; simpl in Hd, Hs; try discriminate;
      (split; [reflexivity | cbn; discriminate]).
  - intros d -> H. apply validate_geojson_missing_fields, H.
Qed.

(** C10.  Text is accepted as well as a parsed document: when the text
    parses to a mapping whose type is "FeatureCollection" and whose
    features entry is non-empty, the answer is [(True, "Valid GeoJSON")];
    when the text does not parse, the answer is invalid and carries the
    parser's message, and nothing is raised. *)
Theorem validate_geojson_text (s : string) :
  (forall d fs,
      json_loads_str s = Return (VDict d) ->
      lookup "type" d = Some (VStr "FeatureCollection") ->
      lookup "features" d = Some fs ->
      truthy fs = true ->
      validate_geojson (VStr s) = (true, "Valid GeoJSON"))
  /\ (forall e,
      json_loads_str s = Raise e ->
      validate_geojson (VStr s) = (false, "Invalid GeoJSON: " ++ str_exn e)%string).
Proof.
  split.
  - intros d fs Hp Ht Hf Hn.
    unfold validate_geojson, validate_geojson_body. simpl. rewrite Hp. simpl.
    rewrite (has_key_lookup _ _ _ Ht), (has_key_lookup _ _ _ Hf). simpl.
    rewrite Ht. simpl. rewrite Hf. simpl. rewrite Hn. reflexivity.
  - intros e Hp.
    unfold validate_geojson, validate_geojson_body. simpl. rewrite Hp. reflexivity.
Qed.

End Validation.

Section Combination.
Context {E : Externals}.

Lemma getitem_Return (v : pyval) (k : string) (x : pyval) :
  getitem v k = Return x ->
  exists d, v = VDict d /\ lookup k d = Some x.
Proof.
  destruct v; simpl; try discriminate.
  intros H. exists d. split; [reflexivity|].
  destruct (lookup k d); [injection H as -> | discriminate]. reflexivity.
Qed.

Lemma feature_geometries_has_features (doc : pyval) (gs : list geometry) :
  feature_geometries doc = Return gs ->
  truthy doc = true /\ contains "features" doc = Return true.
Proof.
  unfold feature_geometries. intros H.
  destruct (getitem doc "features") as [fs|e] eqn:Hg; [|discriminate].
  apply getitem_Return in Hg as (d & -> & Hl). simpl.
  rewrite (has_key_lookup _ _ _ Hl).
  destruct d; [discriminate|]. split; reflexivity.
Qed.

(** C6.  When the geometries of the collection union to one polygon (a
    non-empty one), [process_geometries] reports nothing and returns a
    MultiPolygon with exactly one member, that polygon with its shell and
    holes as they were. *)
Theorem process_geometries_single_polygon
    (doc : pyval) (gs : list geometry) (shell : ring) (holes : list ring) :
  feature_geometries doc = Return gs ->
  gs <> [] ->
  unary_union gs = Return (Polygon shell holes) ->
  shell <> [] ->
  process_geometries doc = ([], Some (MultiPolygon [(shell, holes)])).
Proof.
  intros Hgs Hne Hu Hs.
  destruct (feature_geometries_has_features _ _ Hgs) as [Ht Hc].
  unfold process_geometries, process_geometries_body.
  rewrite Ht, Hc. simpl. rewrite Hgs. simpl.
  destruct gs as [|g gs']; [contradiction|]. simpl.
  rewrite Hu. simpl.
  destruct shell; [contradiction|]. reflexivity.
Qed.

(** The case of a collection with exactly one polygon feature, for a union
    that leaves a lone polygon as it is. *)
Lemma process_geometries_one_feature
    (doc : pyval) (shell : ring) (holes : list ring) :
  feature_geometries doc = Return [Polygon shell holes] ->
  unary_union [Polygon shell holes] = Return (Polygon shell holes) ->
  shell <> [] ->
  process_geometries doc = ([], Some (MultiPolygon [(shell, holes)])).
Proof.
  intros Hgs Hu Hs.
  destruct (feature_geometries_has_features _ _ Hgs) as [Ht Hc].
  unfold process_geometries, process_geometries_body.
  rewrite Ht, Hc. simpl. rewrite Hgs. simpl. rewrite Hu. simpl.
  destruct shell; [contradiction | reflexivity].
Qed.

(** [process_geometries] never raises, and reports whenever it has no
    geometry to return. *)
Lemma process_geometries_none_reports (doc : pyval) (log : list ui) :
  process_geometries doc = (log, None) -> exists m, In m log.
Proof.
  unfold process_geometries.
  destruct (process_geometries_body doc) as [[l o]|e] eqn:Hb.
  - unfold process_geometries_body in Hb.
    destruct (if negb (truthy doc) then Return true
              else b <- contains "features" doc;; Return (negb b)) as [inv|e];
      simpl in Hb; [|discriminate].
    destruct inv.
    + injection Hb as <- <-. intros [= <-]. eexists. left. reflexivity.
    + destruct (feature_geometries doc) as [gs|e]; simpl in Hb; [|discriminate].
      destruct (is_nil gs).
      * injection Hb as <- <-. intros [= <-]. eexists. left. reflexivity.
      * destruct (unary_union gs) as [c|e]; simpl in Hb; [|discriminate].
        destruct (if (geom_type c =? "Polygon")%string
                  then new_MultiPolygon [c] else Return c);
          simpl in Hb; [|discriminate].
        injection Hb as <- <-. discriminate.
  - intros [= <-]. eexists. left. reflexivity.
Qed.

(** C7.  Whatever main exports after a combination is a FeatureCollection
    with exactly one Feature, whose geometry is the mapping of the combined
    geometry and whose properties are empty; and it does export it when
    the combination succeeds in main's sense (the returned geometry is
    true: present and not empty). *)
Theorem processed_geojson_single_feature (doc : pyval) (g : geometry) :
  snd (process_geometries doc) = Some g ->
  let exported :=
    VDict [("type", VStr "FeatureCollection");
           ("features",
            VList [VDict [("type", VStr "Feature");
                          ("geometry", mapping g);
                          ("properties", VDict [])]])] in
  (geom_bool g = true ->
   processed_geojson (snd (process_geometries doc)) = Some exported)
  /\ (forall out,
        processed_geojson (snd (process_geometries doc)) = Some out ->
        out = exported).
Proof.
  intros -> exported. unfold processed_geojson. split.
  - intros ->. reflexivity.
  - intros out. destruct (geom_bool g); [|discriminate].
    intros H. injection H as <-. reflexivity.
Qed.

End Combination.

(* ------------------------------------------------------------------ *)
(** ** Order on strings *)

Lemma ascii_compare_refl (a : ascii) : Ascii.compare a a = Eq.
Proof. unfold Ascii.compare. apply N.compare_refl. Qed.

Lemma ascii_compare_lt_trans (a b c : ascii) :
  Ascii.compare a b = Lt -> Ascii.compare b c = Lt -> Ascii.compare a c = Lt.
Proof.
  unfold Ascii.compare. rewrite !N.compare_lt_iff. apply N.lt_trans.
Qed.

Lemma str_compare_lt_trans (a b c : string) :
  String.compare a b = Lt -> String.compare b c = Lt -> String.compare a c = Lt.
Proof.
  revert b c. induction a as [|x a IH]; intros [|y b] [|z c]; simpl;
    try discriminate; try reflexivity.
  destruct (Ascii.compare x y) eqn:Hxy; try discriminate;
    destruct (Ascii.compare y z) eqn:Hyz; try discriminate; intros H1 H2.
  - apply Ascii.compare_eq_iff in Hxy, Hyz. subst.
    rewrite ascii_compare_refl. eapply IH; eassumption.
  - apply Ascii.compare_eq_iff in Hxy. subst. rewrite Hyz. reflexivity.
  - apply Ascii.compare_eq_iff in Hyz. subst. rewrite Hxy. reflexivity.
  - rewrite (ascii_compare_lt_trans _ _ _ Hxy Hyz). reflexivity.
Qed.

Lemma str_lt_trans (a b c : string) : str_lt a b -> str_lt b c -> str_lt a c.
Proof.
  unfold str_lt, String.ltb. intros H1 H2.
  destruct (String.compare a b) eqn:Hab; try discriminate.
  destruct (String.compare b c) eqn:Hbc; try discriminate.
  rewrite (str_compare_lt_trans _ _ _ Hab Hbc). reflexivity.
Qed.

Lemma str_lt_irrefl (a : string) : ~ str_lt a a.
Proof.
  unfold str_lt, String.ltb. intros H.
  destruct (String.compare a a) eqn:Haa; try discriminate.
  pose proof (String.compare_antisym a a) as Hs. rewrite Haa in Hs. discriminate.
Qed.

Lemma leb_true_lt (a b : string) : String.leb a b = true -> a <> b -> str_lt a b.
Proof.
  unfold str_lt, String.leb, String.ltb. intros H Hne.
  destruct (String.compare a b) eqn:Hab; try discriminate; [|reflexivity].
  apply String.compare_eq_iff in Hab. contradiction.
Qed.

Lemma leb_false_lt (a b : string) : String.leb a b = false -> str_lt b a.
Proof.
  unfold str_lt, String.leb, String.ltb. intros H.
  rewrite (String.compare_antisym b a).
  destruct (String.compare a b); try discriminate. reflexivity.
Qed.

Lemma mem_str_In (s : string) (l : list string) : mem_str s l = true <-> In s l.
Proof.
  unfold mem_str. rewrite existsb_exists. split.
  - intros (x & Hx & He). apply String.eqb_eq in He. subst. assumption.
  - intros H. exists s. split; [assumption | apply String.eqb_refl].
Qed.

Lemma In_insert_sorted (x s : string) (l : list string) :
  In x (insert_sorted s l) <-> x = s \/ In x l.
Proof.
  induction l as [|y l IH]; simpl.
  - intuition.
  - destruct (String.leb s y); simpl; [intuition | rewrite IH; intuition].
Qed.

Lemma insert_sorted_strict (s : string) (l : list string) :
  ~ In s l -> StronglySorted str_lt l -> StronglySorted str_lt (insert_sorted s l).
Proof.
  induction l as [|y l IH]; simpl; intros Hn Hs.
  - constructor; constructor.
  - inversion Hs as [|? ? Hs' Hall]; subst.
    destruct (String.leb s y) eqn:Hle.
    + assert (Hsy : str_lt s y) by (apply leb_true_lt; [assumption | intuition congruence]).
      constructor; [assumption|]. constructor; [assumption|].
      eapply Forall_impl; [|exact Hall]. intros z Hz. eapply str_lt_trans; eassumption.
    + constructor; [apply IH; tauto|].
      apply Forall_forall. intros z Hz. apply In_insert_sorted in Hz as [->|Hz].
      * apply leb_false_lt, Hle.
      * rewrite Forall_forall in Hall. apply Hall, Hz.
Qed.

Lemma sorted_strict (l : list string) :
  NoDup l ->
  StronglySorted str_lt (sorted l) /\ (forall x, In x (sorted l) <-> In x l).
Proof.
  induction 1 as [|s l Hn Hd [IHs IHi]]; simpl.
  - split; [constructor | tauto].
  - split.
    + apply insert_sorted_strict; [rewrite IHi; assumption | assumption].
    + intros x. rewrite In_insert_sorted, IHi. intuition.
Qed.

Lemma StronglySorted_str_lt_NoDup (l : list string) :
  StronglySorted str_lt l -> NoDup l.
Proof.
  induction 1 as [|a l Hs IH Hall]; constructor; [|assumption].
  intros Hin. rewrite Forall_forall in Hall. exact (str_lt_irrefl a (Hall a Hin)).
Qed.

Lemma set_add_In (x s : string) (values : list string) :
  In x (set_add s values) <-> x = s \/ In x values.
Proof.
  unfold set_add. destruct (mem_str s values) eqn:Hm.
  - apply mem_str_In in Hm. intuition congruence.
  - rewrite in_app_iff. simpl. intuition.
Qed.

Lemma set_add_NoDup (s : string) (values : list string) :
  NoDup values -> NoDup (set_add s values).
Proof.
  unfold set_add. intros Hd. destruct (mem_str s values) eqn:Hm; [assumption|].
  assert (Hn : ~ In s values).
  { intros Hin. apply mem_str_In in Hin. congruence. }
  clear Hm. induction Hd as [|y l Hy Hd IH]; simpl.
  - constructor; [intros [] | constructor].
  - simpl in Hn. constructor.
    + rewrite in_app_iff. simpl. intros [Hin | [Heq | []]]; [contradiction | subst; tauto].
    + apply IH. tauto.
Qed.

Section Filtering.
Context {E : Externals}.

Lemma include_feature_passes (feature : pyval) (filters : FilterSpec) :
  has_properties feature = true ->
  include_feature feature filters = Return (passes filters feature).
Proof.
  intros Hp. destruct feature as [| | | | | | |fd]; try discriminate.
  simpl in Hp. destruct (lookup "properties" fd) as [[| | | | | | |props]|] eqn:Hl;
    try discriminate.
  induction filters as [|[prop values] rest IH]; [reflexivity|].
  unfold passes in *. simpl. unfold passes_constraint at 1. simpl.
  destruct values as [|v vs]; [exact IH|]. simpl.
  rewrite Hl. simpl. unfold has_key.
  destruct (lookup prop props) as [x|] eqn:Hx; simpl; [|reflexivity].
  destruct (String.eqb (py_str x) v || mem_str (py_str x) vs) eqn:Hm;
    simpl; [exact IH | reflexivity].
Qed.

Lemma filter_loop_spec (filters : FilterSpec) (features : list pyval) :
  forallb has_properties features = true ->
  filter_loop filters features = Return (filter (passes filters) features).
Proof.
  induction features as [|f fs IH]; simpl; [reflexivity|].
  intros H. apply andb_true_iff in H as [Hf Hfs].
  rewrite (include_feature_passes _ _ Hf), (IH Hfs). reflexivity.
Qed.

Lemma passes_iff (filters : FilterSpec) (feature : pyval) :
  passes filters feature = true <->
  forall prop values, In (prop, values) filters ->
    values = [] \/ exists s, property_of prop feature = Some s /\ In s values.
Proof.
  unfold passes. rewrite forallb_forall. split.
  - intros H prop values Hin. specialize (H _ Hin).
    unfold passes_constraint in H. simpl in H.
    destruct values as [|v vs]; [left; reflexivity|]. right. simpl in H.
    destruct (property_of prop feature) as [s|]; [|discriminate].
    exists s. split; [reflexivity | apply mem_str_In, H].
  - intros H [prop values] Hin. unfold passes_constraint. simpl.
    destruct (H _ _ Hin) as [->|(s & -> & Hs)]; [reflexivity|].
    apply mem_str_In in Hs. rewrite Hs. apply orb_true_r.
Qed.

(** C2.  On a FeatureCollection (every feature carries a properties
    mapping) [filter_geojson] returns a FeatureCollection whose features are
    the input features that pass every constraint, in input order; a
    feature passes a constraint exactly when the value-set is empty or the
    feature has the property and its stringified value is in the value-set
    (so a feature without the property fails it); with an empty FilterSpec
    the input document itself is returned. *)
Theorem filter_geojson_spec
    (d : list (string * pyval)) (features : list pyval) (filters : FilterSpec) :
  lookup "type" d = Some (VStr "FeatureCollection") ->
  lookup "features" d = Some (VList features) ->
  forallb has_properties features = true ->
  exists out,
    filter_geojson (VDict d) filters = Return (VDict out)
    /\ lookup "type" out = Some (VStr "FeatureCollection")
    /\ lookup "features" out = Some (VList (filter (passes filters) features))
    /\ (forall feature,
          passes filters feature = true <->
          forall prop values, In (prop, values) filters ->
            values = [] \/
            exists s, property_of prop feature = Some s /\ In s values)
    /\ (filters = [] -> out = d /\ filter (passes filters) features = features).
Proof.
  intros Ht Hf Hwf.
  assert (Hall : filters = [] -> filter (passes filters) features = features).
  { intros ->. apply forallb_filter_id. apply forallb_forall. reflexivity. }
  destruct filters as [|c rest].
  - exists d. simpl.
    split; [reflexivity|]. split; [assumption|].
    split; [rewrite Hf; f_equal; f_equal; symmetry; apply Hall; reflexivity|].
    split; [intros feature; exact (passes_iff [] feature)|].
    intros _. split; [reflexivity | apply Hall; reflexivity].
  - eexists. unfold filter_geojson. simpl is_nil. cbv iota.
    simpl getitem. rewrite Hf. simpl.
    rewrite (filter_loop_spec (c :: rest) features Hwf). simpl.
    split; [reflexivity|]. split; [reflexivity|]. split; [reflexivity|].
    split; [intros feature; exact (passes_iff (c :: rest) feature) | discriminate].
Qed.

(** C4 (the code departs from it): a feature without a properties entry
    and a constraint with a non-empty value-set make [filter_geojson] raise
    KeyError; nothing in the function catches it. *)
Theorem filter_geojson_raises_without_properties :
  filter_geojson
    (VDict [("type", VStr "FeatureCollection");
            ("features", VList [VDict [("type", VStr "Feature");
                                       ("geometry", VNone)]])])
    [("kind", ["a"])]
  = Raise (KeyError "properties").
Proof. reflexivity. Qed.

(** The sibling [get_property_values] guards the same access. *)
Lemma get_property_values_without_properties (name : string) :
  get_property_values
    (VDict [("type", VStr "FeatureCollection");
            ("features", VList [VDict [("type", VStr "Feature");
                                       ("geometry", VNone)]])])
    name
  = Return [].
Proof. reflexivity. Qed.

Lemma property_values_step_spec (name : string) (values : list string)
    (feature : pyval) :
  properties_ok feature = true ->
  property_values_step name values feature =
    Return (match property_of name feature with
            | Some s => set_add s values
            | None => values
            end).
Proof.
  intros Hp. destruct feature as [| | | | | | |fd]; try discriminate.
  simpl in Hp. unfold property_values_step. simpl. unfold has_key.
  destruct (lookup "properties" fd) as [[| | | | | | |props]|] eqn:Hl;
    try discriminate; simpl; [|reflexivity].
  unfold has_key. destruct (lookup name props) as [v|]; reflexivity.
Qed.

Lemma property_values_loop_spec (name : string) (features : list pyval) :
  forallb properties_ok features = true ->
  forall values,
    property_values_loop name values features =
      Return (collect_values name values features).
Proof.
  induction features as [|f fs IH]; simpl; intros H values; [reflexivity|].
  apply andb_true_iff in H as [Hf Hfs].
  rewrite (property_values_step_spec _ _ _ Hf). simpl. apply IH, Hfs.
Qed.

Lemma collect_values_NoDup (name : string) (features : list pyval) :
  forall values, NoDup values -> NoDup (collect_values name values features).
Proof.
  induction features as [|f fs IH]; simpl; intros values Hd; [assumption|].
  apply IH. destruct (property_of name f); [apply set_add_NoDup|]; assumption.
Qed.

Lemma collect_values_In (name : string) (features : list pyval) (x : string) :
  forall values,
    In x (collect_values name values features) <->
    In x values \/ exists f, In f features /\ property_of name f = Some x.
Proof.
  induction features as [|f fs IH]; simpl; intros values.
  - split; [tauto | intros [H | (f & [] & _)]; exact H].
  - rewrite IH. split.
    + intros [H | (g & Hg & Hp)].
      * destruct (property_of name f) as [s|] eqn:Hs; [|tauto].
        apply set_add_In in H as [-> | H]; [|tauto].
        right. exists f. tauto.
      * right. exists g. tauto.
    + intros [H | (g & [<- | Hg] & Hp)].
      * left. destruct (property_of name f); [apply set_add_In|]; tauto.
      * left. rewrite Hp. apply set_add_In. tauto.
      * right. exists g. tauto.
Qed.

(** C9.  On a document with a features list (each feature a mapping whose
    properties entry, when present, is a mapping) [get_property_values]
    returns the stringified values of the property over the features whose
    properties contain it, in strictly ascending string order, hence
    without duplicates; a feature without the property adds nothing. *)
Theorem get_property_values_spec
    (d : list (string * pyval)) (features : list pyval) (name : string) :
  lookup "features" d = Some (VList features) ->
  forallb properties_ok features = true ->
  exists l,
    get_property_values (VDict d) name = Return l
    /\ StronglySorted str_lt l
    /\ NoDup l
    /\ (forall s, In s l <->
                  exists f, In f features /\ property_of name f = Some s).
Proof.
  intros Hf Hok.
  exists (sorted (collect_values name [] features)).
  unfold get_property_values. simpl. rewrite Hf. simpl.
  rewrite (property_values_loop_spec _ _ Hok). simpl.
  destruct (sorted_strict (collect_values name [] features)) as [Hs Hi].
  { apply collect_values_NoDup. constructor. }
  repeat split; try assumption.
  - apply StronglySorted_str_lt_NoDup, Hs.
  - intros H. apply Hi, collect_values_In in H as [[] | H]. exact H.
  - intros H. apply Hi, collect_values_In. right. exact H.
Qed.

End Filtering.

(* ------------------------------------------------------------------ *)
(** ** Comparisons with NaN *)

Lemma SFeqb_irrefl_nan (x : spec_float) : SFeqb x x = false -> x = S754_nan.
Proof.
  unfold SFeqb, SFcompare. destruct x as [s|s| |s m e]; try reflexivity.
  - destruct s; discriminate.
  - destruct s; discriminate.
  - rewrite Z.compare_refl, Pos.compare_cont_refl. destruct s; discriminate.
Qed.

Lemma leb_nan_r (lo x : float) :
  PrimFloat.is_nan x = true -> PrimFloat.leb lo x = false.
Proof.
  unfold PrimFloat.is_nan. rewrite negb_true_iff, FloatAxioms.eqb_spec, FloatAxioms.leb_spec. intros H.
  apply SFeqb_irrefl_nan in H. rewrite H. unfold SFleb, SFcompare.
  destruct (Prim2SF lo) as [s|s| |s m e]; try reflexivity; destruct s; reflexivity.
Qed.

Lemma in_range_not_nan (lo hi x : float) :
  in_range lo hi x = true -> PrimFloat.is_nan x = false.
Proof.
  unfold in_range. intros H. apply andb_true_iff in H as [H _].
  destruct (PrimFloat.is_nan x) eqn:Hn; [|reflexivity].
  rewrite (leb_nan_r lo x Hn) in H. discriminate.
Qed.


(* ------------------------------------------------------------------ *)
(** ** Numeric coercion of a column *)

Lemma in_int64_fits (z : Z) : in_int64 z = true -> float_fits z = true.
Proof.
  unfold in_int64, float_fits. intros H.
  apply andb_true_iff in H as [H1 H2].
  apply Z.leb_le in H1. apply Z.ltb_lt in H2. apply Z.ltb_lt.
  assert (Hb : (2 ^ 63 < 2 ^ 1024 - 2 ^ 970)%Z) by (vm_compute; reflexivity).
  assert (Hp : (0 < 2 ^ 63)%Z) by (vm_compute; reflexivity).
  revert H1 H2 Hb Hp.
  generalize (2 ^ 63)%Z (2 ^ 1024 - 2 ^ 970)%Z. intros a b. lia.
Qed.

Lemma dtype_of_numeric (s : list pyval) :
  dtype_of s <> Object -> forallb numeric s = true.
Proof.
  unfold dtype_of, numeric. intros H. apply forallb_forall. intros v Hv.
  destruct (forallb is_int64 s) eqn:H1.
  { rewrite forallb_forall in H1. rewrite (H1 v Hv). reflexivity. }
  destruct (forallb is_float s) eqn:H2.
  { rewrite forallb_forall in H2. rewrite (H2 v Hv).
    destruct (is_int64 v); reflexivity. }
  destruct (forallb is_bool s) eqn:H3.
  { rewrite forallb_forall in H3. rewrite (H3 v Hv). apply orb_true_r. }
  contradiction.
Qed.

Lemma dtype_of_floats (s : list pyval) :
  forallb is_float s = true -> dtype_of s <> Object.
Proof.
  unfold dtype_of. intros ->. destruct (forallb is_int64 s); discriminate.
Qed.

Lemma dtype_of_ints (s : list pyval) :
  forallb is_int64 s = true -> dtype_of s <> Object.
Proof. unfold dtype_of. intros ->. discriminate. Qed.

Section Coercion.
Context {E : Externals}.

Lemma in_int64_reading_int (v : pyval) :
  in_int64 (reading_int (read_cell v)) = true.
Proof.
  assert (Hi : forall z, in_int64 (reading_int (read_int z)) = true).
  { intros z. unfold read_int. destruct (in_int64 z) eqn:Hz; [exact Hz | reflexivity]. }
  destruct v as [|b|z|f|s|l|l|d]; simpl; try reflexivity.
  - destruct b; reflexivity.
  - apply Hi.
  - destruct (to_numeric_int s); [apply Hi | reflexivity].
Qed.

Lemma reading_float_read_int (z : Z) : reading_float (read_int z) = float_of_Z z.
Proof. unfold read_int. destruct (in_int64 z); reflexivity. Qed.

(** On a cell that holds a number already the coercion reads that number. *)
Lemma to_numeric1_numeric (v : pyval) :
  numeric v = true -> to_numeric1 v = as_float64 v.
Proof.
  unfold to_numeric1. destruct v; try discriminate; simpl; intros _.
  - reflexivity.
  - apply reading_float_read_int.
  - reflexivity.
Qed.

Lemma coercion_of_cases (s : list pyval) :
  (coercion_of s = Unchanged /\ dtype_of s <> Object)
  \/ (coercion_of s = AsFloats /\ dtype_of s = Object)
  \/ (coercion_of s = AsInts /\ dtype_of s = Object
      /\ forall v, In v s -> is_RFloat (read_cell v) = false).
Proof.
  unfold coercion_of. destruct (dtype_of s) eqn:Hd;
    try (left; split; [reflexivity | discriminate]).
  destruct (existsb is_RFloat (map read_cell s)) eqn:Hex.
  - right. left. split; reflexivity.
  - right. right. split; [reflexivity|]. split; [reflexivity|].
    intros v Hv. destruct (is_RFloat (read_cell v)) eqn:Hr; [|reflexivity].
    assert (Ht : existsb is_RFloat (map read_cell s) = true).
    { apply existsb_exists. exists (read_cell v). split; [|exact Hr].
      apply in_map, Hv. }
    rewrite Ht in Hex. discriminate.
Qed.

(** Every cell of a coerced column holds a number. *)
Lemma coerce_numeric (s : list pyval) (v : pyval) :
  In v s -> numeric (coerce (coercion_of s) v) = true.
Proof.
  intros Hv.
  destruct (coercion_of_cases s) as [[-> Hd] | [[-> _] | [-> _]]]; simpl.
  - pose proof (dtype_of_numeric s Hd) as Hn. rewrite forallb_forall in Hn.
    apply Hn, Hv.
  - reflexivity.
  - unfold numeric. simpl. rewrite in_int64_reading_int. reflexivity.
Qed.

Lemma to_numeric_numeric (s : list pyval) : forallb numeric (to_numeric s) = true.
Proof.
  apply forallb_forall. intros v Hv. unfold to_numeric in Hv.
  apply in_map_iff in Hv as (v0 & <- & Hv0). apply coerce_numeric, Hv0.
Qed.

Lemma dtype_of_to_numeric (s : list pyval) : dtype_of (to_numeric s) <> Object.
Proof.
  unfold to_numeric.
  destruct (coercion_of_cases s) as [[-> Hd] | [[-> _] | [-> _]]].
  - rewrite map_id. exact Hd.
  - apply dtype_of_floats. apply forallb_forall. intros v Hv.
    apply in_map_iff in Hv as (v0 & <- & _). reflexivity.
  - apply dtype_of_ints. apply forallb_forall. intros v Hv.
    apply in_map_iff in Hv as (v0 & <- & _). simpl. apply in_int64_reading_int.
Qed.

Lemma coercion_of_numeric (s : list pyval) :
  dtype_of s <> Object -> coercion_of s = Unchanged.
Proof.
  unfold coercion_of. destruct (dtype_of s); try reflexivity. contradiction.
Qed.

Lemma to_numeric_unchanged (s : list pyval) :
  dtype_of s <> Object -> to_numeric s = s.
Proof.
  intros H. unfold to_numeric. rewrite (coercion_of_numeric s H). apply map_id.
Qed.

(** Coercing a coerced column changes nothing. *)
Lemma to_numeric_again (s : list pyval) : to_numeric (to_numeric s) = to_numeric s.
Proof. apply to_numeric_unchanged, dtype_of_to_numeric. Qed.

(** The double a coerced cell holds is the number its cell was read as,
    whichever dtype the column took. *)
Lemma as_float64_coerce (s : list pyval) (v : pyval) :
  In v s -> as_float64 (coerce (coercion_of s) v) = to_numeric1 v.
Proof.
  intros Hv.
  destruct (coercion_of_cases s) as [[-> Hd] | [[-> _] | [-> [_ Hr]]]]; simpl.
  - pose proof (dtype_of_numeric s Hd) as Hn. rewrite forallb_forall in Hn.
    symmetry. apply to_numeric1_numeric, Hn, Hv.
  - reflexivity.
  - specialize (Hr v Hv). unfold to_numeric1.
    destruct (read_cell v) as [z|b|f]; simpl in *; try discriminate.
    + reflexivity.
    + destruct b; reflexivity.
Qed.

Lemma length_to_numeric (s : list pyval) : List.length (to_numeric s) = List.length s.
Proof. unfold to_numeric. apply length_map. Qed.

(** A number within bounds is no missing value. *)
Lemma between_notnull (lo hi : float) (v : pyval) :
  between lo hi v = true -> notnull v = true.
Proof.
  unfold between, notnull. intros H. apply in_range_not_nan in H.
  destruct v; simpl in *; try reflexivity; try discriminate.
  rewrite H. reflexivity.
Qed.

Lemma forallb_between_to_numeric (lo hi : float) (s : list pyval) :
  forallb (between lo hi) (to_numeric s)
  = forallb (fun v => in_range lo hi (to_numeric1 v)) s.
Proof.
  unfold to_numeric. generalize (as_float64_coerce s).
  generalize (coercion_of s). intros k Hk. unfold between.
  induction s as [|v s IH] in Hk |- *; simpl; [reflexivity|].
  rewrite (Hk v) by (left; reflexivity). f_equal.
  apply IH. intros v' Hv'. apply Hk. right. exact Hv'.
Qed.

Lemma forallb_isna_between (lo hi : float) (l : list pyval) :
  l <> [] -> forallb (between lo hi) l = true -> forallb isna l = false.
Proof.
  destruct l as [|v l]; [contradiction|]. simpl. intros _ H.
  apply andb_true_iff in H as [H _]. apply between_notnull in H.
  unfold notnull in H. apply negb_true_iff in H. rewrite H. reflexivity.
Qed.

End Coercion.

(* ------------------------------------------------------------------ *)
(** ** The coordinate validator *)

Section Coordinates.
Context {E : Externals}.

Lemma forallb_map_in_range (f : row -> float) (lo hi : float) (rs : list row) :
  forallb (in_range lo hi) (map f rs) = forallb (fun r => in_range lo hi (f r)) rs.
Proof.
  induction rs as [|r rs IH]; simpl; [reflexivity | rewrite IH; reflexivity].
Qed.

(** The range test of the validator, on the rows of the frame. *)
Lemma forallb_between_column (lo hi : float) (c : string) (df : DataFrame) :
  forallb (between lo hi) (to_numeric (map (cell c) (rows df)))
  = forallb (fun r => in_range lo hi (to_numeric1 (cell c r))) (rows df).
Proof.
  rewrite forallb_between_to_numeric.
  induction (rows df) as [|r rs IH]; simpl; [reflexivity | rewrite IH; reflexivity].
Qed.

(** What the range test of [validate_csv_coordinates] does with a value
    that failed coercion: the comparison with NaN is false, so a single
    such value in either column makes the whole answer invalid. *)
Lemma validate_csv_coordinates_failed_coercion
    (df : DataFrame) (lat_col lon_col : string) :
  existsb (fun r => coordinate_fails lat_col r || coordinate_fails lon_col r)
          (rows df) = true ->
  fst (validate_csv_coordinates df lat_col lon_col) = false.
Proof.
  intros Hex. unfold validate_csv_coordinates, validate_csv_coordinates_body.
  destruct (negb (mem_str lat_col (columns df)) || negb (mem_str lon_col (columns df)))
    eqn:Hc; [reflexivity|].
  apply orb_false_iff in Hc as [Hlat Hlon].
  apply negb_false_iff in Hlat, Hlon.
  unfold df_getitem. rewrite Hlat, Hlon. simpl.
  rewrite !forallb_between_column.
  destruct (forallb isna _ || forallb isna _); [reflexivity|].
  destruct (forallb (fun r => in_range (-90) 90 _) (rows df)) eqn:Hr1;
    simpl; [|reflexivity].
  destruct (forallb (fun r => in_range (-180) 180 _) (rows df)) eqn:Hr2;
    simpl; [|reflexivity].
  exfalso. apply existsb_exists in Hex as (r & Hin & Hf).
  rewrite forallb_forall in Hr1, Hr2.
  pose proof (in_range_not_nan _ _ _ (Hr1 r Hin)) as H1.
  pose proof (in_range_not_nan _ _ _ (Hr2 r Hin)) as H2.
  unfold coordinate_fails in Hf. rewrite H1, H2 in Hf. discriminate.
Qed.

(** With every value coerced and in range the answer is valid. *)
Lemma validate_csv_coordinates_all_numeric
    (df : DataFrame) (lat_col lon_col : string) :
  mem_str lat_col (columns df) = true ->
  mem_str lon_col (columns df) = true ->
  rows df <> [] ->
  forallb (fun r => in_range (-90) 90 (to_numeric1 (cell lat_col r))) (rows df) = true ->
  forallb (fun r => in_range (-180) 180 (to_numeric1 (cell lon_col r))) (rows df) = true ->
  validate_csv_coordinates df lat_col lon_col = (true, "Valid coordinates").
Proof.
  intros Hlat Hlon Hne H1 H2.
  unfold validate_csv_coordinates, validate_csv_coordinates_body, df_getitem.
  rewrite Hlat, Hlon. simpl.
  assert (Hn : forall c, to_numeric (map (cell c) (rows df)) <> []).
  { intros c Hnil. apply (f_equal (@List.length pyval)) in Hnil.
    rewrite length_to_numeric, length_map in Hnil.
    destruct (rows df); [contradiction | discriminate]. }
  rewrite <- forallb_between_column in H1, H2.
  rewrite (forallb_isna_between _ _ _ (Hn _) H1).
  rewrite (forallb_isna_between _ _ _ (Hn _) H2).
  simpl. rewrite H1, H2. reflexivity.
Qed.

(** What a positive verdict of [validate_csv_coordinates] rests on. *)
Lemma validate_csv_coordinates_valid_inv (df : DataFrame) (lat_col lon_col : string) :
  fst (validate_csv_coordinates df lat_col lon_col) = true ->
  mem_str lat_col (columns df) = true
  /\ mem_str lon_col (columns df) = true
  /\ rows df <> []
  /\ forallb (fun r => in_range (-90) 90 (to_numeric1 (cell lat_col r))) (rows df) = true
  /\ forallb (fun r => in_range (-180) 180 (to_numeric1 (cell lon_col r))) (rows df)
     = true.
Proof.
  unfold validate_csv_coordinates, validate_csv_coordinates_body, df_getitem.
  destruct (mem_str lat_col (columns df)); simpl; [|discriminate].
  destruct (mem_str lon_col (columns df)); simpl; [|discriminate].
  rewrite !forallb_between_column.
  destruct (forallb isna _ || forallb isna _) eqn:Hn; simpl; [discriminate|].
  destruct (forallb (fun r => in_range (-90) 90 _) (rows df)) eqn:H1;
    simpl; [|discriminate].
  destruct (forallb (fun r => in_range (-180) 180 _) (rows df)) eqn:H2;
    simpl; [|discriminate].
  intros _. repeat split.
  intros Hnil. rewrite Hnil in Hn. discriminate.
Qed.

End Coordinates.

(* ------------------------------------------------------------------ *)
(** ** Rows and column assignment *)

Lemma has_key_map_fst {A : Type} (k : string) (r : list (string * A)) :
  has_key k r = mem_str k (map fst r).
Proof.
  unfold has_key, mem_str. induction r as [|[k' v] r IH]; simpl; [reflexivity|].
  destruct (String.eqb k k'); [reflexivity | exact IH].
Qed.

Lemma row_set_present (c : string) (v : pyval) (r : row) :
  has_key c r = true ->
  row_set c v r = map (fun kv => if String.eqb (fst kv) c then (fst kv, v) else kv) r.
Proof. unfold row_set. intros ->. reflexivity. Qed.

Lemma lookup_row_set (k c : string) (v : pyval) (r : row) :
  has_key c r = true ->
  lookup k (row_set c v r) = if String.eqb k c then Some v else lookup k r.
Proof.
  intros Hc. rewrite (row_set_present _ _ _ Hc).
  unfold has_key in Hc.
  induction r as [|[k' x] r IH]; simpl in *; [discriminate|].
  destruct (String.eqb k' c) eqn:Hk'; simpl.
  - apply String.eqb_eq in Hk'. subst k'.
    destruct (String.eqb k c) eqn:Hk; [reflexivity|].
    destruct (String.eqb c c) eqn:Hcc in Hc.
    + clear IH. induction r as [|[k2 x2] r IHr]; simpl; [reflexivity|].
      destruct (String.eqb k2 c) eqn:Hk2; simpl.
      * apply String.eqb_eq in Hk2. subst k2. rewrite Hk. exact IHr.
      * destruct (String.eqb k k2); [reflexivity | exact IHr].
    + rewrite String.eqb_refl in Hcc. discriminate.
  - destruct (String.eqb k k') eqn:Hkk.
    + apply String.eqb_eq in Hkk. subst k'. rewrite Hk'. reflexivity.
    + apply IH. rewrite String.eqb_sym in Hk'. rewrite Hk' in Hc. exact Hc.
Qed.

Lemma map_fst_row_set (c : string) (v : pyval) (r : row) :
  has_key c r = true -> map fst (row_set c v r) = map fst r.
Proof.
  intros Hc. rewrite (row_set_present _ _ _ Hc). rewrite map_map.
  apply map_ext. intros [k x]. simpl. destruct (String.eqb k c); reflexivity.
Qed.

Lemma has_key_row_set (k c : string) (v : pyval) (r : row) :
  has_key c r = true -> has_key k (row_set c v r) = has_key k r.
Proof.
  intros Hc. rewrite !has_key_map_fst, (map_fst_row_set _ _ _ Hc). reflexivity.
Qed.

Lemma filter_row_set (p : string -> bool) (c : string) (v : pyval) (r : row) :
  has_key c r = true -> p c = false ->
  filter (fun kv => p (fst kv)) (row_set c v r) = filter (fun kv => p (fst kv)) r.
Proof.
  intros Hc Hp. rewrite (row_set_present _ _ _ Hc). clear Hc.
  induction r as [|[k x] r IH]; simpl; [reflexivity|].
  destruct (String.eqb k c) eqn:Hk; simpl.
  - apply String.eqb_eq in Hk. subst k. rewrite Hp. exact IH.
  - destruct (p k); [f_equal|]; exact IH.
Qed.

Lemma set_cells_map (c : string) (g : row -> pyval) (rs : list row) :
  set_cells c rs (map g rs) = map (fun r => row_set c (g r) r) rs.
Proof.
  induction rs as [|r rs IH]; simpl; [reflexivity | rewrite IH; reflexivity].
Qed.

Lemma cell_row_set (k c : string) (v : pyval) (r : row) :
  has_key c r = true ->
  cell k (row_set c v r) = if String.eqb k c then v else cell k r.
Proof.
  intros Hc. unfold cell. rewrite (lookup_row_set _ _ _ _ Hc).
  destruct (String.eqb k c); reflexivity.
Qed.

Lemma lookup_cell (k : string) (r : row) :
  has_key k r = true -> lookup k r = Some (cell k r).
Proof. unfold has_key, cell. destruct (lookup k r); [reflexivity | discriminate]. Qed.

(** In a row with distinct labels a label leads to the one cell under it. *)
Lemma nodup_lookup (c : string) (x : pyval) (r : row) :
  nodup_str (map fst r) = true -> In (c, x) r -> lookup c r = Some x.
Proof.
  induction r as [|[k y] r IH]; simpl; [contradiction|]. intros Hnd [Heq | Hin].
  - injection Heq as -> ->. rewrite String.eqb_refl. reflexivity.
  - apply andb_true_iff in Hnd as [Hk Hnd]. destruct (String.eqb c k) eqn:Hck.
    + apply String.eqb_eq in Hck. subst k. exfalso.
      apply negb_true_iff in Hk.
      assert (Hm : mem_str c (map fst r) = true).
      { unfold mem_str. apply existsb_exists. exists c.
        split; [|apply String.eqb_refl].
        apply in_map_iff. exists (c, x). split; [reflexivity | exact Hin]. }
      rewrite Hm in Hk. discriminate.
    + apply IH; assumption.
Qed.

(** Writing back the cell a row holds leaves the row as it is. *)
Lemma row_set_same (c : string) (r : row) :
  nodup_str (map fst r) = true -> has_key c r = true -> row_set c (cell c r) r = r.
Proof.
  intros Hnd Hc. rewrite (row_set_present _ _ _ Hc).
  rewrite <- (map_id r) at 2. apply map_ext_in. intros [k x] Hin. simpl.
  destruct (String.eqb k c) eqn:Hk; [|reflexivity].
  apply String.eqb_eq in Hk. subst k.
  unfold cell. rewrite (nodup_lookup c x r Hnd Hin). reflexivity.
Qed.

Lemma wf_df_has_key (df : DataFrame) (c : string) :
  wf_df df = true -> mem_str c (columns df) = true ->
  Forall (fun r => has_key c r = true) (rows df).
Proof.
  unfold wf_df. intros H Hc. apply andb_true_iff in H as [_ H].
  rewrite forallb_forall in H. apply Forall_forall. intros r Hr.
  specialize (H r Hr). unfold list_str_eqb in H.
  destruct (list_eq_dec string_dec (map fst r) (columns df)) as [Heq|]; [|discriminate].
  rewrite has_key_map_fst, Heq. exact Hc.
Qed.

Lemma wf_df_has_keys (df : DataFrame) (lat_col lon_col : string) :
  wf_df df = true ->
  mem_str lat_col (columns df) = true -> mem_str lon_col (columns df) = true ->
  Forall (fun r => has_key lat_col r = true /\ has_key lon_col r = true) (rows df).
Proof.
  intros Hwf Hlat Hlon.
  pose proof (wf_df_has_key _ _ Hwf Hlat) as H1.
  pose proof (wf_df_has_key _ _ Hwf Hlon) as H2.
  rewrite Forall_forall in *. intros r Hr. split; [apply H1 | apply H2]; exact Hr.
Qed.

Lemma wf_df_nodup (df : DataFrame) :
  wf_df df = true -> Forall (fun r => nodup_str (map fst r) = true) (rows df).
Proof.
  unfold wf_df. intros H. apply andb_true_iff in H as [Hnd H].
  rewrite forallb_forall in H. apply Forall_forall. intros r Hr.
  specialize (H r Hr). unfold list_str_eqb in H.
  destruct (list_eq_dec string_dec (map fst r) (columns df)) as [Heq|]; [|discriminate].
  rewrite Heq. exact Hnd.
Qed.

Lemma wf_df_same_labels (df : DataFrame) (rs : list row) :
  wf_df df = true -> map (map fst) rs = map (map fst) (rows df) ->
  wf_df {| columns := columns df; rows := rs |} = true.
Proof.
  unfold wf_df. cbn [columns rows]. intros H Hl.
  apply andb_true_iff in H as [Hnd H]. rewrite Hnd. simpl.
  assert (Hf : forall l : list (list string),
             forallb (fun ks => list_str_eqb ks (columns df)) l
             = forallb (fun ks => list_str_eqb ks (columns df)) l) by reflexivity.
  assert (Hm : forall l : list row,
             forallb (fun r => list_str_eqb (map fst r) (columns df)) l
             = forallb (fun ks => list_str_eqb ks (columns df)) (map (map fst) l)).
  { induction l as [|r l IH]; simpl; [reflexivity | rewrite IH; reflexivity]. }
  rewrite Hm, Hl, <- Hm. exact H.
Qed.

Section Assignment.
Context {E : Externals}.

Lemma rows_assign (c : string) (df : DataFrame) :
  rows (assign c df)
  = map (fun r => row_set c (coerce (coercion_of (column c df)) (cell c r)) r) (rows df).
Proof.
  unfold assign, df_setitem, to_numeric, column. cbn [rows]. rewrite map_map.
  apply (set_cells_map c (fun r => coerce _ (cell c r))).
Qed.

Lemma columns_assign (c : string) (df : DataFrame) :
  mem_str c (columns df) = true -> columns (assign c df) = columns df.
Proof. unfold assign, df_setitem. cbn [columns]. intros ->. reflexivity. Qed.

Lemma labels_assign (c : string) (df : DataFrame) :
  Forall (fun r => has_key c r = true) (rows df) ->
  map (map fst) (rows (assign c df)) = map (map fst) (rows df).
Proof.
  intros Hk. rewrite rows_assign, map_map. apply map_ext_in. intros r Hr.
  rewrite Forall_forall in Hk. apply map_fst_row_set, Hk, Hr.
Qed.

(** The columns of the frame after one assignment. *)
Lemma column_assign (c' c : string) (df : DataFrame) :
  Forall (fun r => has_key c r = true) (rows df) ->
  column c' (assign c df)
  = if String.eqb c' c then to_numeric (column c df) else column c' df.
Proof.
  intros Hk. rewrite Forall_forall in Hk.
  unfold column at 1. rewrite rows_assign, map_map.
  destruct (String.eqb c' c) eqn:Hc.
  - apply String.eqb_eq in Hc. subst c'. unfold to_numeric, column.
    rewrite map_map. apply map_ext_in. intros r Hr.
    rewrite (cell_row_set _ _ _ _ (Hk r Hr)), String.eqb_refl. reflexivity.
  - unfold column. apply map_ext_in. intros r Hr.
    rewrite (cell_row_set _ _ _ _ (Hk r Hr)), Hc. reflexivity.
Qed.

Lemma wf_df_assign (c : string) (df : DataFrame) :
  wf_df df = true -> mem_str c (columns df) = true -> wf_df (assign c df) = true.
Proof.
  intros Hwf Hc.
  pose proof (labels_assign c df (wf_df_has_key _ _ Hwf Hc)) as Hl.
  pose proof (wf_df_same_labels df _ Hwf Hl) as H.
  rewrite <- (columns_assign c df Hc) in H. destruct (assign c df). exact H.
Qed.

(** Assigning to a column that is numeric already leaves the frame as it
    is. *)
Lemma assign_fixed (c : string) (df : DataFrame) :
  wf_df df = true -> mem_str c (columns df) = true ->
  dtype_of (column c df) <> Object -> assign c df = df.
Proof.
  intros Hwf Hc Hd.
  pose proof (wf_df_has_key _ _ Hwf Hc) as Hk.
  pose proof (wf_df_nodup _ Hwf) as Hnd.
  pose proof (rows_assign c df) as Hr. pose proof (columns_assign c df Hc) as Hcs.
  rewrite (coercion_of_numeric _ Hd) in Hr. cbn [coerce] in Hr.
  assert (Hr' : rows (assign c df) = rows df).
  { rewrite Hr. rewrite <- (map_id (rows df)) at 2. apply map_ext_in. intros r Hin.
    rewrite Forall_forall in Hk, Hnd. apply row_set_same; [apply Hnd | apply Hk]; exact Hin. }
  destruct (assign c df), df. cbn [rows columns] in Hr', Hcs. rewrite Hr', Hcs.
  reflexivity.
Qed.

Variables lat_col lon_col : string.

Lemma columns_coerced (df : DataFrame) :
  mem_str lat_col (columns df) = true -> mem_str lon_col (columns df) = true ->
  columns (coerced lat_col lon_col df) = columns df.
Proof.
  intros Hlat Hlon. unfold coerced.
  pose proof (columns_assign lat_col df Hlat) as H1.
  rewrite columns_assign; rewrite H1; [reflexivity | exact Hlon].
Qed.

Lemma wf_df_coerced (df : DataFrame) :
  wf_df df = true ->
  mem_str lat_col (columns df) = true -> mem_str lon_col (columns df) = true ->
  wf_df (coerced lat_col lon_col df) = true.
Proof.
  intros Hwf Hlat Hlon. unfold coerced.
  apply wf_df_assign; [apply wf_df_assign; assumption|].
  rewrite columns_assign; assumption.
Qed.

Lemma labels_coerced (df : DataFrame) :
  wf_df df = true ->
  mem_str lat_col (columns df) = true -> mem_str lon_col (columns df) = true ->
  map (map fst) (rows (coerced lat_col lon_col df)) = map (map fst) (rows df).
Proof.
  intros Hwf Hlat Hlon. unfold coerced.
  rewrite labels_assign.
  - apply labels_assign, wf_df_has_key; assumption.
  - apply wf_df_has_key; [apply wf_df_assign; assumption|].
    rewrite columns_assign; assumption.
Qed.

(** The columns of the frame after the two assignments: a coordinate
    column holds what [pd.to_numeric] makes of it, any other column what
    it held. *)
Lemma column_coerced (c : string) (df : DataFrame) :
  wf_df df = true ->
  mem_str lat_col (columns df) = true -> mem_str lon_col (columns df) = true ->
  column c (coerced lat_col lon_col df)
  = if is_coordinate_column lat_col lon_col c
    then to_numeric (column c df) else column c df.
Proof.
  intros Hwf Hlat Hlon. unfold coerced, is_coordinate_column.
  pose proof (wf_df_has_key _ _ Hwf Hlat) as Hk1.
  assert (Hk2 : Forall (fun r => has_key lon_col r = true) (rows (assign lat_col df))).
  { apply wf_df_has_key; [apply wf_df_assign; assumption|].
    rewrite columns_assign; assumption. }
  rewrite (column_assign c lon_col _ Hk2).
  rewrite !(column_assign _ lat_col df Hk1).
  destruct (String.eqb c lon_col) eqn:H2.
  - apply String.eqb_eq in H2. subst c. rewrite orb_true_r.
    destruct (String.eqb lon_col lat_col) eqn:H1; [|reflexivity].
    apply String.eqb_eq in H1. rewrite H1. apply to_numeric_again.
  - rewrite orb_false_r. destruct (String.eqb c lat_col) eqn:H1; [|reflexivity].
    apply String.eqb_eq in H1. rewrite H1. reflexivity.
Qed.

(** The frame the two assignments leave is a fixed point of them. *)
Lemma coerced_again (df : DataFrame) :
  wf_df df = true ->
  mem_str lat_col (columns df) = true -> mem_str lon_col (columns df) = true ->
  coerced lat_col lon_col (coerced lat_col lon_col df) = coerced lat_col lon_col df.
Proof.
  intros Hwf Hlat Hlon.
  pose proof (wf_df_coerced df Hwf Hlat Hlon) as Hwf2.
  pose proof (columns_coerced df Hlat Hlon) as Hcs.
  assert (Hd : forall c, is_coordinate_column lat_col lon_col c = true ->
                         dtype_of (column c (coerced lat_col lon_col df)) <> Object).
  { intros c Hc. rewrite (column_coerced c df Hwf Hlat Hlon), Hc.
    apply dtype_of_to_numeric. }
  unfold coerced at 1.
  rewrite (assign_fixed lat_col (coerced lat_col lon_col df)).
  - apply assign_fixed; [exact Hwf2 | rewrite Hcs; exact Hlon |].
    apply Hd. unfold is_coordinate_column. rewrite String.eqb_refl. apply orb_true_r.
  - exact Hwf2.
  - rewrite Hcs. exact Hlat.
  - apply Hd. unfold is_coordinate_column. rewrite String.eqb_refl. reflexivity.
Qed.

Lemma Forall2_map_r {A B : Type} (R : A -> B -> Prop) (f : A -> B) (l : list A) :
  (forall x, In x l -> R x (f x)) -> Forall2 R l (map f l).
Proof.
  induction l as [|x l IH]; simpl; intros H; constructor.
  - apply H. left. reflexivity.
  - apply IH. intros y Hy. apply H. right. exact Hy.
Qed.

Lemma rows_coerced_from (df : DataFrame) :
  wf_df df = true ->
  mem_str lat_col (columns df) = true -> mem_str lon_col (columns df) = true ->
  Forall2 (coerced_from lat_col lon_col) (rows df) (rows (coerced lat_col lon_col df)).
Proof.
  intros Hwf Hlat Hlon. unfold coerced.
  pose proof (wf_df_has_keys _ _ _ Hwf Hlat Hlon) as Hkeys.
  rewrite Forall_forall in Hkeys.
  rewrite (rows_assign lon_col). rewrite (rows_assign lat_col) at 1.
  rewrite map_map. apply Forall2_map_r. intros r Hr.
  destruct (Hkeys r Hr) as [H1 H2].
  set (k1 := coercion_of (column lat_col df)).
  set (r1 := row_set lat_col (coerce k1 (cell lat_col r)) r).
  set (k2 := coercion_of (column lon_col (assign lat_col df))).
  assert (H2' : has_key lon_col r1 = true)
    by (unfold r1; rewrite has_key_row_set; assumption).
  assert (Hin1 : In (cell lat_col r) (column lat_col df))
    by (apply in_map, Hr).
  assert (Hin2 : In (cell lon_col r1) (column lon_col (assign lat_col df))).
  { unfold column. rewrite rows_assign, map_map.
    apply in_map_iff. exists r. split; [reflexivity | exact Hr]. }
  assert (Hc1 : numeric (coerce k1 (cell lat_col r)) = true
                /\ as_float64 (coerce k1 (cell lat_col r))
                   = to_numeric1 (cell lat_col r)).
  { split; [apply coerce_numeric | apply as_float64_coerce]; exact Hin1. }
  assert (Hc2 : numeric (coerce k2 (cell lon_col r1)) = true
                /\ as_float64 (coerce k2 (cell lon_col r1))
                   = to_numeric1 (cell lon_col r)).
  { split; [apply coerce_numeric, Hin2|].
    unfold k2. rewrite (as_float64_coerce _ _ Hin2).
    unfold r1. rewrite (cell_row_set _ _ _ _ H1).
    destruct (String.eqb lon_col lat_col) eqn:Hll; [|reflexivity].
    apply String.eqb_eq in Hll. rewrite Hll.
    destruct Hc1 as [Hn Hf]. rewrite (to_numeric1_numeric _ Hn). exact Hf. }
  split; [|split].
  - rewrite (map_fst_row_set _ _ _ H2'). apply map_fst_row_set, H1.
  - rewrite (filter_row_set
               (fun k => negb (is_coordinate_column lat_col lon_col k)) _ _ _ H2')
      by (unfold is_coordinate_column; rewrite String.eqb_refl, orb_true_r;
          reflexivity).
    apply (filter_row_set (fun k => negb (is_coordinate_column lat_col lon_col k))
                          _ _ _ H1).
    unfold is_coordinate_column. rewrite String.eqb_refl. reflexivity.
  - intros c Hc. rewrite (cell_row_set _ _ _ _ H2').
    destruct (String.eqb c lon_col) eqn:Hcl.
    + apply String.eqb_eq in Hcl. subst c. exact Hc2.
    + unfold is_coordinate_column in Hc. rewrite Hcl, orb_false_r in Hc.
      apply String.eqb_eq in Hc. subst c.
      unfold r1. rewrite (cell_row_set _ _ _ _ H1), String.eqb_refl. exact Hc1.
Qed.

End Assignment.

(* ------------------------------------------------------------------ *)
(** ** The row loop of csv_to_geojson *)

Lemma lookup_as_series (t : dtype) (c : string) (r : row) :
  lookup c (as_series t r) = option_map (astype t) (lookup c r).
Proof.
  unfold as_series. induction r as [|[k x] r IH]; simpl; [reflexivity|].
  destruct (String.eqb c k); [reflexivity | exact IH].
Qed.

Lemma has_key_as_series (t : dtype) (c : string) (r : row) :
  has_key c (as_series t r) = has_key c r.
Proof.
  unfold has_key. rewrite lookup_as_series. destruct (lookup c r); reflexivity.
Qed.

Lemma filter_as_series (t : dtype) (p : string -> bool) (r : row) :
  filter (fun kv => p (fst kv)) (as_series t r)
  = as_series t (filter (fun kv => p (fst kv)) r).
Proof.
  unfold as_series. induction r as [|[k x] r IH]; simpl; [reflexivity|].
  destruct (p k); simpl; rewrite IH; reflexivity.
Qed.

Section Conversion.
Context {E : Externals}.

Variables lat_col lon_col : string.

(** [float] of a numeric cell of a row, whatever the dtype of the row. *)
Lemma py_float_astype (t : dtype) (v : pyval) :
  numeric v = true -> py_float (astype t v) = Return (as_float64 v).
Proof.
  destruct v as [|b|z|f|s|l|l|d]; try discriminate; intros Hn.
  - destruct t; reflexivity.
  - unfold numeric in Hn. simpl in Hn. rewrite !orb_false_r in Hn.
    destruct t; simpl; try (rewrite (in_int64_fits z Hn)); reflexivity.
  - destruct t; reflexivity.
Qed.

Lemma row_properties_filter (r : row) :
  map (fun kv => (fst kv, if notnull (snd kv) then VStr (py_str (snd kv)) else VNone))
      (filter (fun kv => negb (mem_str (fst kv) [lat_col; lon_col])) r)
  = row_properties lat_col lon_col r.
Proof.
  unfold row_properties. f_equal. apply filter_ext. intros [k x].
  unfold is_coordinate_column. simpl. rewrite orb_false_r. reflexivity.
Qed.

Lemma make_feature_series (t : dtype) (r : row) :
  ready lat_col lon_col r ->
  make_feature lat_col lon_col (as_series t r) = Return (row_feature t lat_col lon_col r).
Proof.
  intros (Hlat & Hlon & Hn1 & Hn2).
  unfold make_feature, row_getitem, row_drop.
  rewrite !lookup_as_series, (lookup_cell _ _ Hlat), (lookup_cell _ _ Hlon).
  cbn [option_map bind].
  rewrite (py_float_astype t _ Hn2). cbn [bind].
  rewrite (py_float_astype t _ Hn1). cbn [bind find].
  rewrite !has_key_as_series, Hlat, Hlon. cbn [negb bind].
  rewrite row_properties_filter. unfold row_feature.
  rewrite (to_numeric1_numeric _ Hn1), (to_numeric1_numeric _ Hn2). reflexivity.
Qed.

Lemma feature_loop_ready (dts : list dtype) (rs : list row) :
  Forall (ready lat_col lon_col) rs ->
  forall i log features,
    feature_loop lat_col lon_col
      (iterrows dts (dropna [lat_col; lon_col] (enumerate i rs))) log features
    = (log, Return (features
                    ++ map (row_feature (common_dtype dts) lat_col lon_col)
                           (filter (complete lat_col lon_col) rs))).
Proof.
  induction 1 as [|r rs Hr Hrs IH]; intros i log features.
  - simpl. rewrite app_nil_r. reflexivity.
  - unfold dropna, iterrows in *. cbn [enumerate filter snd forallb].
    rewrite andb_true_r. fold (complete lat_col lon_col r).
    destruct (complete lat_col lon_col r).
    + cbn [map fst snd feature_loop]. rewrite (make_feature_series _ r Hr).
      rewrite IH. rewrite <- app_assoc. reflexivity.
    + apply IH.
Qed.

Lemma coerced_ready (df : DataFrame) :
  wf_df df = true ->
  mem_str lat_col (columns df) = true -> mem_str lon_col (columns df) = true ->
  Forall (ready lat_col lon_col) (rows (coerced lat_col lon_col df)).
Proof.
  intros Hwf Hlat Hlon.
  pose proof (wf_df_has_keys (coerced lat_col lon_col df) lat_col lon_col
                (wf_df_coerced lat_col lon_col df Hwf Hlat Hlon)) as Hk.
  rewrite (columns_coerced lat_col lon_col df Hlat Hlon) in Hk.
  specialize (Hk Hlat Hlon).
  pose proof (rows_coerced_from lat_col lon_col df Hwf Hlat Hlon) as H2.
  revert Hk. induction H2 as [|r r2 rs rs2 (_ & _ & Hc) _ IH]; intros Hk;
    [constructor|].
  inversion Hk as [|? ? [H1 H1'] Hk']. subst. constructor; [|apply IH, Hk'].
  split; [exact H1|]. split; [exact H1'|]. split.
  - apply Hc. unfold is_coordinate_column. rewrite String.eqb_refl. reflexivity.
  - apply Hc. unfold is_coordinate_column. rewrite String.eqb_refl. apply orb_true_r.
Qed.

(** The whole of [csv_to_geojson] on a well-formed frame that has both
    columns: the frame it leaves behind, what it reports, what it returns.
    No row raises in the loop. *)
Lemma csv_to_geojson_run (df : DataFrame) :
  wf_df df = true ->
  mem_str lat_col (columns df) = true ->
  mem_str lon_col (columns df) = true ->
  csv_to_geojson df lat_col lon_col =
    {| df_after := coerced lat_col lon_col df;
       events := if is_nil (converted lat_col lon_col df)
                 then [StError "No valid features could be created from the CSV data"]
                 else [];
       returned := Return (if is_nil (converted lat_col lon_col df) then None
                           else Some (VDict [("type", VStr "FeatureCollection");
                                             ("features",
                                              VList (converted lat_col lon_col df))])) |}.
Proof.
  intros Hwf Hlat Hlon.
  pose proof (coerced_ready df Hwf Hlat Hlon) as Hready.
  unfold csv_to_geojson, df_getitem. rewrite Hlat.
  fold (column lat_col df). fold (assign lat_col df).
  rewrite (columns_assign lat_col df Hlat), Hlon.
  fold (column lon_col (assign lat_col df)). fold (assign lon_col (assign lat_col df)).
  fold (coerced lat_col lon_col df).
  rewrite (feature_loop_ready _ _ Hready). cbn [app].
  fold (converted lat_col lon_col df).
  destruct (is_nil (converted lat_col lon_col df)); reflexivity.
Qed.

(** Row by row, the features are those of the rows of the input. *)
Lemma row_feature_coerced_from (t : dtype) (r r2 : row) :
  coerced_from lat_col lon_col r r2 ->
  row_feature t lat_col lon_col r2 = row_feature t lat_col lon_col r.
Proof.
  intros (_ & Hf & Hc). unfold row_feature.
  assert (Hlat : is_coordinate_column lat_col lon_col lat_col = true)
    by (unfold is_coordinate_column; rewrite String.eqb_refl; reflexivity).
  assert (Hlon : is_coordinate_column lat_col lon_col lon_col = true)
    by (unfold is_coordinate_column; rewrite String.eqb_refl; apply orb_true_r).
  destruct (Hc _ Hlat) as [Hn1 He1]. destruct (Hc _ Hlon) as [Hn2 He2].
  rewrite (to_numeric1_numeric _ Hn1), (to_numeric1_numeric _ Hn2), He1, He2.
  unfold row_properties.
  rewrite !(filter_as_series t (fun k => negb (is_coordinate_column lat_col lon_col k))).
  rewrite Hf. reflexivity.
Qed.

Lemma numeric_notnull (v : pyval) :
  numeric v = true -> PrimFloat.is_nan (as_float64 v) = false -> notnull v = true.
Proof.
  unfold notnull. destruct v; try discriminate; simpl; intros _ H;
    [reflexivity | reflexivity | rewrite H; reflexivity].
Qed.

(** On a frame whose coordinates all coerce to numbers no row is dropped. *)
Lemma converted_all (df : DataFrame) :
  wf_df df = true ->
  mem_str lat_col (columns df) = true -> mem_str lon_col (columns df) = true ->
  forallb (fun r => negb (coordinate_fails lat_col r)
                    && negb (coordinate_fails lon_col r)) (rows df) = true ->
  converted lat_col lon_col df
  = map (row_feature (common_dtype (dtypes (coerced lat_col lon_col df)))
                     lat_col lon_col) (rows df).
Proof.
  intros Hwf Hlat Hlon Hall. unfold converted.
  generalize (common_dtype (dtypes (coerced lat_col lon_col df))). intros t.
  pose proof (rows_coerced_from lat_col lon_col df Hwf Hlat Hlon) as H2.
  induction H2 as [|r r2 rs rs2 Hr _ IH]; [reflexivity|].
  simpl in Hall. apply andb_true_iff in Hall as [Hr0 Hall].
  apply andb_true_iff in Hr0 as [Hf1 Hf2].
  unfold coordinate_fails in Hf1, Hf2. apply negb_true_iff in Hf1, Hf2.
  cbn [filter map].
  assert (Hc : complete lat_col lon_col r2 = true).
  { destruct Hr as (_ & _ & Hc). unfold complete.
    destruct (Hc lat_col) as [Hn1 He1];
      [unfold is_coordinate_column; rewrite String.eqb_refl; reflexivity|].
    destruct (Hc lon_col) as [Hn2 He2];
      [unfold is_coordinate_column; rewrite String.eqb_refl; apply orb_true_r|].
    rewrite <- He1 in Hf1. rewrite <- He2 in Hf2.
    rewrite (numeric_notnull _ Hn1 Hf1), (numeric_notnull _ Hn2 Hf2). reflexivity. }
  rewrite Hc. cbn [map]. rewrite (row_feature_coerced_from t r r2 Hr).
  rewrite (IH Hall). reflexivity.
Qed.

End Conversion.

Section RowDtype.
Context {E : Externals}.

(** Under a row dtype other than float64 the cells of a row are the cells
    the frame stores. *)
Lemma as_series_stored (t : dtype) (r : row) : t <> Float64 -> as_series t r = r.
Proof.
  intros Ht. unfold as_series. rewrite <- (map_id r) at 2. apply map_ext.
  intros [k v]. simpl. destruct t; try reflexivity. contradiction.
Qed.

(** In a frame of a float64 and two int64 columns the integer of the
    third column is exported as the text of a float, whatever that text is
    for the library at hand. *)
Lemma csv_to_geojson_survey :
  returned (csv_to_geojson survey "lat" "lon") =
    Return (Some (VDict
      [("type", VStr "FeatureCollection");
       ("features",
        VList
          [VDict [("type", VStr "Feature");
                  ("geometry", VDict [("type", VStr "Point");
                                      ("coordinates",
                                       VTuple [VFloat 10; VFloat 45.5])]);
                  ("properties", VDict [("pop", VStr (float_repr 7))])]])])).
Proof. vm_compute. reflexivity. Qed.

End RowDtype.

(* ------------------------------------------------------------------ *)
(** ** filter_geojson on the store *)

Lemma traverse_Forall2 {A B : Type} (f : A -> option B) (l : list A) (bs : list B) :
  traverse f l = Some bs <-> Forall2 (fun a b => f a = Some b) l bs.
Proof.
  revert bs. induction l as [|a l IH]; simpl; intros bs.
  - split; [intros [= <-]; constructor | intros H; inversion H; reflexivity].
  - destruct (f a) as [b|] eqn:Hb.
    + destruct (traverse f l) as [bs'|] eqn:Ht.
      * split.
        -- intros [= <-]. constructor; [exact Hb | apply IH; reflexivity].
        -- intros H. inversion H as [|? b' ? bs'' Hb' Hl]. subst.
           apply IH in Hl. congruence.
      * split; [discriminate|]. intros H. inversion H as [|? b' ? bs'' Hb' Hl]. subst.
        apply IH in Hl. discriminate.
    + split; [discriminate|]. intros H. inversion H. congruence.
Qed.

Lemma nth_error_extend {A : Type} (h ext : list A) (a : nat) (o : A) :
  nth_error h a = Some o -> nth_error (h ++ ext) a = Some o.
Proof.
  intros H. rewrite nth_error_app1; [exact H|].
  apply nth_error_Some. rewrite H. discriminate.
Qed.

(** Reading deeper, or in a store with more objects, reads the same. *)
Lemma value_of_mono (n : nat) :
  forall (h ext : heap) (x : hval) (v : pyval) (m : nat),
    value_of n h x = Some v -> n <= m -> value_of m (h ++ ext) x = Some v.
Proof.
  induction n as [|n IH]; intros h ext x v m Hv Hle.
  - destruct x; simpl in *; try discriminate; destruct m; exact Hv.
  - destruct x as [| | | | |a]; try (destruct m; exact Hv).
    destruct m as [|m]; [inversion Hle|]. apply le_S_n in Hle.
    simpl in *. destruct (nth_error h a) as [o|] eqn:Ha; [|discriminate].
    rewrite (nth_error_extend h ext a o Ha). destruct o as [l|d].
    + destruct (traverse (value_of n h) l) as [vs|] eqn:Ht; [|discriminate].
      apply traverse_Forall2 in Ht.
      assert (Ht' : traverse (value_of m (h ++ ext)) l = Some vs).
      { apply traverse_Forall2. eapply Forall2_impl; [|exact Ht].
        intros y w Hy. apply (IH h ext y w m Hy Hle). }
      rewrite Ht'. exact Hv.
    + destruct (traverse (fun kx => option_map (pair (fst kx)) (value_of n h (snd kx))) d)
        as [vd|] eqn:Ht; [|discriminate].
      apply traverse_Forall2 in Ht.
      assert (Ht' : traverse (fun kx => option_map (pair (fst kx))
                                          (value_of m (h ++ ext) (snd kx))) d
                    = Some vd).
      { apply traverse_Forall2. eapply Forall2_impl; [|exact Ht].
        intros [k y] kw. simpl.
        destruct (value_of n h y) as [w|] eqn:Hy; [|discriminate].
        rewrite (IH h ext y w m Hy Hle). exact (fun H => H). }
      rewrite Ht'. exact Hv.
Qed.

Lemma value_of_deeper (n m : nat) (h : heap) (x : hval) (v : pyval) :
  value_of n h x = Some v -> n <= m -> value_of m h x = Some v.
Proof.
  intros Hv Hle. rewrite <- (app_nil_r h). apply (value_of_mono n h [] x v m Hv Hle).
Qed.

(** A reference that reads as text is that text. *)
Lemma value_of_str (n : nat) (h : heap) (y : hval) (w : pyval) (k : string) :
  value_of n h y = Some w ->
  match y with HStr s => String.eqb k s | _ => false end
  = match w with VStr s => String.eqb k s | _ => false end.
Proof.
  destruct y as [| | | | |a]; try (destruct n; intros [= <-]; reflexivity).
  destruct n; [discriminate|]. simpl.
  destruct (nth_error h a) as [[l|d]|]; [| |discriminate].
  - destruct (traverse _ l); [intros [= <-]; reflexivity | discriminate].
  - destruct (traverse _ d); [intros [= <-]; reflexivity | discriminate].
Qed.

Lemma lookup_denoted (f : hval -> option pyval) (k : string)
    (d : list (string * hval)) (vd : list (string * pyval)) :
  Forall2 (fun kx kw => option_map (pair (fst kx)) (f (snd kx)) = Some kw) d vd ->
  match lookup k d with
  | Some y => exists w, f y = Some w /\ lookup k vd = Some w
  | None => lookup k vd = None
  end.
Proof.
  induction 1 as [|[k1 y] [k2 w] d vd Hkw _ IH]; simpl; [reflexivity|].
  simpl in Hkw. destruct (f y) as [w'|] eqn:Hy; [|discriminate].
  injection Hkw as <- <-.
  destruct (String.eqb k k1); [exists w'; split; [exact Hy | reflexivity] | exact IH].
Qed.

Lemma keys_denoted (f : hval -> option pyval)
    (d : list (string * hval)) (vd : list (string * pyval)) :
  Forall2 (fun kx kw => option_map (pair (fst kx)) (f (snd kx)) = Some kw) d vd ->
  map fst vd = map fst d.
Proof.
  induction 1 as [|[k1 y] [k2 w] d vd Hkw _ IH]; simpl; [reflexivity|].
  simpl in Hkw. destruct (f y); [|discriminate]. injection Hkw as <- <-.
  rewrite IH. reflexivity.
Qed.

Section StoreReads.
Context {E : Externals}.

(** What an operation on a reference gives is what the operation on the
    document gives, for a reference that reads as the document. *)
Lemma h_getitem_value (n : nat) (h : heap) (x : hval) (v : pyval) (k : string) :
  value_of n h x = Some v ->
  match h_getitem h x k with
  | Some (Return y) => exists w, getitem v k = Return w /\ value_of n h y = Some w
  | Some (Raise e) => getitem v k = Raise e
  | None => False
  end.
Proof.
  destruct x as [| | | | |a]; try (destruct n; intros [= <-]; reflexivity).
  destruct n as [|n']; [discriminate|]. simpl.
  destruct (nth_error h a) as [[l|d]|]; [| |discriminate].
  - destruct (traverse _ l); [intros [= <-]; reflexivity | discriminate].
  - destruct (traverse _ d) as [vd|] eqn:Ht; [|discriminate]. intros [= <-].
    apply traverse_Forall2 in Ht.
    pose proof (lookup_denoted (value_of n' h) k d vd Ht) as Hl. simpl.
    destruct (lookup k d) as [y|].
    + destruct Hl as (w & Hy & Hw). exists w. rewrite Hw.
      split; [reflexivity|]. apply (value_of_deeper n' (S n') h y w Hy).
      apply Nat.le_succ_diag_r.
    + rewrite Hl. reflexivity.
Qed.

Lemma h_contains_value (n : nat) (h : heap) (x : hval) (v : pyval) (k : string) :
  value_of n h x = Some v -> h_contains k h x = Some (contains k v).
Proof.
  destruct x as [| | | | |a]; try (destruct n; intros [= <-]; reflexivity).
  destruct n as [|n']; [discriminate|]. simpl.
  destruct (nth_error h a) as [[l|d]|]; [| |discriminate].
  - destruct (traverse _ l) as [vs|] eqn:Ht; [|discriminate]. intros [= <-].
    apply traverse_Forall2 in Ht. simpl. do 2 f_equal.
    induction Ht as [|y w l vs Hy _ IH]; simpl; [reflexivity|].
    rewrite (value_of_str n' h y w k Hy), IH. reflexivity.
  - destruct (traverse _ d) as [vd|] eqn:Ht; [|discriminate]. intros [= <-].
    apply traverse_Forall2 in Ht. simpl. do 2 f_equal.
    rewrite !has_key_map_fst, (keys_denoted _ d vd Ht). reflexivity.
Qed.

Lemma h_iter_value (n : nat) (h : heap) (x : hval) (v : pyval) :
  value_of n h x = Some v ->
  match h_iter h x with
  | Some (Return ys) =>
      exists ws, py_iter v = Return ws
                 /\ Forall2 (fun y w => value_of n h y = Some w) ys ws
  | Some (Raise e) => py_iter v = Raise e
  | None => False
  end.
Proof.
  destruct x as [| | | | |a]; try (destruct n; intros [= <-]; reflexivity).
  - intros Hv. assert (Hs : v = VStr s) by (destruct n; injection Hv as <-; reflexivity).
    subst v. simpl. eexists. split; [reflexivity|].
    induction (list_ascii_of_string s) as [|c cs IH]; simpl; constructor;
      [destruct n; reflexivity | exact IH].
  - destruct n as [|n']; [discriminate|]. simpl.
    destruct (nth_error h a) as [[l|d]|]; [| |discriminate].
    + destruct (traverse _ l) as [vs|] eqn:Ht; [|discriminate]. intros [= <-].
      apply traverse_Forall2 in Ht. exists vs. split; [reflexivity|].
      eapply Forall2_impl; [|exact Ht]. intros y w Hy.
      apply (value_of_deeper n' (S n') h y w Hy). apply Nat.le_succ_diag_r.
    + destruct (traverse _ d) as [vd|] eqn:Ht; [|discriminate]. intros [= <-].
      apply traverse_Forall2 in Ht. simpl. eexists. split; [reflexivity|].
      induction Ht as [|[k1 y] [k2 w] d vd Hkw _ IH]; simpl; constructor;
        [|exact IH].
      simpl in Hkw. destruct (value_of n' h y); [|discriminate].
      injection Hkw as <- <-. reflexivity.
Qed.

Lemma h_str_value (n : nat) (h : heap) (x : hval) (v : pyval) :
  n <= S (List.length h) ->
  value_of n h x = Some v -> h_str h x = Some (Return (py_str v)).
Proof.
  intros depth Hv. unfold h_str.
  rewrite (value_of_deeper n (S (List.length h)) h x v Hv depth). reflexivity.
Qed.

(** The decision on a feature is the same on the store and on the
    document. *)
Lemma include_feature_h_value (n : nat) (h : heap) (feature : hval) (v : pyval)
    (filters : FilterSpec) :
  n <= S (List.length h) ->
  value_of n h feature = Some v ->
  include_feature_h h feature filters = Some (include_feature v filters).
Proof.
  intros depth Hv. induction filters as [|[prop values] rest IH]; simpl; [reflexivity|].
  destruct (is_nil values); [exact IH|].
  pose proof (h_getitem_value n h feature v "properties" Hv) as Hg.
  destruct (h_getitem h feature "properties") as [[props|e]|];
    [|rewrite Hg; reflexivity | contradiction].
  destruct Hg as (pv & -> & Hp). cbn [obind bind].
  rewrite (h_contains_value n h props pv prop Hp).
  destruct (contains prop pv) as [has_prop|e]; cbn [obind bind]; [|reflexivity].
  destruct (negb has_prop); [reflexivity|].
  pose proof (h_getitem_value n h props pv prop Hp) as Hg2.
  destruct (h_getitem h props prop) as [[y|e]|];
    [|rewrite Hg2; reflexivity | contradiction].
  destruct Hg2 as (w & -> & Hy). cbn [obind bind].
  rewrite (h_str_value n h y w depth Hy). cbn [obind].
  destruct (negb (mem_str (py_str w) values)); [reflexivity | exact IH].
Qed.

End StoreReads.

Lemma h_getitem_extend (h ext : heap) (x : hval) (k : string) (r : result hval) :
  h_getitem h x k = Some r -> h_getitem (h ++ ext) x k = Some r.
Proof.
  destruct x as [| | | | |a]; simpl; try exact (fun H => H).
  destruct (nth_error h a) as [o|] eqn:Ha; [|discriminate].
  rewrite (nth_error_extend h ext a o Ha). exact (fun H => H).
Qed.

Lemma h_iter_extend (h ext : heap) (x : hval) (r : result (list hval)) :
  h_iter h x = Some r -> h_iter (h ++ ext) x = Some r.
Proof.
  destruct x as [| | | | |a]; simpl; try exact (fun H => H).
  destruct (nth_error h a) as [o|] eqn:Ha; [|discriminate].
  rewrite (nth_error_extend h ext a o Ha). exact (fun H => H).
Qed.

(** Appending to the list the call created, which is the last object. *)
Lemma list_append_last (h : heap) (acc : list hval) (x : hval) :
  list_append (HRef (List.length h)) x (h ++ [HList acc])
  = Some (h ++ [HList (acc ++ [x])]).
Proof.
  unfold list_append.
  assert (Hn : nth_error (h ++ [HList acc]) (List.length h) = Some (HList acc)).
  { rewrite nth_error_app2 by apply Nat.le_refl. rewrite Nat.sub_diag. reflexivity. }
  assert (Hf : firstn (List.length h) (h ++ [HList acc]) = h).
  { rewrite firstn_app, Nat.sub_diag, firstn_all. simpl. apply app_nil_r. }
  assert (Hs : skipn (S (List.length h)) (h ++ [HList acc]) = []).
  { apply skipn_all2. rewrite length_app. simpl. lia. }
  rewrite Hn, Hf, Hs. reflexivity.
Qed.

Section StoreFilter.
Context {E : Externals}.

(** The loop writes to the list it was given and to nothing else. *)
Lemma filter_loop_h_frame (filters : FilterSpec) (h : heap) (features : list hval) :
  forall (acc : list hval) (r : result unit) (h' : heap),
    filter_loop_h filters features (HRef (List.length h)) (h ++ [HList acc])
    = Some (r, h') ->
    exists kept, h' = h ++ [HList (acc ++ kept)] /\ incl kept features.
Proof.
  induction features as [|f fs IH]; cbn [filter_loop_h]; intros acc r h' H.
  - injection H as <- <-. exists []. rewrite app_nil_r.
    split; [reflexivity | apply incl_nil_l].
  - destruct (include_feature_h (h ++ [HList acc]) f filters) as [[keep|e]|];
      [| |discriminate].
    + destruct keep.
      * rewrite list_append_last in H. apply IH in H as (kept & -> & Hi).
        exists (f :: kept). rewrite <- app_assoc.
        split; [reflexivity|]. apply incl_cons; [left; reflexivity|].
        apply incl_tl, Hi.
      * apply IH in H as (kept & -> & Hi). exists kept.
        split; [reflexivity | apply incl_tl, Hi].
    + injection H as <- <-. exists []. rewrite app_nil_r.
      split; [reflexivity | apply incl_nil_l].
Qed.

(** Whatever it is given, and however it ends, [filter_geojson] leaves
    every object of the store as it was: the store after the call is the
    store before it, followed by the objects the call created. *)
Lemma filter_geojson_h_frame (geojson_data : hval) (filters : FilterSpec)
    (h h' : heap) (r : result hval) :
  filter_geojson_h geojson_data filters h = Some (r, h') ->
  exists ext, h' = h ++ ext.
Proof.
  unfold filter_geojson_h. destruct (is_nil filters).
  { intros [= <- <-]. exists []. rewrite app_nil_r. reflexivity. }
  cbn [alloc].
  destruct (fs <~ h_getitem (h ++ [HList []]) geojson_data "features" ;;
            h_iter (h ++ [HList []]) fs) as [[features|e]|]; [| |discriminate].
  - destruct (filter_loop_h filters features (HRef (List.length h)) (h ++ [HList []]))
      as [[[u|e] h1]|] eqn:Hl; [| |discriminate].
    + apply filter_loop_h_frame in Hl as (kept & -> & _).
      intros [= <- <-]. rewrite <- app_assoc. eexists. reflexivity.
    + apply filter_loop_h_frame in Hl as (kept & -> & _).
      intros [= <- <-]. eexists. reflexivity.
  - intros [= <- <-]. eexists. reflexivity.
Qed.

Variables (n : nat) (h : heap).
Hypothesis depth : n <= S (List.length h).

(** The loop on the store keeps the references of the features the loop
    on the document keeps. *)
Lemma filter_loop_h_value (filters : FilterSpec)
    (features : list hval) (vs : list pyval) :
  Forall2 (fun y w => value_of n h y = Some w) features vs ->
  forall acc,
    match filter_loop filters vs with
    | Return kept_vs =>
        exists kept,
          filter_loop_h filters features (HRef (List.length h)) (h ++ [HList acc])
          = Some (Return tt, h ++ [HList (acc ++ kept)])
          /\ Forall2 (fun y w => value_of n h y = Some w) kept kept_vs
    | Raise e =>
        exists kept,
          filter_loop_h filters features (HRef (List.length h)) (h ++ [HList acc])
          = Some (Raise e, h ++ [HList (acc ++ kept)])
    end.
Proof.
  induction 1 as [|f v fs vs Hf _ IH]; intros acc; cbn [filter_loop_h filter_loop].
  - exists []. rewrite app_nil_r. split; [reflexivity | constructor].
  - assert (Hd : n <= S (List.length (h ++ [HList acc])))
      by (rewrite length_app; simpl; lia).
    rewrite (include_feature_h_value n (h ++ [HList acc]) f v filters Hd
               (value_of_mono n h [HList acc] f v n Hf (Nat.le_refl n))).
    destruct (include_feature v filters) as [keep|e]; cbn [bind].
    + destruct keep.
      * rewrite list_append_last. specialize (IH (acc ++ [f])).
        destruct (filter_loop filters vs) as [kept_vs|e]; cbn [bind].
        -- destruct IH as (kept & Hl & Hk). exists (f :: kept).
           rewrite <- app_assoc in Hl. split; [exact Hl|].
           constructor; assumption.
        -- destruct IH as (kept & Hl). exists (f :: kept).
           rewrite <- app_assoc in Hl. exact Hl.
      * specialize (IH acc).
        destruct (filter_loop filters vs) as [kept_vs|e]; cbn [bind]; exact IH.
    + exists []. rewrite app_nil_r. reflexivity.
Qed.

(** The collection the call builds reads as the collection of the kept
    features. *)
Lemma value_of_collection (m : nat) (kept : list hval) (kept_vs : list pyval) :
  Forall2 (fun y w => value_of n h y = Some w) kept kept_vs ->
  n <= m ->
  value_of (S (S m))
    (h ++ [HList kept;
           HDict [("type", HStr "FeatureCollection");
                  ("features", HRef (List.length h))]])
    (HRef (S (List.length h)))
  = Some (VDict [("type", VStr "FeatureCollection"); ("features", VList kept_vs)]).
Proof.
  intros Hk Hle. set (ext := [HList kept; HDict _]).
  assert (H1 : nth_error (h ++ ext) (S (List.length h))
               = Some (HDict [("type", HStr "FeatureCollection");
                              ("features", HRef (List.length h))])).
  { rewrite nth_error_app2 by lia.
    replace (S (List.length h) - List.length h) with 1 by lia. reflexivity. }
  assert (H0 : nth_error (h ++ ext) (List.length h) = Some (HList kept)).
  { rewrite nth_error_app2 by lia. rewrite Nat.sub_diag. reflexivity. }
  assert (Ht : traverse (value_of m (h ++ ext)) kept = Some kept_vs).
  { apply traverse_Forall2. eapply Forall2_impl; [|exact Hk].
    intros y w Hy. apply (value_of_mono n h ext y w m Hy Hle). }
  cbn [value_of]. rewrite H1. cbn [traverse fst snd value_of scalar option_map].
  rewrite H0, Ht. reflexivity.
Qed.

(** [filter_geojson] on the store computes what [filter_geojson] on the
    document computes, for a reference that reads as the document: the
    same exception, or a reference that reads as the same result. *)
Lemma filter_geojson_h_value (geojson_data : hval) (doc : pyval)
    (filters : FilterSpec) :
  value_of n h geojson_data = Some doc ->
  exists r h',
    filter_geojson_h geojson_data filters h = Some (r, h')
    /\ match r, filter_geojson doc filters with
       | Return out, Return v => value_of (S (List.length h')) h' out = Some v
       | Raise e, Raise e' => e = e'
       | _, _ => False
       end.
Proof.
  intros Hv. unfold filter_geojson_h, filter_geojson.
  destruct (is_nil filters).
  { exists (Return geojson_data), h. split; [reflexivity|].
    apply (value_of_deeper n _ h _ _ Hv depth). }
  cbn [alloc].
  pose proof (h_getitem_value n h geojson_data doc "features" Hv) as Hg.
  destruct (h_getitem h geojson_data "features") as [[fs|e]|] eqn:Hgh;
    [| |contradiction].
  - rewrite (h_getitem_extend h [HList []] _ _ _ Hgh). cbn [obind].
    destruct Hg as (fv & -> & Hfs). cbn [bind].
    pose proof (h_iter_value n h fs fv Hfs) as Hi.
    destruct (h_iter h fs) as [[features|e]|] eqn:Hih; [| |contradiction].
    + rewrite (h_iter_extend h [HList []] _ _ Hih).
      destruct Hi as (vs & -> & Hfeat). cbn [bind].
      pose proof (filter_loop_h_value filters features vs Hfeat []) as Hl.
      destruct (filter_loop filters vs) as [kept_vs|e]; cbn [bind].
      * destruct Hl as (kept & -> & Hk). cbn [app alloc].
        eexists. eexists. split; [reflexivity|].
        rewrite <- app_assoc. cbn [app].
        rewrite !length_app. cbn [List.length].
        replace (List.length h + 1) with (S (List.length h)) by lia.
        replace (List.length h + 2) with (S (S (List.length h))) by lia.
        apply value_of_collection; [exact Hk | lia].
      * destruct Hl as (kept & ->). eexists. eexists. split; reflexivity.
    + rewrite (h_iter_extend h [HList []] _ _ Hih). rewrite Hi.
      eexists. eexists. split; reflexivity.
  - rewrite (h_getitem_extend h [HList []] _ _ _ Hgh). cbn [obind]. rewrite Hg.
    eexists. eexists. split; reflexivity.
Qed.

End StoreFilter.

(* ------------------------------------------------------------------ *)
(** ** What the stages leave of their input *)

Section Stages.
Context {E : Externals}.

Lemma filter_loop_Return (filters : FilterSpec) (features kept : list pyval) :
  filter_loop filters features = Return kept ->
  kept = filter (keeps filters) features.
Proof.
  revert kept. induction features as [|f fs IH]; simpl; intros kept H.
  - injection H as <-. reflexivity.
  - unfold keeps at 1.
    destruct (include_feature f filters) as [b|e]; simpl in H; [|discriminate].
    destruct (filter_loop filters fs) as [kept'|e]; simpl in H; [|discriminate].
    injection H as <-. rewrite (IH kept' eq_refl). reflexivity.
Qed.


End Stages.

(* ------------------------------------------------------------------ *)
(** * Further properties of the code *)

Section ValidatorVerdict.
Context {E : Externals}.

Lemma lookup_has_key {A : Type} (k : string) (d : list (string * A)) :
  has_key k d = true -> exists v, lookup k d = Some v.
Proof.
  unfold has_key. destruct (lookup k d) as [v|]; [eauto | discriminate].
Qed.

(** What the checks of [validate_geojson] answer on the document they are
    run on, once it is there. *)
Lemma validate_geojson_dict (d : list (string * pyval)) :
  fst (validate_geojson (VDict d)) = true <->
  exists fs, lookup "type" d = Some (VStr "FeatureCollection")
             /\ lookup "features" d = Some fs /\ truthy fs = true.
Proof.
  unfold validate_geojson, validate_geojson_body. simpl. split.
  - destruct (has_key "type" d) eqn:Ht; simpl; [|discriminate].
    destruct (has_key "features" d) eqn:Hf; simpl; [|discriminate].
    apply lookup_has_key in Ht as (t & Ht), Hf as (fs & Hf).
    rewrite Ht, Hf. simpl.
    destruct (eq_str t "FeatureCollection") eqn:He; simpl; [|discriminate].
    destruct (truthy fs) eqn:Hn; simpl; [|discriminate].
    intros _. exists fs. repeat split; try assumption.
    destruct t; try discriminate. simpl in He. apply String.eqb_eq in He.
    subst. reflexivity.
  - intros (fs & Ht & Hf & Hn).
    rewrite (has_key_lookup _ _ _ Ht), (has_key_lookup _ _ _ Hf). simpl.
    rewrite Ht. simpl. rewrite Hf. simpl. rewrite Hn. reflexivity.
Qed.

(** X1.  The verdict of [validate_geojson] is positive exactly when the
    checked document (the input when it is a mapping, the parse of the
    input otherwise) is a mapping whose type is the string
    "FeatureCollection" and whose features entry is true; nothing else
    about the features is looked at. *)
Theorem validate_geojson_valid_iff (geojson_data : pyval) :
  fst (validate_geojson geojson_data) = true <->
  exists d fs,
    checked_document geojson_data = Return (VDict d)
    /\ lookup "type" d = Some (VStr "FeatureCollection")
    /\ lookup "features" d = Some fs
    /\ truthy fs = true.
Proof.
  unfold checked_document.
  destruct (is_dict geojson_data) eqn:Hd.
  - destruct geojson_data; try discriminate. rewrite validate_geojson_dict. split.
    + intros (fs & H). exists d, fs. split; [reflexivity | exact H].
    + intros (d' & fs & [= <-] & H). exists fs. exact H.
  - unfold validate_geojson, validate_geojson_body. rewrite Hd. simpl.
    destruct (json_loads geojson_data) as [p|e]; simpl.
    + destruct p as [| | | |s|l|l|d];
        try (cbn [all_fields_in contains getitem bind negb type_name];
             repeat match goal with
                    | |- context [if ?c then _ else _] =>
                        destruct c; cbn [bind negb]
                    end;
             cbn [fst]; (split; [discriminate | intros (? & ? & [=] & _)])).
      * pose proof (validate_geojson_dict d) as Hv.
        unfold validate_geojson, validate_geojson_body in Hv. simpl in Hv.
        rewrite Hv. split.
        -- intros (fs & H). exists d, fs. split; [reflexivity | exact H].
        -- intros (d' & fs & [= <-] & H). exists fs. exact H.
    + simpl. split; [discriminate | intros (? & ? & [=] & _)].
Qed.

(** A positive verdict always carries the message "Valid GeoJSON". *)
Lemma validate_geojson_valid_message (geojson_data : pyval) :
  fst (validate_geojson geojson_data) = true ->
  validate_geojson geojson_data = (true, "Valid GeoJSON").
Proof.
  unfold validate_geojson.
  destruct (validate_geojson_body geojson_data) as [[b m]|e] eqn:Hb;
    [|discriminate].
  simpl. intros ->. unfold validate_geojson_body in Hb.
  repeat match type of Hb with
         | bind ?c _ = _ => destruct c; simpl in Hb; [|discriminate]
         | (if ?c then _ else _) = _ => destruct c; simpl in Hb
         end; try discriminate; injection Hb as <-; reflexivity.
Qed.

End ValidatorVerdict.

Section CsvPipeline.
Context {E : Externals}.

(** X2.  [validate_csv_coordinates] accepts a frame exactly when both
    columns are there, the frame has at least one row, and every latitude
    coerces to a number in [-90, 90] and every longitude to a number in
    [-180, 180]; its message is then "Valid coordinates". *)
Theorem validate_csv_coordinates_valid_iff
    (df : DataFrame) (lat_col lon_col : string) :
  validate_csv_coordinates df lat_col lon_col = (true, "Valid coordinates") <->
  mem_str lat_col (columns df) = true
  /\ mem_str lon_col (columns df) = true
  /\ rows df <> []
  /\ forallb (fun r => in_range (-90) 90 (to_numeric1 (cell lat_col r))) (rows df) = true
  /\ forallb (fun r => in_range (-180) 180 (to_numeric1 (cell lon_col r))) (rows df)
     = true.
Proof.
  split.
  - intros H. apply validate_csv_coordinates_valid_inv. rewrite H. reflexivity.
  - intros (Hlat & Hlon & Hne & H1 & H2).
    apply validate_csv_coordinates_all_numeric; assumption.
Qed.

(** X3.  A frame without rows is refused with the message about numeric
    data, whatever its columns hold; a missing column is reported before
    anything else. *)
Theorem validate_csv_coordinates_degenerate
    (df : DataFrame) (lat_col lon_col : string) :
  (mem_str lat_col (columns df) && mem_str lon_col (columns df) = false ->
   validate_csv_coordinates df lat_col lon_col
   = (false, "Selected columns not found in CSV"))
  /\ (mem_str lat_col (columns df) && mem_str lon_col (columns df) = true ->
      rows df = [] ->
      validate_csv_coordinates df lat_col lon_col
      = (false, "Selected columns do not contain valid numeric data")).
Proof.
  unfold validate_csv_coordinates, validate_csv_coordinates_body, df_getitem.
  split.
  - intros H. rewrite <- negb_andb, H. reflexivity.
  - intros H Hnil. rewrite <- negb_andb, H. simpl.
    apply andb_true_iff in H as [-> ->]. simpl. rewrite Hnil. reflexivity.
Qed.

Lemma forallb_coordinates_coerce (lat_col lon_col : string) (rs : list row) :
  forallb (fun r => in_range (-90) 90 (to_numeric1 (cell lat_col r))) rs = true ->
  forallb (fun r => in_range (-180) 180 (to_numeric1 (cell lon_col r))) rs = true ->
  forallb (fun r => negb (coordinate_fails lat_col r)
                    && negb (coordinate_fails lon_col r)) rs = true.
Proof.
  intros H1 H2. rewrite forallb_forall in *. intros r Hr. unfold coordinate_fails.
  rewrite (in_range_not_nan _ _ _ (H1 r Hr)), (in_range_not_nan _ _ _ (H2 r Hr)).
  reflexivity.
Qed.

(** The run of [csv_to_geojson] on a frame the validator accepted. *)
Lemma csv_to_geojson_validated_run (df : DataFrame) (lat_col lon_col : string) :
  wf_df df = true ->
  fst (validate_csv_coordinates df lat_col lon_col) = true ->
  csv_to_geojson df lat_col lon_col =
    {| df_after := coerced lat_col lon_col df;
       events := [];
       returned :=
         Return (Some (VDict [("type", VStr "FeatureCollection");
                              ("features",
                               VList (map (row_feature
                                             (common_dtype
                                                (dtypes (coerced lat_col lon_col df)))
                                             lat_col lon_col)
                                          (rows df)))])) |}.
Proof.
  intros Hwf Hv.
  apply validate_csv_coordinates_valid_inv in Hv as (Hlat & Hlon & Hne & H1 & H2).
  rewrite (csv_to_geojson_run lat_col lon_col df Hwf Hlat Hlon).
  rewrite (converted_all lat_col lon_col df Hwf Hlat Hlon
             (forallb_coordinates_coerce _ _ _ H1 H2)).
  destruct (rows df); [contradiction | reflexivity].
Qed.



(** X6.  A missing column makes [csv_to_geojson] raise KeyError.  When the
    latitude column is the missing one the frame is untouched; when only
    the longitude column is missing, the latitude column has already been
    assigned what [pd.to_numeric] makes of it (nothing else in the frame
    has changed) when the error leaves the function.  The integers read in
    the latitude column are taken to be int64. *)
Theorem csv_to_geojson_missing_column (df : DataFrame) (lat_col lon_col : string) :
  (mem_str lat_col (columns df) = false ->
   returned (csv_to_geojson df lat_col lon_col) = Raise (KeyError lat_col)
   /\ df_after (csv_to_geojson df lat_col lon_col) = df)
  /\ (wf_df df = true ->
      mem_str lat_col (columns df) = true ->
      mem_str lon_col (columns df) = false ->
      forallb reads_int64 (column lat_col df) = true ->
      returned (csv_to_geojson df lat_col lon_col) = Raise (KeyError lon_col)
      /\ columns (df_after (csv_to_geojson df lat_col lon_col)) = columns df
      /\ map (map fst) (rows (df_after (csv_to_geojson df lat_col lon_col)))
         = map (map fst) (rows df)
      /\ forall c, column c (df_after (csv_to_geojson df lat_col lon_col))
                   = if String.eqb c lat_col
                     then to_numeric (column lat_col df) else column c df).
Proof.
  unfold csv_to_geojson, df_getitem. split.
  - intros ->. split; reflexivity.
  - intros Hwf Hlat Hlon _. rewrite Hlat.
    fold (column lat_col df). fold (assign lat_col df).
    rewrite (columns_assign lat_col df Hlat), Hlon. cbn [returned df_after].
    pose proof (wf_df_has_key _ _ Hwf Hlat) as Hk.
    split; [reflexivity|]. split; [apply columns_assign, Hlat|].
    split; [apply labels_assign, Hk|].
    intros c. apply column_assign, Hk.
Qed.

End CsvPipeline.

Section ConversionAgain.
Context {E : Externals}.

Variables lat_col lon_col : string.

(** X7.  After a call of [csv_to_geojson] the frame is a fixed point: a
    second call on the frame the first one left behind leaves the same
    frame, reports the same and returns the same collection. *)
Theorem csv_to_geojson_again (df : DataFrame) :
  wf_df df = true ->
  mem_str lat_col (columns df) = true ->
  mem_str lon_col (columns df) = true ->
  csv_to_geojson (df_after (csv_to_geojson df lat_col lon_col)) lat_col lon_col
  = csv_to_geojson df lat_col lon_col.
Proof.
  intros Hwf Hlat Hlon.
  rewrite (csv_to_geojson_run lat_col lon_col df Hwf Hlat Hlon).
  cbn [df_after].
  pose proof (columns_coerced lat_col lon_col df Hlat Hlon) as Hcs.
  rewrite (csv_to_geojson_run lat_col lon_col (coerced lat_col lon_col df)
             (wf_df_coerced lat_col lon_col df Hwf Hlat Hlon));
    [|rewrite Hcs; exact Hlat | rewrite Hcs; exact Hlon].
  unfold converted.
  rewrite (coerced_again lat_col lon_col df Hwf Hlat Hlon). reflexivity.
Qed.

End ConversionAgain.

Section FilterLaws.
Context {E : Externals}.

Lemma filter_geojson_run (d : list (string * pyval)) (features : list pyval)
    (filters : FilterSpec) :
  lookup "features" d = Some (VList features) ->
  forallb has_properties features = true ->
  filters <> [] ->
  filter_geojson (VDict d) filters =
    Return (VDict [("type", VStr "FeatureCollection");
                   ("features", VList (filter (passes filters) features))]).
Proof.
  intros Hf Hwf Hne. unfold filter_geojson.
  destruct filters as [|c rest]; [contradiction|]. cbn [is_nil].
  simpl getitem. rewrite Hf. simpl.
  rewrite (filter_loop_spec (c :: rest) features Hwf). reflexivity.
Qed.

Lemma forallb_filter {A : Type} (p q : A -> bool) (l : list A) :
  forallb p l = true -> forallb p (filter q l) = true.
Proof.
  rewrite !forallb_forall. intros H x Hx. apply filter_In in Hx as [Hx _].
  apply H, Hx.
Qed.

Lemma filter_filter {A : Type} (p q : A -> bool) (l : list A) :
  filter q (filter p l) = filter (fun x => p x && q x) l.
Proof.
  induction l as [|x l IH]; simpl; [reflexivity|].
  destruct (p x); simpl; [destruct (q x); rewrite IH; reflexivity | exact IH].
Qed.

(** X8.  Filtering twice is filtering once: applied to its own result
    with the same FilterSpec, [filter_geojson] returns that result
    again. *)
Theorem filter_geojson_idempotent
    (d : list (string * pyval)) (features : list pyval) (filters : FilterSpec) :
  lookup "features" d = Some (VList features) ->
  forallb has_properties features = true ->
  exists out,
    filter_geojson (VDict d) filters = Return out
    /\ filter_geojson out filters = Return out.
Proof.
  intros Hf Hwf. destruct filters as [|c rest].
  - exists (VDict d). split; reflexivity.
  - assert (Hne : c :: rest <> []) by discriminate.
    eexists. split; [apply (filter_geojson_run d features _ Hf Hwf Hne)|].
    rewrite (filter_geojson_run
               [("type", VStr "FeatureCollection");
                ("features", VList (filter (passes (c :: rest)) features))]
               (filter (passes (c :: rest)) features) _ eq_refl
               (forallb_filter _ _ _ Hwf) Hne).
    rewrite filter_filter.
    rewrite (filter_ext (fun x => passes (c :: rest) x && passes (c :: rest) x)
                        (passes (c :: rest)))
      by (intros f; apply andb_diag).
    reflexivity.
Qed.

(** X9.  Filters compose: filtering the result of one non-empty
    FilterSpec by a second one gives what the two FilterSpecs put together
    give on the input, in either order of application. *)
Theorem filter_geojson_compose
    (d : list (string * pyval)) (features : list pyval) (f1 f2 : FilterSpec) :
  lookup "features" d = Some (VList features) ->
  forallb has_properties features = true ->
  f1 <> [] -> f2 <> [] ->
  exists out1 out2,
    filter_geojson (VDict d) f1 = Return out1
    /\ filter_geojson (VDict d) f2 = Return out2
    /\ filter_geojson out1 f2 = filter_geojson (VDict d) (f1 ++ f2)
    /\ filter_geojson out2 f1 = filter_geojson (VDict d) (f1 ++ f2).
Proof.
  intros Hf Hwf H1 H2.
  assert (H12 : f1 ++ f2 <> []) by (destruct f1; [contradiction | discriminate]).
  do 2 eexists.
  split; [apply (filter_geojson_run d features f1 Hf Hwf H1)|].
  split; [apply (filter_geojson_run d features f2 Hf Hwf H2)|].
  rewrite (filter_geojson_run d features (f1 ++ f2) Hf Hwf H12).
  rewrite (filter_geojson_run
             [("type", VStr "FeatureCollection");
              ("features", VList (filter (passes f1) features))]
             (filter (passes f1) features) f2 eq_refl
             (forallb_filter _ _ _ Hwf) H2).
  rewrite (filter_geojson_run
             [("type", VStr "FeatureCollection");
              ("features", VList (filter (passes f2) features))]
             (filter (passes f2) features) f1 eq_refl
             (forallb_filter _ _ _ Hwf) H1).
  rewrite !filter_filter.
  rewrite (filter_ext (fun x => passes f1 x && passes f2 x) (passes (f1 ++ f2)))
    by (intros f; unfold passes; rewrite forallb_app; reflexivity).
  rewrite (filter_ext (fun x => passes f2 x && passes f1 x) (passes (f1 ++ f2)))
    by (intros f; unfold passes; rewrite forallb_app; apply andb_comm).
  split; reflexivity.
Qed.

(** X10.  The result never has more features than the input, and every
    feature of the result is a feature of the input; this holds whenever
    [filter_geojson] returns, whatever the features are. *)
Theorem filter_geojson_shrinks
    (doc : pyval) (filters : FilterSpec) (out : pyval) (features : list pyval) :
  filter_geojson doc filters = Return out ->
  (fs <- getitem doc "features" ;; py_iter fs) = Return features ->
  exists kept,
    (fs <- getitem out "features" ;; py_iter fs) = Return kept
    /\ List.length kept <= List.length features
    /\ incl kept features.
Proof.
  intros Hout Hfeat. unfold filter_geojson in Hout. destruct (is_nil filters).
  - injection Hout as <-. exists features.
    split; [exact Hfeat|]. split; [apply Nat.le_refl | apply incl_refl].
  - destruct (getitem doc "features") as [fs|e]; simpl in *; [|discriminate].
    rewrite Hfeat in Hout. simpl in Hout.
    destruct (filter_loop filters features) as [kept|e] eqn:Hk; simpl in Hout;
      [|discriminate].
    injection Hout as <-. exists kept. split; [reflexivity|].
    rewrite (filter_loop_Return _ _ _ Hk).
    split; [apply filter_length_le | apply incl_filter].
Qed.

Lemma include_feature_no_values (feature : pyval) (filters : FilterSpec) :
  forallb (fun c => is_nil (snd c)) filters = true ->
  include_feature feature filters = Return true.
Proof.
  induction filters as [|[prop values] rest IH]; simpl; [reflexivity|].
  intros H. apply andb_true_iff in H as [Hv Hrest]. rewrite Hv. apply IH, Hrest.
Qed.

Lemma filter_loop_no_values (filters : FilterSpec) (features : list pyval) :
  forallb (fun c => is_nil (snd c)) filters = true ->
  filter_loop filters features = Return features.
Proof.
  intros H. induction features as [|f fs IH]; simpl; [reflexivity|].
  rewrite (include_feature_no_values f filters H), IH. reflexivity.
Qed.

(** X11.  A FilterSpec that is not empty but whose value-sets are all
    empty keeps every feature and never looks into one (a feature without
    properties, or one that is no mapping, raises nothing); the document
    is rebuilt all the same, so only its type and features members are
    left, while an empty FilterSpec returns the input with all its
    members. *)
Theorem filter_geojson_no_values
    (doc : pyval) (filters : FilterSpec) (features : list pyval) :
  filters <> [] ->
  forallb (fun c => is_nil (snd c)) filters = true ->
  (fs <- getitem doc "features" ;; py_iter fs) = Return features ->
  filter_geojson doc filters =
    Return (VDict [("type", VStr "FeatureCollection"); ("features", VList features)])
  /\ filter_geojson doc [] = Return doc.
Proof.
  intros Hne Hv Hfeat. split; [|reflexivity].
  unfold filter_geojson. destruct filters as [|c rest]; [contradiction|].
  cbn [is_nil].
  destruct (getitem doc "features") as [fs|e]; cbn [bind] in *; [|discriminate].
  rewrite Hfeat. cbn [bind]. rewrite (filter_loop_no_values _ _ Hv). reflexivity.
Qed.

Lemma has_properties_ok (features : list pyval) :
  forallb has_properties features = true -> forallb properties_ok features = true.
Proof.
  rewrite !forallb_forall. intros H f Hf. specialize (H f Hf).
  destruct f as [| | | | | | |fd]; try discriminate. simpl in *.
  destruct (lookup "properties" fd) as [[| | | | | | |props]|]; try discriminate.
  reflexivity.
Qed.

Lemma get_property_values_run (d : list (string * pyval)) (features : list pyval)
    (name : string) :
  lookup "features" d = Some (VList features) ->
  forallb properties_ok features = true ->
  get_property_values (VDict d) name
  = Return (sorted (collect_values name [] features)).
Proof.
  intros Hf Hok. unfold get_property_values. simpl. rewrite Hf. simpl.
  rewrite (property_values_loop_spec _ _ Hok). reflexivity.
Qed.

Lemma In_get_property_values (features : list pyval) (name s : string) :
  In s (sorted (collect_values name [] features)) <->
  exists f, In f features /\ property_of name f = Some s.
Proof.
  destruct (sorted_strict (collect_values name [] features)) as [_ Hi].
  { apply collect_values_NoDup. constructor. }
  rewrite Hi, collect_values_In. split; [intros [[] | H]; exact H | tauto].
Qed.

(** X12.  The default selection of main: filtering a property by all the
    values [get_property_values] lists for it keeps exactly the features
    that have the property; features without it are dropped although
    every value is selected.  When no value is listed, no feature has the
    property. *)
Theorem filter_by_all_values
    (d : list (string * pyval)) (features : list pyval) (name : string) :
  lookup "features" d = Some (VList features) ->
  forallb has_properties features = true ->
  exists values,
    get_property_values (VDict d) name = Return values
    /\ (values <> [] ->
        filter_geojson (VDict d) [(name, values)] =
          Return (VDict [("type", VStr "FeatureCollection");
                         ("features", VList (filter (has_property name) features))]))
    /\ (values = [] ->
        forallb (fun f => negb (has_property name f)) features = true).
Proof.
  intros Hf Hwf. eexists.
  split; [apply (get_property_values_run d features name Hf (has_properties_ok _ Hwf))|].
  set (values := sorted (collect_values name [] features)).
  assert (Hin : forall s, In s values <->
                          exists f, In f features /\ property_of name f = Some s)
    by (intros s; apply In_get_property_values).
  split.
  - intros Hne.
    rewrite (filter_geojson_run d features [(name, values)] Hf Hwf) by discriminate.
    rewrite (filter_ext_in (passes [(name, values)]) (has_property name));
      [reflexivity|].
    intros f Hfin.
    unfold passes, passes_constraint, has_property. simpl. rewrite andb_true_r.
    destruct values as [|v vs] eqn:Hv; [contradiction|]. cbn [is_nil orb].
    destruct (property_of name f) as [s|] eqn:Hs; [|reflexivity].
    apply mem_str_In, Hin. exists f. split; assumption.
  - intros Hnil. apply forallb_forall. intros f Hfin. unfold has_property.
    destruct (property_of name f) as [s|] eqn:Hs; [|reflexivity].
    exfalso. assert (Hs' : In s values) by (apply Hin; exists f; tauto).
    rewrite Hnil in Hs'. exact Hs'.
Qed.

(** X13.  Every value [get_property_values] offers selects something:
    filtering the property by that single value keeps at least one
    feature. *)
Theorem listed_value_selects
    (d : list (string * pyval)) (features : list pyval) (name s : string)
    (values : list string) :
  lookup "features" d = Some (VList features) ->
  forallb has_properties features = true ->
  get_property_values (VDict d) name = Return values ->
  In s values ->
  exists f kept,
    filter_geojson (VDict d) [(name, [s])] =
      Return (VDict [("type", VStr "FeatureCollection"); ("features", VList kept)])
    /\ In f kept /\ In f features /\ property_of name f = Some s.
Proof.
  intros Hf Hwf Hv Hs.
  rewrite (get_property_values_run d features name Hf (has_properties_ok _ Hwf)) in Hv.
  injection Hv as <-. apply In_get_property_values in Hs as (f & Hfin & Hp).
  exists f, (filter (passes [(name, [s])]) features).
  split; [apply (filter_geojson_run d features _ Hf Hwf); discriminate|].
  split; [|split; assumption].
  apply filter_In. split; [assumption|].
  unfold passes, passes_constraint. simpl. rewrite Hp. simpl.
  rewrite String.eqb_refl. reflexivity.
Qed.

End FilterLaws.

Section ConvertedCollection.
Context {E : Externals}.

Lemma row_feature_has_properties (t : dtype) (lat_col lon_col : string)
    (rs : list row) :
  forallb has_properties (map (row_feature t lat_col lon_col) rs) = true.
Proof. induction rs as [|r rs IH]; simpl; [reflexivity | exact IH]. Qed.

(** X14.  A collection returned by [csv_to_geojson] is fit for the later
    stages: [validate_geojson] accepts it, [filter_geojson] returns on it
    for every FilterSpec, [get_property_values] returns on it for every
    property, and each of its features is a Point Feature whose property
    values are strings or null. *)
Theorem csv_to_geojson_result_usable
    (df : DataFrame) (lat_col lon_col : string) (fc : pyval) :
  wf_df df = true ->
  mem_str lat_col (columns df) = true ->
  mem_str lon_col (columns df) = true ->
  returned (csv_to_geojson df lat_col lon_col) = Return (Some fc) ->
  validate_geojson fc = (true, "Valid GeoJSON")
  /\ (forall filters, exists out, filter_geojson fc filters = Return out)
  /\ (forall name, exists values, get_property_values fc name = Return values)
  /\ exists features,
       fc = VDict [("type", VStr "FeatureCollection"); ("features", VList features)]
       /\ features <> []
       /\ Forall (fun f =>
                    exists x y props,
                      f = VDict [("type", VStr "Feature");
                                 ("geometry", mapping (Point x y));
                                 ("properties", VDict props)]
                      /\ Forall (fun kv => snd kv = VNone
                                           \/ exists s, snd kv = VStr s) props)
                 features.
Proof.
  intros Hwf Hlat Hlon Hret.
  rewrite (csv_to_geojson_run lat_col lon_col df Hwf Hlat Hlon) in Hret.
  cbn [returned] in Hret. unfold converted in Hret.
  set (t := common_dtype (dtypes (coerced lat_col lon_col df))) in *.
  set (rs := filter (complete lat_col lon_col) (rows (coerced lat_col lon_col df))) in *.
  destruct (map (row_feature t lat_col lon_col) rs) as [|f0 fs0] eqn:Hfs;
    cbn [is_nil] in Hret; [discriminate|].
  injection Hret as <-. rewrite <- Hfs.
  pose proof (row_feature_has_properties t lat_col lon_col rs) as Hp.
  split.
  { apply validate_geojson_valid_message, validate_geojson_dict.
    eexists. split; [reflexivity|]. split; [reflexivity|]. rewrite Hfs. reflexivity. }
  split.
  { intros [|c rest]; [eexists; reflexivity|].
    eexists.
    apply (filter_geojson_run
             [("type", VStr "FeatureCollection");
              ("features", VList (map (row_feature t lat_col lon_col) rs))]
             (map (row_feature t lat_col lon_col) rs) (c :: rest) eq_refl Hp).
    discriminate. }
  split.
  { intros name. eexists.
    apply (get_property_values_run
             [("type", VStr "FeatureCollection");
              ("features", VList (map (row_feature t lat_col lon_col) rs))]
             (map (row_feature t lat_col lon_col) rs) name eq_refl
             (has_properties_ok _ Hp)). }
  eexists. split; [reflexivity|]. split; [rewrite Hfs; discriminate|].
  apply Forall_forall. intros f Hf. apply in_map_iff in Hf as (r & <- & _).
  do 3 eexists. split; [reflexivity|].
  unfold row_properties. apply Forall_forall. intros kv Hkv.
  apply in_map_iff in Hkv as (kv' & <- & _). simpl.
  destruct (notnull (snd kv')); [right; eexists; reflexivity | left; reflexivity].
Qed.

End ConvertedCollection.

Section NullProperties.
Context {E : Externals}.

Lemma include_feature_null_properties (fd : list (string * pyval))
    (filters : FilterSpec) :
  lookup "properties" fd = Some VNone ->
  existsb (fun c => negb (is_nil (snd c))) filters = true ->
  include_feature (VDict fd) filters = Raise not_iterable_none.
Proof.
  intros Hl. induction filters as [|[prop values] rest IH]; simpl; [discriminate|].
  destruct values as [|v vs]; simpl; [exact IH|].
  intros _. rewrite Hl. reflexivity.
Qed.

Lemma filter_loop_raises (filters : FilterSpec) (pre post : list pyval)
    (f : pyval) (e : exn) :
  forallb has_properties pre = true ->
  include_feature f filters = Raise e ->
  filter_loop filters (pre ++ f :: post) = Raise e.
Proof.
  intros Hpre Hf. induction pre as [|p pre IH]; simpl.
  - rewrite Hf. reflexivity.
  - simpl in Hpre. apply andb_true_iff in Hpre as [Hp Hpre].
    rewrite (include_feature_passes _ _ Hp). simpl. rewrite (IH Hpre). reflexivity.
Qed.

Lemma property_values_loop_raises (name : string) (pre post : list pyval)
    (f : pyval) (e : exn) :
  forallb properties_ok pre = true ->
  (forall values, property_values_step name values f = Raise e) ->
  forall values,
    property_values_loop name values (pre ++ f :: post) = Raise e.
Proof.
  intros Hpre Hf. induction pre as [|p pre IH]; simpl; intros values.
  - rewrite Hf. reflexivity.
  - simpl in Hpre. apply andb_true_iff in Hpre as [Hp Hpre].
    rewrite (property_values_step_spec _ _ _ Hp). simpl. apply IH, Hpre.
Qed.

(** X15.  A feature whose properties member is null (which GeoJSON
    allows) stops both readers of properties: [get_property_values]
    raises TypeError on the collection, its test for the properties key
    notwithstanding, and so does [filter_geojson] as soon as one
    value-set is not empty. *)
Theorem null_properties_raise
    (d fd : list (string * pyval)) (pre post : list pyval)
    (name : string) (filters : FilterSpec) :
  lookup "features" d = Some (VList (pre ++ VDict fd :: post)) ->
  forallb has_properties pre = true ->
  lookup "properties" fd = Some VNone ->
  get_property_values (VDict d) name = Raise not_iterable_none
  /\ (existsb (fun c => negb (is_nil (snd c))) filters = true ->
      filter_geojson (VDict d) filters = Raise not_iterable_none).
Proof.
  intros Hf Hpre Hnull. split.
  - unfold get_property_values. simpl. rewrite Hf. simpl.
    rewrite (property_values_loop_raises name pre post (VDict fd) not_iterable_none
               (has_properties_ok _ Hpre)); [reflexivity|].
    intros values. unfold property_values_step. simpl.
    rewrite (has_key_lookup _ _ _ Hnull). simpl. rewrite Hnull. reflexivity.
  - intros Hex. unfold filter_geojson.
    destruct filters as [|c rest]; [discriminate|]. cbn [is_nil].
    simpl getitem. rewrite Hf. simpl.
    rewrite (filter_loop_raises (c :: rest) pre post (VDict fd) not_iterable_none Hpre
               (include_feature_null_properties fd (c :: rest) Hnull Hex)).
    reflexivity.
Qed.

End NullProperties.

Section CombinationOutcomes.
Context {E : Externals}.

Lemma geom_type_Polygon (g : geometry) :
  String.eqb (geom_type g) "Polygon" = true ->
  exists shell holes, g = Polygon shell holes.
Proof. destruct g; simpl; try discriminate. eauto. Qed.

Lemma new_MultiPolygon_one (shell : ring) (holes : list ring) :
  exists polys, new_MultiPolygon [Polygon shell holes] = Return (MultiPolygon polys).
Proof. unfold new_MultiPolygon. simpl. eexists. reflexivity. Qed.

Lemma process_geometries_cases (doc : pyval) :
  match process_geometries doc with
  | (log, Some g) => log = [] /\ geom_type g <> "Polygon"
  | (log, None) => exists m, log = [StError m] \/ log = [StWarning m]
  end.
Proof.
  unfold process_geometries.
  destruct (process_geometries_body doc) as [[log o]|e] eqn:Hb;
    [|eexists; left; reflexivity].
  unfold process_geometries_body in Hb.
  destruct (if negb (truthy doc) then Return true
            else b <- contains "features" doc;; Return (negb b)) as [inv|e];
    simpl in Hb; [|discriminate].
  destruct inv; [injection Hb as <- <-; eexists; left; reflexivity|].
  destruct (feature_geometries doc) as [gs|e]; simpl in Hb; [|discriminate].
  destruct (is_nil gs); [injection Hb as <- <-; eexists; right; reflexivity|].
  destruct (unary_union gs) as [c|e]; simpl in Hb; [|discriminate].
  destruct (String.eqb (geom_type c) "Polygon") eqn:Hc.
  - apply geom_type_Polygon in Hc as (shell & holes & ->).
    destruct (new_MultiPolygon_one shell holes) as (polys & Hm).
    rewrite Hm in Hb. simpl in Hb. injection Hb as <- <-.
    split; [reflexivity | discriminate].
  - simpl in Hb. injection Hb as <- <-. split; [reflexivity|].
    intros Heq. rewrite Heq in Hc. discriminate.
Qed.

(** X16.  What [process_geometries] hands back: either a geometry with
    nothing reported, and then never a bare Polygon, or no geometry
    together with exactly one error or warning. *)
Theorem process_geometries_outcome (doc : pyval) :
  (forall g, snd (process_geometries doc) = Some g ->
     fst (process_geometries doc) = [] /\ geom_type g <> "Polygon")
  /\ (snd (process_geometries doc) = None ->
      exists m, fst (process_geometries doc) = [StError m]
                \/ fst (process_geometries doc) = [StWarning m]).
Proof.
  pose proof (process_geometries_cases doc) as H.
  destruct (process_geometries doc) as [log [g|]]; simpl; split.
  - intros g' [= <-]. exact H.
  - discriminate.
  - discriminate.
  - intros _. exact H.
Qed.

(** X17.  A union that is not a single polygon (a MultiPolygon, a
    GeometryCollection of mixed members, a point, ...) is returned as the
    union algorithm gave it. *)
Theorem process_geometries_pass_through
    (doc : pyval) (gs : list geometry) (g : geometry) :
  feature_geometries doc = Return gs ->
  gs <> [] ->
  unary_union gs = Return g ->
  geom_type g <> "Polygon" ->
  process_geometries doc = ([], Some g).
Proof.
  intros Hgs Hne Hu Ht.
  destruct (feature_geometries_has_features _ _ Hgs) as [Htr Hc].
  unfold process_geometries, process_geometries_body.
  rewrite Htr, Hc. simpl. rewrite Hgs. simpl.
  destruct gs as [|g0 gs']; [contradiction|]. simpl. rewrite Hu. simpl.
  destruct (String.eqb (geom_type g) "Polygon") eqn:Hp; [|reflexivity].
  apply String.eqb_eq in Hp. contradiction.
Qed.

(** X18.  How [process_geometries] fails, on a mapping with a features
    entry: a geometry that does not parse, a feature without a geometry
    key or a union that fails is reported with the text of the exception;
    no features at all is a warning.  Nothing is raised. *)
Theorem process_geometries_failures
    (d : list (string * pyval)) (fs : pyval) :
  lookup "features" d = Some fs ->
  (forall e, feature_geometries (VDict d) = Raise e ->
     process_geometries (VDict d)
     = ([StError ("Error processing geometries: " ++ str_exn e)], None))
  /\ (feature_geometries (VDict d) = Return [] ->
      process_geometries (VDict d)
      = ([StWarning "No features found to process."], None))
  /\ (forall gs e, feature_geometries (VDict d) = Return gs -> gs <> [] ->
        unary_union gs = Raise e ->
        process_geometries (VDict d)
        = ([StError ("Error processing geometries: " ++ str_exn e)], None)).
Proof.
  intros Hf.
  assert (Hg : truthy (VDict d) = true /\ contains "features" (VDict d) = Return true).
  { simpl. rewrite (has_key_lookup _ _ _ Hf). destruct d; [discriminate|].
    split; reflexivity. }
  destruct Hg as [Ht Hc].
  unfold process_geometries, process_geometries_body. rewrite Ht, Hc. simpl negb.
  cbn [bind]. repeat split.
  - intros e ->. reflexivity.
  - intros ->. reflexivity.
  - intros gs e Hg Hne Hu. rewrite Hg. cbn [bind].
    destruct gs; [contradiction|]. cbn [is_nil]. rewrite Hu. reflexivity.
Qed.

(** A document without usable features is turned away at the door. *)
Lemma process_geometries_invalid (doc : pyval) :
  truthy doc = false \/ contains "features" doc = Return false ->
  process_geometries doc = ([StError "Invalid GeoJSON data"], None).
Proof.
  unfold process_geometries, process_geometries_body.
  intros [Ht | Hc].
  - rewrite Ht. reflexivity.
  - rewrite Hc. destruct (truthy doc); reflexivity.
Qed.

Lemma exported_document_valid (g : geometry) :
  validate_geojson
    (VDict [("type", VStr "FeatureCollection");
            ("features",
             VList [VDict [("type", VStr "Feature");
                           ("geometry", mapping g);
                           ("properties", VDict [])]])])
  = (true, "Valid GeoJSON").
Proof. reflexivity. Qed.

(** X19.  The exported document goes back through the pipeline:
    [validate_geojson] accepts it, every FilterSpec leaves its single
    feature out or in without raising, and, for a geometry library that
    reads back the mapping it wrote and unions a lone geometry to itself,
    [process_geometries] on the export returns the combined geometry
    again. *)
Theorem exported_document_round_trip (doc : pyval) (g : geometry) (out : pyval) :
  snd (process_geometries doc) = Some g ->
  processed_geojson (Some g) = Some out ->
  validate_geojson out = (true, "Valid GeoJSON")
  /\ (forall filters, exists kept, filter_geojson out filters = Return kept)
  /\ (shape (mapping g) = Return g -> unary_union [g] = Return g ->
      process_geometries out = ([], Some g)).
Proof.
  intros Hg Hout. unfold processed_geojson in Hout.
  destruct (geom_bool g); [|discriminate]. injection Hout as <-.
  split; [apply exported_document_valid|]. split.
  - intros [|c rest]; [eexists; reflexivity|].
    eexists.
    apply (filter_geojson_run
             [("type", VStr "FeatureCollection");
              ("features", VList [VDict [("type", VStr "Feature");
                                         ("geometry", mapping g);
                                         ("properties", VDict [])]])]
             [VDict [("type", VStr "Feature");
                     ("geometry", mapping g);
                     ("properties", VDict [])]]
             (c :: rest) eq_refl eq_refl).
    discriminate.
  - intros Hs Hu.
    pose proof (process_geometries_cases doc) as Ho.
    destruct (process_geometries doc) as [log o]. simpl in Hg. subst o.
    destruct Ho as [_ Hnp].
    unfold process_geometries, process_geometries_body, feature_geometries.
    simpl. rewrite Hs. simpl. rewrite Hu. simpl.
    destruct (String.eqb (geom_type g) "Polygon") eqn:Hp; [|reflexivity].
    apply String.eqb_eq in Hp. contradiction.
Qed.

End CombinationOutcomes.

Section Detection.
Context {E : Externals} {F : FileExternals}.

Lemma parses_as_geojson_true (content : string) :
  parses_as_geojson content = Return true <->
  exists s d,
    utf8_decode content = Some s
    /\ json_loads_str s = Return (VDict d)
    /\ has_key "type" d = true
    /\ has_key "features" d = true.
Proof.
  unfold parses_as_geojson. split.
  - destruct (utf8_decode content) as [s|] eqn:Hd; [|discriminate].
    destruct (json_loads_str s) as [p|e] eqn:Hj; [|destruct e; discriminate].
    destruct p; simpl; try discriminate.
    destruct (has_key "type" d) eqn:Ht; simpl; [|discriminate].
    intros [= Hf]. exists s, d. repeat split; (reflexivity || assumption).
  - intros (s & d & -> & -> & Ht & Hf). simpl. rewrite Ht, Hf. reflexivity.
Qed.

(** X20.  [detect_file_type] leaves the file rewound to its start with
    its content untouched, whatever it answers.  It answers "geojson"
    exactly when the bytes read decode as UTF-8 and parse to a JSON mapping
    with both a type and a features key, before the CSV reader is tried;
    it answers "csv" only for content the CSV reader accepts; and it
    reports an error only together with "unknown". *)
Theorem detect_file_type_spec (file : upload) :
  let after := fst (fst (detect_file_type file)) in
  let log := snd (fst (detect_file_type file)) in
  let answer := snd (detect_file_type file) in
  position after = 0
  /\ content after = content file
  /\ (answer = "geojson" <->
      exists s d,
        utf8_decode (fst (file_read file)) = Some s
        /\ json_loads_str s = Return (VDict d)
        /\ has_key "type" d = true
        /\ has_key "features" d = true)
  /\ (answer = "csv" -> read_csv_parses (fst (file_read file)) = true)
  /\ (answer = "geojson" \/ answer = "csv" \/ answer = "unknown")
  /\ (log <> [] -> answer = "unknown").
Proof.
  cbv zeta. rewrite <- parses_as_geojson_true.
  unfold detect_file_type. cbn [file_read fst snd].
  destruct (parses_as_geojson _) as [[|]|e]; cbn [fst snd file_seek position content].
  - repeat split; try tauto; try discriminate; try congruence.
  - destruct (read_csv_parses _); cbn [fst snd position content];
      repeat split; try tauto; try discriminate; try congruence.
  - repeat split; try tauto; try discriminate; try congruence.
Qed.

(** X21.  After the answer "geojson" the parsed document has both
    required keys, so [validate_geojson] never answers with the
    missing-required-fields message on it; and validating the decoded text
    gives the same verdict as validating its parse. *)
Theorem detected_geojson_validates (file : upload) :
  snd (detect_file_type file) = "geojson" ->
  exists s d,
    utf8_decode (fst (file_read file)) = Some s
    /\ json_loads_str s = Return (VDict d)
    /\ validate_geojson (VDict d)
       <> (false, "Invalid GeoJSON structure: missing required fields")
    /\ validate_geojson (VStr s) = validate_geojson (VDict d).
Proof.
  intros Ha.
  assert (Hp : parses_as_geojson (fst (file_read file)) = Return true).
  { unfold detect_file_type in Ha. cbn [file_read fst] in *.
    destruct (parses_as_geojson _) as [[|]|e]; [reflexivity | |discriminate].
    destruct (read_csv_parses _); discriminate. }
  apply parses_as_geojson_true in Hp as (s & d & Hd & Hj & Ht & Hf).
  exists s, d. split; [exact Hd|]. split; [exact Hj|]. split.
  - unfold validate_geojson, validate_geojson_body. simpl. rewrite Ht, Hf. simpl.
    apply lookup_has_key in Ht as (t & Ht), Hf as (fs & Hf). rewrite Ht, Hf. simpl.
    destruct (eq_str t "FeatureCollection"); simpl; [|discriminate].
    destruct (truthy fs); simpl; discriminate.
  - unfold validate_geojson, validate_geojson_body. simpl. rewrite Hj. reflexivity.
Qed.

End Detection.

(* ------------------------------------------------------------------ *)
(** * The properties on concrete inputs *)

#[local] Existing Instance Sample.externals.

(** C1 (the code departs from it).  Each coordinate column of [cities] has
    a value that coerces, and every value that coerces is in range; one
    latitude, "abc", does not coerce.  The validator answers with the
    latitude range message instead of [(True, "Valid coordinates")]: the
    NaN left by the failed coercion takes part in the range test. *)
Theorem validate_csv_coordinates_partial_failure :
  mem_str "lat" (columns cities) = true
  /\ mem_str "lon" (columns cities) = true
  /\ existsb (fun r => negb (coordinate_fails "lat" r)) (rows cities) = true
  /\ existsb (fun r => negb (coordinate_fails "lon" r)) (rows cities) = true
  /\ forallb (fun r => coordinate_fails "lat" r
                       || in_range (-90) 90 (to_numeric1 (cell "lat" r)))
             (rows cities) = true
  /\ forallb (fun r => coordinate_fails "lon" r
                       || in_range (-180) 180 (to_numeric1 (cell "lon" r)))
             (rows cities) = true
  /\ validate_csv_coordinates cities "lat" "lon"
     = (false, "Latitude values must be between -90 and 90").
Proof. repeat split; vm_compute; reflexivity. Qed.

(** The scenario of the specification: a latitude of 91. *)
Example validate_csv_coordinates_out_of_range :
  validate_csv_coordinates
    {| columns := ["lat"; "lon"; "name"];
       rows := [ [("lat", VInt 91); ("lon", VInt 45); ("name", VStr "X")] ] |}
    "lat" "lon"
  = (false, "Latitude values must be between -90 and 90").
Proof. vm_compute. reflexivity. Qed.

(** With every field a number in range the frame is accepted. *)
Example validate_csv_coordinates_valid :
  validate_csv_coordinates
    {| columns := ["lat"; "lon"];
       rows := [ [("lat", VFloat 45.5); ("lon", VInt 10)];
                 [("lat", VFloat (-90)); ("lon", VInt 180)] ] |}
    "lat" "lon"
  = (true, "Valid coordinates").
Proof. vm_compute. reflexivity. Qed.

(** The conversion that follows in the pipeline does drop that row and
    keeps the other two. *)
Example csv_to_geojson_cities :
  returned (csv_to_geojson cities "lat" "lon") =
    Return (Some (VDict
      [("type", VStr "FeatureCollection");
       ("features",
        VList
          [VDict [("type", VStr "Feature");
                  ("geometry", VDict [("type", VStr "Point");
                                      ("coordinates", VTuple [VFloat 10; VFloat 45.5])]);
                  ("properties", VDict [("name", VStr "X"); ("pop", VStr "7")])];
           VDict [("type", VStr "Feature");
                  ("geometry", VDict [("type", VStr "Point");
                                      ("coordinates",
                                       VTuple [VFloat 130; VFloat (-12.25)])]);
                  ("properties", VDict [("name", VNone); ("pop", VStr "9")])]])])).
Proof. vm_compute. reflexivity. Qed.

Lemma filter_geojson_spec_witness :
  lookup "type" categories = Some (VStr "FeatureCollection")
  /\ lookup "features" categories = Some (VList category_features)
  /\ forallb has_properties category_features = true
  /\ exists out,
       filter_geojson (VDict categories) by_category = Return (VDict out)
       /\ lookup "type" out = Some (VStr "FeatureCollection")
       /\ lookup "features" out
          = Some (VList (filter (passes by_category) category_features))
       /\ (forall feature,
             passes by_category feature = true <->
             forall prop values, In (prop, values) by_category ->
               values = [] \/
               exists s, property_of prop feature = Some s /\ In s values)
       /\ (by_category = [] ->
           out = categories
           /\ filter (passes by_category) category_features = category_features).
Proof.
  split; [reflexivity|]. split; [reflexivity|]. split; [reflexivity|].
  exact (filter_geojson_spec categories category_features by_category
           eq_refl eq_refl eq_refl).
Defined.

(** The scenario of the specification: of the categories A, B, C the
    filter on A and B keeps the first two features. *)
Example filter_geojson_categories :
  filter_geojson (VDict categories) by_category
  = Return (VDict [("type", VStr "FeatureCollection");
                   ("features", VList [categorized "A"; categorized "B"])])
  /\ filter_geojson (VDict categories) [] = Return (VDict categories).
Proof. split; reflexivity. Qed.

Lemma get_property_values_spec_witness :
  lookup "features" categories = Some (VList category_features)
  /\ forallb properties_ok category_features = true
  /\ exists l,
       get_property_values (VDict categories) "rank" = Return l
       /\ StronglySorted str_lt l
       /\ NoDup l
       /\ (forall s, In s l <->
                     exists f, In f category_features
                               /\ property_of "rank" f = Some s).
Proof.
  split; [reflexivity|]. split; [reflexivity|].
  exact (get_property_values_spec categories category_features "rank"
           eq_refl eq_refl).
Defined.

Example get_property_values_rank :
  get_property_values (VDict categories) "rank" = Return ["3"; "None"]
  /\ get_property_values (VDict categories) "category" = Return ["A"; "B"; "C"].
Proof. split; reflexivity. Qed.

(** C3 (the code departs from it).  [survey] has both coordinate columns,
    both coordinates of its row coerce, and its column pop holds the
    integer 7, whose stringified value is "7".  The Feature of the row has
    the Point at (longitude, latitude), but its property pop is "7.0":
    [iterrows] hands the row over as one Series of dtype float64, the
    common dtype of the columns, so the integer is stringified as a float.
    Beside a text column the row is an object Series and the same cell is
    exported as "7". *)
Theorem csv_to_geojson_integer_property :
  wf_df survey = true
  /\ mem_str "lat" (columns survey) = true
  /\ mem_str "lon" (columns survey) = true
  /\ forallb (fun r => negb (coordinate_fails "lat" r)
                       && negb (coordinate_fails "lon" r)) (rows survey) = true
  /\ column "pop" survey = [VInt 7]
  /\ py_str (VInt 7) = "7"
  /\ VStr "7.0" <> VStr (py_str (VInt 7))
  /\ returned (csv_to_geojson survey "lat" "lon") =
       Return (Some (VDict
         [("type", VStr "FeatureCollection");
          ("features",
           VList
             [VDict [("type", VStr "Feature");
                     ("geometry", VDict [("type", VStr "Point");
                                         ("coordinates",
                                          VTuple [VFloat 10; VFloat 45.5])]);
                     ("properties", VDict [("pop", VStr "7.0")])]])]))
  /\ returned (csv_to_geojson named_survey "lat" "lon") =
       Return (Some (VDict
         [("type", VStr "FeatureCollection");
          ("features",
           VList
             [VDict [("type", VStr "Feature");
                     ("geometry", VDict [("type", VStr "Point");
                                         ("coordinates",
                                          VTuple [VFloat 10; VFloat 45.5])]);
                     ("properties",
                      VDict [("name", VStr "X"); ("pop", VStr "7")])]])])).
Proof.
  repeat split; try (vm_compute; reflexivity).
  intros H. vm_compute in H. discriminate H.
Qed.

(** With no row that coerces the converter returns no collection. *)
Example csv_to_geojson_no_survivor :
  let df := {| columns := ["lat"; "lon"];
               rows := [ [("lat", VStr "north"); ("lon", VStr "east")] ] |} in
  returned (csv_to_geojson df "lat" "lon") = Return None
  /\ events (csv_to_geojson df "lat" "lon")
     = [StError "No valid features could be created from the CSV data"].
Proof. split; reflexivity. Qed.


(** The longitude column of [cities] is an integer column: the assignment
    leaves its cells the integers they were. *)
Example csv_to_geojson_keeps_integers :
  column "lon" (df_after (csv_to_geojson cities "lat" "lon"))
  = [VInt 10; VInt 20; VInt 130]
  /\ column "pop" (df_after (csv_to_geojson cities "lat" "lon"))
     = [VInt 7; VInt 8; VInt 9].
Proof. split; vm_compute; reflexivity. Qed.


(** On the store, the filter on A and B creates two objects, the list of
    the kept features and the collection; the list holds the references of
    the first two features of the input, and the ten objects of the input
    are as they were. *)
Example filter_geojson_h_categories :
  filter_geojson_h category_doc by_category category_heap
  = Some (Return (HRef 11),
          category_heap
          ++ [HList [HRef 1; HRef 3];
              HDict [("type", HStr "FeatureCollection"); ("features", HRef 10)]])
  /\ filter_geojson_h category_doc [] category_heap
     = Some (Return category_doc, category_heap).
Proof. split; reflexivity. Qed.

Lemma process_geometries_single_polygon_witness :
  feature_geometries one_square = Return [Polygon square []]
  /\ [Polygon square []] <> []
  /\ unary_union [Polygon square []] = Return (Polygon square [])
  /\ square <> []
  /\ process_geometries one_square = ([], Some (MultiPolygon [(square, [])])).
Proof.
  split; [reflexivity|]. split; [discriminate|]. split; [reflexivity|].
  split; [discriminate|].
  apply (process_geometries_single_polygon one_square [Polygon square []]);
    [reflexivity | discriminate | reflexivity | discriminate].
Defined.

Lemma processed_geojson_single_feature_witness :
  snd (process_geometries one_square) = Some (MultiPolygon [(square, [])])
  /\ geom_bool (MultiPolygon [(square, [])]) = true
  /\ processed_geojson (snd (process_geometries one_square)) =
       Some (VDict [("type", VStr "FeatureCollection");
                    ("features",
                     VList [VDict [("type", VStr "Feature");
                                   ("geometry", mapping (MultiPolygon [(square, [])]));
                                   ("properties", VDict [])]])]).
Proof.
  split; [reflexivity|]. split; [reflexivity|].
  exact (proj1 (processed_geojson_single_feature one_square
                  (MultiPolygon [(square, [])]) eq_refl) eq_refl).
Defined.

(** A union that comes back empty is not exported at all. *)
Example processed_geojson_empty :
  processed_geojson (Some (GeometryCollection [])) = None
  /\ processed_geojson None = None.
Proof. split; reflexivity. Qed.

(** C8, as stated, fails on an array: the message is the one of the
    caught type error, not the missing-required-fields message. *)
Lemma validate_geojson_array :
  validate_geojson (VList [VInt 1; VInt 2])
  = (false, "Invalid GeoJSON: the JSON object must be str, bytes or bytearray, not list")
  /\ validate_geojson (VList [VInt 1; VInt 2])
     <> (false, "Invalid GeoJSON structure: missing required fields").
Proof. split; [reflexivity | discriminate]. Qed.

Lemma validate_geojson_non_mapping_witness :
  is_dict (VInt 5) = false
  /\ is_str (VInt 5) = false
  /\ validate_geojson (VInt 5)
     = (false, "Invalid GeoJSON: the JSON object must be str, bytes or bytearray, not int")
  /\ has_key "type" [("features", VList [VNone])]
     && has_key "features" [("features", VList [VNone])] = false
  /\ validate_geojson (VDict [("features", VList [VNone])])
     = (false, "Invalid GeoJSON structure: missing required fields").
Proof.
  split; [reflexivity|]. split; [reflexivity|].
  split; [exact (proj1 (proj1 (validate_geojson_non_mapping (VInt 5)) eq_refl eq_refl))|].
  split; [reflexivity|].
  exact (proj2 (validate_geojson_non_mapping (VDict [("features", VList [VNone])]))
               _ eq_refl eq_refl).
Defined.

(** The scenarios of the specification on mappings. *)
Example validate_geojson_scenarios :
  validate_geojson (VDict [("type", VStr "FeatureCollection"); ("features", VList [])])
  = (false, "GeoJSON contains no features")
  /\ validate_geojson (VDict [("type", VStr "Feature"); ("features", VList [VNone])])
     = (false, "Invalid GeoJSON: root type must be 'FeatureCollection'")
  /\ validate_geojson (VDict categories) = (true, "Valid GeoJSON").
Proof. repeat split. Qed.

Lemma validate_geojson_text_witness :
  json_loads_str Sample.collection_text = Return Sample.collection_doc
  /\ validate_geojson (VStr Sample.collection_text) = (true, "Valid GeoJSON")
  /\ json_loads_str "not json"
     = Raise (JSONDecodeError "Expecting value: line 1 column 1 (char 0)")
  /\ validate_geojson (VStr "not json")
     = (false, "Invalid GeoJSON: Expecting value: line 1 column 1 (char 0)").
Proof.
  split; [reflexivity|].
  split; [exact (proj1 (validate_geojson_text Sample.collection_text)
                       _ _ eq_refl eq_refl eq_refl eq_refl)|].
  split; [reflexivity|].
  exact (proj2 (validate_geojson_text "not json") _ eq_refl).
Defined.

(* ------------------------------------------------------------------ *)
(** * The further properties on concrete inputs *)

#[local] Existing Instance SampleFile.files.

Lemma validate_csv_coordinates_degenerate_witness :
  mem_str "lat" (columns latitudes_only) && mem_str "lon" (columns latitudes_only)
  = false
  /\ validate_csv_coordinates latitudes_only "lat" "lon"
     = (false, "Selected columns not found in CSV")
  /\ validate_csv_coordinates {| columns := ["lat"; "lon"]; rows := [] |} "lat" "lon"
     = (false, "Selected columns do not contain valid numeric data").
Proof.
  split; [reflexivity|].
  split; [exact (proj1 (validate_csv_coordinates_degenerate latitudes_only "lat" "lon")
                       eq_refl)|].
  exact (proj2 (validate_csv_coordinates_degenerate
                  {| columns := ["lat"; "lon"]; rows := [] |} "lat" "lon")
               eq_refl eq_refl).
Defined.


(** In a frame with a text column the cells are stringified as they are
    stored. *)
Example validated_frame_converts_ports :
  common_dtype (dtypes (df_after (csv_to_geojson ports "lat" "lon"))) = Object
  /\ map (row_feature Object "lat" "lon") (rows ports)
     = [VDict [("type", VStr "Feature");
               ("geometry", VDict [("type", VStr "Point");
                                   ("coordinates", VTuple [VFloat 9.75; VFloat 53.5])]);
               ("properties", VDict [("name", VStr "Hamburg")])];
        VDict [("type", VStr "Feature");
               ("geometry", VDict [("type", VStr "Point");
                                   ("coordinates",
                                    VTuple [VFloat 18.25; VFloat (-33.5)])]);
               ("properties", VDict [("name", VStr "Cape Town")])]].
Proof. split; vm_compute; reflexivity. Qed.


Lemma csv_to_geojson_missing_column_witness :
  wf_df latitudes_only = true
  /\ mem_str "lat" (columns latitudes_only) = true
  /\ mem_str "lon" (columns latitudes_only) = false
  /\ forallb reads_int64 (column "lat" latitudes_only) = true
  /\ returned (csv_to_geojson latitudes_only "lat" "lon") = Raise (KeyError "lon")
  /\ column "lat" (df_after (csv_to_geojson latitudes_only "lat" "lon"))
     = [VFloat 53.5]
  /\ column "name" (df_after (csv_to_geojson latitudes_only "lat" "lon"))
     = [VStr "Hamburg"]
  /\ mem_str "latitude" (columns latitudes_only) = false
  /\ df_after (csv_to_geojson latitudes_only "latitude" "lon") = latitudes_only.
Proof.
  assert (Hi : forallb reads_int64 (column "lat" latitudes_only) = true)
    by reflexivity.
  split; [reflexivity|]. split; [reflexivity|]. split; [reflexivity|].
  split; [exact Hi|].
  destruct (proj2 (csv_to_geojson_missing_column latitudes_only "lat" "lon")
                  eq_refl eq_refl eq_refl Hi) as (H1 & _ & _ & H3).
  split; [exact H1|].
  split; [rewrite (H3 "lat"); vm_compute; reflexivity|].
  split; [rewrite (H3 "name"); vm_compute; reflexivity|].
  split; [reflexivity|].
  exact (proj2 (proj1 (csv_to_geojson_missing_column latitudes_only "latitude" "lon")
                      eq_refl)).
Defined.

Lemma csv_to_geojson_again_witness :
  wf_df cities = true
  /\ mem_str "lat" (columns cities) = true
  /\ mem_str "lon" (columns cities) = true
  /\ csv_to_geojson (df_after (csv_to_geojson cities "lat" "lon")) "lat" "lon"
     = csv_to_geojson cities "lat" "lon".
Proof.
  split; [reflexivity|]. split; [reflexivity|]. split; [reflexivity|].
  exact (csv_to_geojson_again "lat" "lon" cities eq_refl eq_refl eq_refl).
Defined.

Lemma filter_geojson_idempotent_witness :
  lookup "features" categories = Some (VList category_features)
  /\ forallb has_properties category_features = true
  /\ exists out,
       filter_geojson (VDict categories) by_category = Return out
       /\ filter_geojson out by_category = Return out.
Proof.
  split; [reflexivity|]. split; [reflexivity|].
  exact (filter_geojson_idempotent categories category_features by_category
           eq_refl eq_refl).
Defined.

Lemma filter_geojson_compose_witness :
  lookup "features" categories = Some (VList category_features)
  /\ forallb has_properties category_features = true
  /\ [("category", ["A"; "B"])] <> []
  /\ [("rank", ["3"])] <> []
  /\ exists out1 out2,
       filter_geojson (VDict categories) [("category", ["A"; "B"])] = Return out1
       /\ filter_geojson (VDict categories) [("rank", ["3"])] = Return out2
       /\ filter_geojson out1 [("rank", ["3"])]
          = filter_geojson (VDict categories)
              ([("category", ["A"; "B"])] ++ [("rank", ["3"])])
       /\ filter_geojson out2 [("category", ["A"; "B"])]
          = filter_geojson (VDict categories)
              ([("category", ["A"; "B"])] ++ [("rank", ["3"])]).
Proof.
  split; [reflexivity|]. split; [reflexivity|].
  split; [discriminate|]. split; [discriminate|].
  apply (filter_geojson_compose categories category_features);
    [reflexivity | reflexivity | discriminate | discriminate].
Defined.

Lemma filter_geojson_shrinks_witness :
  filter_geojson (VDict categories) by_category
  = Return (VDict [("type", VStr "FeatureCollection");
                   ("features", VList [categorized "A"; categorized "B"])])
  /\ (fs <- getitem (VDict categories) "features" ;; py_iter fs)
     = Return category_features
  /\ exists kept,
       (fs <- getitem (VDict [("type", VStr "FeatureCollection");
                              ("features", VList [categorized "A"; categorized "B"])])
                      "features" ;; py_iter fs) = Return kept
       /\ List.length kept <= List.length category_features
       /\ incl kept category_features.
Proof.
  split; [reflexivity|]. split; [reflexivity|].
  exact (filter_geojson_shrinks (VDict categories) by_category _ category_features
           eq_refl eq_refl).
Defined.

Lemma filter_geojson_no_values_witness :
  [("kind", @nil string); ("rank", [])] <> []
  /\ forallb (fun c => is_nil (snd c)) [("kind", @nil string); ("rank", [])] = true
  /\ (fs <- getitem (VDict loose) "features" ;; py_iter fs)
     = Return [VDict [("type", VStr "Feature")]; VInt 3]
  /\ filter_geojson (VDict loose) [("kind", []); ("rank", [])]
     = Return (VDict [("type", VStr "FeatureCollection");
                      ("features", VList [VDict [("type", VStr "Feature")]; VInt 3])])
  /\ filter_geojson (VDict loose) [] = Return (VDict loose).
Proof.
  split; [discriminate|]. split; [reflexivity|]. split; [reflexivity|].
  apply (filter_geojson_no_values (VDict loose));
    [discriminate | reflexivity | reflexivity].
Defined.

Lemma filter_by_all_values_witness :
  lookup "features" categories = Some (VList category_features)
  /\ forallb has_properties category_features = true
  /\ exists values,
       get_property_values (VDict categories) "category" = Return values
       /\ (values <> [] ->
           filter_geojson (VDict categories) [("category", values)] =
             Return (VDict [("type", VStr "FeatureCollection");
                            ("features",
                             VList (filter (has_property "category")
                                           category_features))]))
       /\ (values = [] ->
           forallb (fun f => negb (has_property "category" f)) category_features
           = true).
Proof.
  split; [reflexivity|]. split; [reflexivity|].
  exact (filter_by_all_values categories category_features "category" eq_refl eq_refl).
Defined.

(** The fourth feature has no category: it is dropped with every category
    selected. *)
Example filter_by_all_categories :
  get_property_values (VDict categories) "category" = Return ["A"; "B"; "C"]
  /\ filter_geojson (VDict categories) [("category", ["A"; "B"; "C"])]
     = Return (VDict [("type", VStr "FeatureCollection");
                      ("features", VList [categorized "A"; categorized "B";
                                          categorized "C"])]).
Proof. split; reflexivity. Qed.

Lemma listed_value_selects_witness :
  lookup "features" categories = Some (VList category_features)
  /\ forallb has_properties category_features = true
  /\ get_property_values (VDict categories) "rank" = Return ["3"; "None"]
  /\ In "None" ["3"; "None"]
  /\ exists f kept,
       filter_geojson (VDict categories) [("rank", ["None"])] =
         Return (VDict [("type", VStr "FeatureCollection"); ("features", VList kept)])
       /\ In f kept /\ In f category_features /\ property_of "rank" f = Some "None".
Proof.
  split; [reflexivity|]. split; [reflexivity|]. split; [reflexivity|].
  split; [simpl; tauto|].
  apply (listed_value_selects categories category_features "rank" "None" ["3"; "None"]);
    [reflexivity | reflexivity | reflexivity | simpl; tauto].
Defined.

Lemma csv_to_geojson_result_usable_witness :
  wf_df cities = true
  /\ mem_str "lat" (columns cities) = true
  /\ mem_str "lon" (columns cities) = true
  /\ (exists fc,
        returned (csv_to_geojson cities "lat" "lon") = Return (Some fc)
        /\ validate_geojson fc = (true, "Valid GeoJSON")
        /\ (forall filters, exists out, filter_geojson fc filters = Return out)).
Proof.
  split; [reflexivity|]. split; [reflexivity|]. split; [reflexivity|].
  eexists. split; [vm_compute; reflexivity|].
  assert (H := fun fc Hr =>
                 csv_to_geojson_result_usable cities "lat" "lon" fc
                   eq_refl eq_refl eq_refl Hr).
  specialize (H _ csv_to_geojson_cities).
  destruct H as (Hv & Hf & _). split; [exact Hv | exact Hf].
Defined.

Lemma null_properties_raise_witness :
  lookup "features" with_null
  = Some (VList ([categorized "A"]
                 ++ VDict [("type", VStr "Feature"); ("geometry", VNone);
                           ("properties", VNone)]
                    :: [categorized "B"]))
  /\ forallb has_properties [categorized "A"] = true
  /\ lookup "properties" [("type", VStr "Feature"); ("geometry", VNone);
                          ("properties", VNone)] = Some VNone
  /\ get_property_values (VDict with_null) "category" = Raise not_iterable_none
  /\ existsb (fun c => negb (is_nil (snd c))) by_category = true
  /\ filter_geojson (VDict with_null) by_category = Raise not_iterable_none.
Proof.
  split; [reflexivity|]. split; [reflexivity|]. split; [reflexivity|].
  destruct (null_properties_raise with_null _ [categorized "A"] [categorized "B"]
              "category" by_category eq_refl eq_refl eq_refl) as [H1 H2].
  split; [exact H1|]. split; [reflexivity | exact (H2 eq_refl)].
Defined.

Lemma process_geometries_outcome_witness :
  snd (process_geometries one_square) = Some (MultiPolygon [(square, [])])
  /\ fst (process_geometries one_square) = []
  /\ geom_type (MultiPolygon [(square, [])]) <> "Polygon"
  /\ snd (process_geometries (VDict no_geometry)) = None
  /\ exists m, fst (process_geometries (VDict no_geometry)) = [StError m]
               \/ fst (process_geometries (VDict no_geometry)) = [StWarning m].
Proof.
  assert (Hs : snd (process_geometries one_square)
               = Some (MultiPolygon [(square, [])])) by reflexivity.
  assert (Hn : snd (process_geometries (VDict no_geometry)) = None) by reflexivity.
  split; [exact Hs|].
  destruct (proj1 (process_geometries_outcome one_square) _ Hs) as [H1 H2].
  split; [exact H1|]. split; [exact H2|]. split; [exact Hn|].
  exact (proj2 (process_geometries_outcome (VDict no_geometry)) Hn).
Defined.

Lemma process_geometries_pass_through_witness :
  feature_geometries (VDict one_point) = Return [Point 9.75 53.5]
  /\ [Point 9.75 53.5] <> []
  /\ unary_union [Point 9.75 53.5] = Return (Point 9.75 53.5)
  /\ geom_type (Point 9.75 53.5) <> "Polygon"
  /\ process_geometries (VDict one_point) = ([], Some (Point 9.75 53.5)).
Proof.
  split; [reflexivity|]. split; [discriminate|]. split; [reflexivity|].
  split; [discriminate|].
  apply (process_geometries_pass_through (VDict one_point) [Point 9.75 53.5]);
    [reflexivity | discriminate | reflexivity | discriminate].
Defined.

Lemma process_geometries_failures_witness :
  lookup "features" no_geometry
  = Some (VList [VDict [("type", VStr "Feature"); ("properties", VDict [])]])
  /\ feature_geometries (VDict no_geometry) = Raise (KeyError "geometry")
  /\ process_geometries (VDict no_geometry)
     = ([StError "Error processing geometries: 'geometry'"], None)
  /\ feature_geometries (VDict [("features", VList [])]) = Return []
  /\ process_geometries (VDict [("features", VList [])])
     = ([StWarning "No features found to process."], None).
Proof.
  split; [reflexivity|]. split; [reflexivity|].
  split; [exact (proj1 (process_geometries_failures no_geometry _ eq_refl)
                       _ eq_refl)|].
  split; [reflexivity|].
  exact (proj1 (proj2 (process_geometries_failures [("features", VList [])] _ eq_refl))
               eq_refl).
Defined.

Lemma exported_document_round_trip_witness :
  snd (process_geometries (VDict one_point)) = Some (Point 9.75 53.5)
  /\ (exists out,
        processed_geojson (Some (Point 9.75 53.5)) = Some out
        /\ validate_geojson out = (true, "Valid GeoJSON")
        /\ shape (mapping (Point 9.75 53.5)) = Return (Point 9.75 53.5)
        /\ unary_union [Point 9.75 53.5] = Return (Point 9.75 53.5)
        /\ process_geometries out = ([], Some (Point 9.75 53.5))).
Proof.
  assert (Hs : snd (process_geometries (VDict one_point)) = Some (Point 9.75 53.5))
    by reflexivity.
  split; [exact Hs|]. eexists.
  assert (Ho : processed_geojson (Some (Point 9.75 53.5))
               = Some (VDict [("type", VStr "FeatureCollection");
                              ("features",
                               VList [VDict [("type", VStr "Feature");
                                             ("geometry", mapping (Point 9.75 53.5));
                                             ("properties", VDict [])]])]))
    by reflexivity.
  split; [exact Ho|].
  destruct (exported_document_round_trip (VDict one_point) (Point 9.75 53.5) _ Hs Ho)
    as (Hv & _ & Hp).
  split; [exact Hv|].
  assert (H1 : shape (mapping (Point 9.75 53.5)) = Return (Point 9.75 53.5))
    by reflexivity.
  assert (H2 : unary_union [Point 9.75 53.5] = Return (Point 9.75 53.5))
    by reflexivity.
  split; [exact H1|]. split; [exact H2|].
  exact (Hp H1 H2).
Defined.

Lemma detect_file_type_spec_witness :
  snd (detect_file_type collection_upload) = "geojson"
  /\ position (fst (fst (detect_file_type collection_upload))) = 0
  /\ content (fst (fst (detect_file_type collection_upload)))
     = content collection_upload
  /\ exists s d,
       utf8_decode (fst (file_read collection_upload)) = Some s
       /\ json_loads_str s = Return (VDict d)
       /\ has_key "type" d = true
       /\ has_key "features" d = true.
Proof.
  split; [vm_compute; reflexivity|].
  destruct (detect_file_type_spec collection_upload) as (H1 & H2 & H3 & _).
  split; [exact H1|]. split; [exact H2|].
  apply H3. vm_compute. reflexivity.
Defined.

(** Other content: JSON that is no collection goes to the CSV reader, and
    a file already read to its end is still rewound. *)
Example detect_file_type_other :
  snd (detect_file_type {| content := "lat,lon"; position := 0 |}) = "csv"
  /\ snd (detect_file_type {| content := ""; position := 0 |}) = "unknown"
  /\ detect_file_type {| content := "lat,lon"; position := 7 |}
     = ({| content := "lat,lon"; position := 0 |}, [], "unknown").
Proof. repeat split; vm_compute; reflexivity. Qed.

Lemma detected_geojson_validates_witness :
  snd (detect_file_type collection_upload) = "geojson"
  /\ exists s d,
       utf8_decode (fst (file_read collection_upload)) = Some s
       /\ json_loads_str s = Return (VDict d)
       /\ validate_geojson (VDict d)
          <> (false, "Invalid GeoJSON structure: missing required fields")
       /\ validate_geojson (VStr s) = validate_geojson (VDict d).
Proof.
  split; [vm_compute; reflexivity|].
  apply (detected_geojson_validates collection_upload). vm_compute. reflexivity.
Defined.
